(** * AOJ-cli: session identifiers, sessions, the local session store,
      the AOJ authentication gateway and the login use case.

    A shallow embedding of the Go sources
      - pkg/cerrors                                       (error kinds, wrapping)
      - internal/domain/model/session_id.go               (SessionID)
      - internal/domain/entity/session.go                 (Session)
      - internal/infrastructure/repository/local_session_repository.go
      - internal/infrastructure/repository/aoj_auth_repository.go
      - internal/usecase/login_usecase.go
    followed by the properties proved about them.

    Conventions of the embedding.
      - A Go [string] is a Rocq [string]: a sequence of 8-bit characters, the
        bytes of the Go string.
      - A Go [(T, error)] result is a [result T]; a Go [error] result alone is
        an [option error], [None] standing for [nil].
      - [time.Time] is the number of nanoseconds since the Unix epoch, in [Z];
        [time.Duration] is a number of nanoseconds, in [Z].
      - A string that goes through encoding/json comes back with every byte
        that starts no UTF-8 encoding replaced by U+FFFD ([json.coerce]).
      - Everything the program asks of its environment (the clock, the file
        system, the network, the random source) is part of an explicit world
        that the operations thread through. *)

From Stdlib Require Import ZArith Lia Bool List Ascii String.
From stdpp Require Import gmap strings list fin_maps sorting.
Import ListNotations.

Set Warnings "-register-all".

Open Scope Z_scope.

(* ===================================================================== *)
(** * pkg/cerrors *)
(* ===================================================================== *)

Module cerrors.

(** [type ErrorCode string] with its nine constants. *)
Inductive ErrorCode : Type :=
| CodeNotFound
| CodeInvalidInput
| CodeUnauthorized
| CodeForbidden
| CodeConflict
| CodeInternalServer
| CodeServiceUnavailable
| CodeTimeout
| CodeNetworkError.

Definition ErrorCode_eqb (a b : ErrorCode) : bool :=
  match a, b with
  | CodeNotFound, CodeNotFound
  | CodeInvalidInput, CodeInvalidInput
  | CodeUnauthorized, CodeUnauthorized
  | CodeForbidden, CodeForbidden
  | CodeConflict, CodeConflict
  | CodeInternalServer, CodeInternalServer
  | CodeServiceUnavailable, CodeServiceUnavailable
  | CodeTimeout, CodeTimeout
  | CodeNetworkError, CodeNetworkError => true
  | _, _ => false
  end.

(** Go error values.
      - [External origin]: an error produced outside the repository (package
        os, net/http, encoding/json, crypto/rand), named by the call that
        failed;
      - [AppError code message err]: the struct [*AppError], [err = None] for
        a nil cause;
      - [Wrapped cause msg]: [cerrors.Wrap cause msg] on a non-nil cause. *)
Inductive error : Type :=
| External (origin : string)
| AppError (Code : ErrorCode) (Message : string) (Err : option error)
| Wrapped (cause : error) (msg : string).

Definition NewAppError (code : ErrorCode) (message : string) (err : option error) : error :=
  AppError code message err.

Definition Wrap (err : error) (msg : string) : error := Wrapped err msg.

(** [cerrors.WithDetail(nil, msg)]: decorating a nil error yields nil. *)
Definition WithDetail_nil (msg : string) : option error := None.

(** [GetErrorCode]: [errors.As] walks the chain of wrappers from the outside
    and stops at the first [*AppError]; the Go function returns the empty code
    when there is none, here [None]. *)
Fixpoint GetErrorCode (err : error) : option ErrorCode :=
  match err with
  | External _ => None
  | AppError code _ _ => Some code
  | Wrapped cause _ => GetErrorCode cause
  end.

Definition IsAppError (err : error) (code : ErrorCode) : bool :=
  match GetErrorCode err with
  | Some c => ErrorCode_eqb c code
  | None => false
  end.

(** A Go [(T, error)] pair. *)
Inductive result (A : Type) : Type :=
| Ok (a : A)
| Err (e : error).
Arguments Ok {A} a.
Arguments Err {A} e.

Definition is_Ok {A} (r : result A) : bool :=
  match r with Ok _ => true | Err _ => false end.

End cerrors.
Import cerrors.

(* ===================================================================== *)
(** * Package strings: [strings.TrimSpace] *)
(* ===================================================================== *)

Module strs.

Definition byte_of (c : ascii) : N := N_of_ascii c.

(** The ASCII white space of Go: tab, line feed, vertical tab, form feed,
    carriage return (9 to 13) and space (32). *)
Definition asciiSpace (c : ascii) : bool :=
  let n := byte_of c in
  (((9 <=? n) && (n <=? 13)) || (n =? 32))%N.

(** The two-byte UTF-8 encodings of white space: U+0085 (C2 85) and
    U+00A0 (C2 A0). *)
Definition space2 (c1 c2 : ascii) : bool :=
  let a := byte_of c1 in
  let b := byte_of c2 in
  ((a =? 194) && ((b =? 133) || (b =? 160)))%N.

(** The three-byte UTF-8 encodings of white space: U+1680 (E1 9A 80),
    U+2000..U+200A (E2 80 80..8A), U+2028 and U+2029 (E2 80 A8, A9),
    U+202F (E2 80 AF), U+205F (E2 81 9F), U+3000 (E3 80 80). *)
Definition space3 (c1 c2 c3 : ascii) : bool :=
  let a := byte_of c1 in
  let b := byte_of c2 in
  let c := byte_of c3 in
  (((a =? 225) && (b =? 154) && (c =? 128))
   || ((a =? 226) && (b =? 128)
       && (((128 <=? c) && (c <=? 138)) || (c =? 168) || (c =? 169) || (c =? 175)))
   || ((a =? 226) && (b =? 129) && (c =? 159))
   || ((a =? 227) && (b =? 128) && (c =? 128)))%N.

(** [TrimLeftFunc(s, unicode.IsSpace)]: drop white-space runes from the front.
    A byte sequence that is not the encoding of a white-space rune (also an
    invalid one) stops the scan. *)
Fixpoint trimLeft (s : string) : string :=
  match s with
  | EmptyString => EmptyString
  | String c1 r1 =>
      if asciiSpace c1 then trimLeft r1
      else match r1 with
           | EmptyString => s
           | String c2 r2 =>
               if space2 c1 c2 then trimLeft r2
               else match r2 with
                    | EmptyString => s
                    | String c3 r3 =>
                        if space3 c1 c2 c3 then trimLeft r3 else s
                    end
           end
  end.

(** The same scan on the reversed string, for [TrimRightFunc]: the last rune
    is found by walking back to its lead byte, so the encodings appear with
    their bytes in reverse order. *)
Fixpoint trimLeftRev (s : string) : string :=
  match s with
  | EmptyString => EmptyString
  | String c1 r1 =>
      if asciiSpace c1 then trimLeftRev r1
      else match r1 with
           | EmptyString => s
           | String c2 r2 =>
               if space2 c2 c1 then trimLeftRev r2
               else match r2 with
                    | EmptyString => s
                    | String c3 r3 =>
                        if space3 c3 c2 c1 then trimLeftRev r3 else s
                    end
           end
  end.

Definition trimRight (s : string) : string :=
  String.rev (trimLeftRev (String.rev s)).

(** [strings.TrimSpace]: all leading and trailing white space removed. *)
Definition TrimSpace (s : string) : string := trimRight (trimLeft s).


(** [strings.Repeat(s, count)] for a count that is not negative. *)
Fixpoint Repeat (s : string) (count : nat) : string :=
  match count with
  | O => EmptyString
  | S n => String.append s (Repeat s n)
  end.

End strs.

(* ===================================================================== *)
(** * Packages unicode/utf8 and encoding/json: strings *)
(* ===================================================================== *)

Module utf8.

Definition between (lo hi : N) (c : ascii) : bool :=
  ((lo <=? strs.byte_of c) && (strs.byte_of c <=? hi))%N.

(** A byte that stands for itself: below [utf8.RuneSelf]. *)
Definition single (c : ascii) : bool := (strs.byte_of c <? 128)%N.

(** A continuation byte, 0x80 to 0xBF. *)
Definition cont (c : ascii) : bool := between 128 191 c.

(** The encodings of two, three and four bytes, by the first byte and the
    range it accepts for the second: C2..DF; E0 with A0..BF, E1..EC, ED with
    80..9F, EE..EF; F0 with 90..BF, F1..F3, F4 with 80..8F. The bytes 80..C1
    and F5..FF start no encoding. *)
Definition two (c1 c2 : ascii) : bool := between 194 223 c1 && cont c2.

Definition three (c1 c2 c3 : ascii) : bool :=
  (between 224 224 c1 && between 160 191 c2
   || between 225 236 c1 && cont c2
   || between 237 237 c1 && between 128 159 c2
   || between 238 239 c1 && cont c2)
  && cont c3.

Definition four (c1 c2 c3 c4 : ascii) : bool :=
  (between 240 240 c1 && between 144 191 c2
   || between 241 243 c1 && cont c2
   || between 244 244 c1 && between 128 143 c2)
  && cont c3 && cont c4.

(** [utf8.ValidString]: the string is a sequence of encodings. *)
Fixpoint ValidString (s : string) : bool :=
  match s with
  | EmptyString => true
  | String c1 r1 =>
      if single c1 then ValidString r1
      else match r1 with
           | EmptyString => false
           | String c2 r2 =>
               if two c1 c2 then ValidString r2
               else match r2 with
                    | EmptyString => false
                    | String c3 r3 =>
                        if three c1 c2 c3 then ValidString r3
                        else match r3 with
                             | EmptyString => false
                             | String c4 r4 =>
                                 if four c1 c2 c3 c4 then ValidString r4 else false
                             end
                    end
           end
  end.

(** The encoding of U+FFFD, [utf8.RuneError]: EF BF BD. *)
Definition replacement (rest : string) : string :=
  String (ascii_of_N 239) (String (ascii_of_N 191) (String (ascii_of_N 189) rest)).

End utf8.

Module json.

(** A Go string after it was written by [json.Encoder] and read back by
    [json.Decoder]. The encoder scans the string with
    [utf8.DecodeRuneInString]: an encoding is written as it is or as an
    escape that the decoder undoes, and a byte at which no encoding starts
    is written as the escape of U+FFFD, the scan going on at the next
    byte. *)
Fixpoint coerce (s : string) : string :=
  match s with
  | EmptyString => EmptyString
  | String c1 r1 =>
      if utf8.single c1 then String c1 (coerce r1)
      else match r1 with
           | EmptyString => utf8.replacement (coerce r1)
           | String c2 r2 =>
               if utf8.two c1 c2 then String c1 (String c2 (coerce r2))
               else match r2 with
                    | EmptyString => utf8.replacement (coerce r1)
                    | String c3 r3 =>
                        if utf8.three c1 c2 c3
                        then String c1 (String c2 (String c3 (coerce r3)))
                        else match r3 with
                             | EmptyString => utf8.replacement (coerce r1)
                             | String c4 r4 =>
                                 if utf8.four c1 c2 c3 c4
                                 then String c1 (String c2 (String c3 (String c4
                                        (coerce r4))))
                                 else utf8.replacement (coerce r1)
                             end
                    end
           end
  end.

End json.

(* ===================================================================== *)
(** * State passing *)
(* ===================================================================== *)

(** Code that reads or changes its environment is a function from the
    environment to a result and the environment after the call. *)
Definition M (W A : Type) : Type := W -> A * W.

Definition ret {W A} (a : A) : M W A := fun w => (a, w).

Definition bind {W A B} (m : M W A) (k : A -> M W B) : M W B :=
  fun w => let (a, w') := m w in k a w'.

Definition gets {W A} (f : W -> A) : M W A := fun w => (f w, w).

Definition modify {W} (f : W -> W) : M W unit := fun w => (tt, f w).

Declare Scope go_scope.
Delimit Scope go_scope with go.
Notation "x <- m ;; k" := (bind m (fun x => k))
  (at level 100, m at next level, right associativity) : go_scope.
Notation "m ;;; k" := (bind m (fun _ => k))
  (at level 100, right associativity) : go_scope.

(* ===================================================================== *)
(** * Package time *)
(* ===================================================================== *)

Module time.

(** Instants and durations are counted in nanoseconds. The monotonic
    reading that [time.Now()] attaches to an instant is left out; of the
    bounds of [int64] the model keeps those of the difference of two
    instants, see [Sub]. *)
Definition Time : Type := Z.
Definition Duration : Type := Z.

Definition Second : Duration := 1000000000.
Definition Hour : Duration := 3600 * Second.

(** [t.Unix()]: whole seconds since the epoch, rounded down. *)
Definition Unix (t : Time) : Z := t / Second.

(** [time.Unix(sec, 0)]. *)
Definition FromUnix (sec : Z) : Time := sec * Second.

Definition Add (t : Time) (d : Duration) : Time := t + d.
Definition After (t u : Time) : bool := u <? t.

(** The clock: the instants that successive calls of [time.Now()] return,
    and the number of calls made so far. *)
Record Clock : Type := mkClock { reading : nat -> Time; cursor : nat }.

(** [time.Now()]. *)
Definition Now : M Clock Time :=
  fun c => (reading c (cursor c), mkClock (reading c) (S (cursor c))).

(** A clock that never runs backwards. *)
Definition monotone (c : Clock) : Prop :=
  forall i j : nat, (i <= j)%nat -> reading c i <= reading c j.


(** The least and the greatest [Duration]: the bounds of [int64]. *)
Definition minDuration : Duration := -9223372036854775808.
Definition maxDuration : Duration := 9223372036854775807.

(** [t.Sub(u)]: the difference, or the least or the greatest [Duration]
    when the difference is out of range. [time.Until(t)] and
    [time.Since(t)]. *)
Definition Sub (t u : Time) : Duration :=
  let d := t - u in
  if d <? minDuration then minDuration
  else if maxDuration <? d then maxDuration
  else d.

Definition Until (t : Time) : M Clock Duration :=
  bind Now (fun now => ret (Sub t now)).

Definition Since (t : Time) : M Clock Duration :=
  bind Now (fun now => ret (Sub now t)).

End time.

(* ===================================================================== *)
(** * Packages crypto/rand and encoding/hex *)
(* ===================================================================== *)

Module rand.

(** The random source: what successive calls of [rand.Read] deliver ([None]
    when the source is unavailable), and the number of calls made so far. *)
Record Source : Type := mkSource { draw : nat -> option (list Byte.byte); draws : nat }.

(** [rand.Read(buf)] on a zeroed buffer of [n] bytes: the buffer after the
    call, or the error. *)
Definition Read (n : nat) : M Source (result (list Byte.byte)) :=
  fun r =>
    (match draw r (draws r) with
     | Some bs => Ok (firstn n (bs ++ repeat Byte.x00 n))
     | None => Err (External "rand.Read")
     end, mkSource (draw r) (S (draws r))).

End rand.

Module hex.

Definition hextable : string := "0123456789abcdef".

Definition digit (n : N) : ascii :=
  match String.get (N.to_nat n) hextable with
  | Some c => c
  | None => "0"%char
  end.

(** [hex.EncodeToString]: two lower-case digits per byte, high nibble first. *)
Fixpoint EncodeToString (bs : list Byte.byte) : string :=
  match bs with
  | [] => EmptyString
  | b :: rest =>
      let n := Byte.to_N b in
      String (digit (n / 16)) (String (digit (n mod 16)) (EncodeToString rest))
  end.


(** The value of a hexadecimal digit, of either case ([fromHexChar]). *)
Definition fromHexChar (c : ascii) : option N :=
  let n := N_of_ascii c in
  (if (48 <=? n) && (n <=? 57) then Some (n - 48)
   else if (97 <=? n) && (n <=? 102) then Some (n - 97 + 10)
   else if (65 <=? n) && (n <=? 70) then Some (n - 65 + 10)
   else None)%N.

Definition byteOfN (n : N) : Byte.byte :=
  match Byte.of_N n with
  | Some b => b
  | None => Byte.x00
  end.

Definition ErrLength : error := External "encoding/hex: odd length hex string".
Definition InvalidByteError (c : ascii) : error :=
  External (String.append "encoding/hex: invalid byte: " (String c EmptyString)).

(** [hex.DecodeString]: the bytes decoded before the first error, and the
    error: an invalid character in a pair, or, for a string of odd length,
    its last character when invalid and [ErrLength] otherwise. *)
Fixpoint DecodeString (s : string) : list Byte.byte * option error :=
  match s with
  | EmptyString => ([], None)
  | String p EmptyString =>
      match fromHexChar p with
      | None => ([], Some (InvalidByteError p))
      | Some _ => ([], Some ErrLength)
      end
  | String p (String q rest) =>
      match fromHexChar p with
      | None => ([], Some (InvalidByteError p))
      | Some a =>
          match fromHexChar q with
          | None => ([], Some (InvalidByteError q))
          | Some b =>
              let (bs, err) := DecodeString rest in
              (byteOfN (a * 16 + b) :: bs, err)
          end
      end
  end.

End hex.

(* ===================================================================== *)
(** * internal/domain/model/session_id.go *)
(* ===================================================================== *)

Module model.

Record SessionID : Type := mkSessionID { value : string }.

(** A character of the class [[a-fA-F0-9]]. *)
Definition isHexChar (c : ascii) : bool :=
  let n := strs.byte_of c in
  (((48 <=? n) && (n <=? 57)) || ((65 <=? n) && (n <=? 70)) || ((97 <=? n) && (n <=? 102)))%N.

Fixpoint allHex (s : string) : bool :=
  match s with
  | EmptyString => true
  | String c r => isHexChar c && allHex r
  end.

(** [sessionIDPattern.MatchString id] for the pattern
    [^[a-fA-F0-9]{32,128}$]: the whole string is between 32 and 128
    characters of the class. *)
Definition isValidSessionIDFormat (id : string) : bool :=
  allHex id && (32 <=? String.length id)%nat && (String.length id <=? 128)%nat.

Definition NewSessionID (v : string) : result SessionID :=
  if String.eqb v "" then
    Err (NewAppError CodeInvalidInput "session ID cannot be empty" None)
  else
    let normalized := strs.TrimSpace v in
    if negb (isValidSessionIDFormat normalized) then
      Err (NewAppError CodeInvalidInput "invalid session ID format"
             (WithDetail_nil "expected hexadecimal string (32-128 characters)"))
    else Ok (mkSessionID normalized).

(** [GenerateSessionID]: 32 random bytes, hex-encoded. *)
Definition GenerateSessionID : M rand.Source (result SessionID) :=
  (r <- rand.Read 32 ;;
   match r with
   | Err e => ret (Err (Wrap e "failed to generate random session ID"))
   | Ok bytes => ret (Ok (mkSessionID (hex.EncodeToString bytes)))
   end)%go.

Definition String (s : SessionID) : string := value s.

Definition IsValid (s : SessionID) : bool :=
  negb (String.eqb (value s) "") && isValidSessionIDFormat (value s).

Definition IsEmpty (s : SessionID) : bool := String.eqb (value s) "".

Definition Equals (s other : SessionID) : bool := String.eqb (value s) (value other).


Definition Value (s : SessionID) : string := value s.

(** [Bytes]: the identifier decoded from hexadecimal. *)
Definition Bytes (s : SessionID) : list Byte.byte * option error :=
  hex.DecodeString (value s).

Definition Length (s : SessionID) : nat := String.length (value s).

Definition IsSecure (s : SessionID) : bool := (64 <=? String.length (value s))%nat.

(** [Truncate(length)]: [s.value[:length] + "..."] when the identifier is
    longer than [length]. *)
Definition Truncate (s : SessionID) (length : Z) : string :=
  if length <=? 0 then EmptyString
  else if Z.of_nat (String.length (value s)) <=? length then value s
  else String.append (String.substring 0 (Z.to_nat length) (value s)) "...".

(** [MaskedString]: [s.value[:4] + strings.Repeat("*", len-8) + s.value[len-4:]]
    for an identifier of more than 8 characters. *)
Definition MaskedString (s : SessionID) : string :=
  let len := String.length (value s) in
  if (len <=? 8)%nat then strs.Repeat "*" len
  else String.append (String.substring 0 4 (value s))
         (String.append (strs.Repeat "*" (len - 8))
            (String.substring (len - 4) 4 (value s))).

End model.

(* ===================================================================== *)
(** * internal/domain/entity/session.go *)
(* ===================================================================== *)

Module entity.

Import time.
Local Open Scope go_scope.

Record Session : Type := mkSession {
  id : model.SessionID;
  username : string;
  token : string;
  expiresAt : Time;
  createdAt : Time;
  lastUsed : Time
}.

(** Methods with a pointer receiver that assign to a field return the
    session after the call. *)

Definition NewSession (id : model.SessionID) (username token : string)
    (expiresAt : Time) : M Clock Session :=
  now <- Now ;;
  ret (mkSession id username token expiresAt now now).

Definition NewSessionWithDuration (id : model.SessionID) (username token : string)
    (duration : Duration) : M Clock Session :=
  now <- Now ;;
  ret (mkSession id username token (Add now duration) now now).

Definition ID (s : Session) : model.SessionID := id s.
Definition Username (s : Session) : string := username s.
Definition Token (s : Session) : string := token s.
Definition ExpiresAt (s : Session) : Time := expiresAt s.
Definition CreatedAt (s : Session) : Time := createdAt s.
Definition LastUsed (s : Session) : Time := lastUsed s.

Definition IsExpired (s : Session) : M Clock bool :=
  now <- Now ;;
  ret (After now (expiresAt s)).

Definition IsExpiredAt (s : Session) (t : Time) : bool := After t (expiresAt s).

(** [&&] evaluates from the left and stops at the first false operand: the
    clock is read only when the three structural checks pass. *)
Definition IsValid (s : Session) : M Clock bool :=
  if model.IsValid (id s)
     && negb (String.eqb (username s) "")
     && negb (String.eqb (token s) "")
  then expired <- IsExpired s ;; ret (negb expired)
  else ret false.

Definition UpdateLastUsed (s : Session) : M Clock Session :=
  now <- Now ;;
  ret (mkSession (id s) (username s) (token s) (expiresAt s) (createdAt s) now).

Definition UpdateLastUsedAt (s : Session) (t : Time) : Session :=
  mkSession (id s) (username s) (token s) (expiresAt s) (createdAt s) t.

Definition setExpiresAt (s : Session) (t : Time) : Session :=
  mkSession (id s) (username s) (token s) t (createdAt s) (lastUsed s).

Definition Refresh (s : Session) (duration : Duration) : M Clock Session :=
  now <- Now ;;
  UpdateLastUsed (setExpiresAt s (Add now duration)).


Definition UpdateToken (s : Session) (tok : string) : M Clock Session :=
  UpdateLastUsed (mkSession (id s) (username s) tok (expiresAt s) (createdAt s) (lastUsed s)).

Definition Clone (s : Session) : Session :=
  mkSession (id s) (username s) (token s) (expiresAt s) (createdAt s) (lastUsed s).


Definition TimeUntilExpiry (s : Session) : M Clock Duration := Until (expiresAt s).

Definition RemainingTime (s : Session) : M Clock Duration :=
  remaining <- TimeUntilExpiry s ;;
  if remaining <? 0 then ret 0 else ret remaining.

Definition Age (s : Session) : M Clock Duration := Since (createdAt s).

Definition TimeSinceLastUse (s : Session) : M Clock Duration := Since (lastUsed s).

End entity.

(* ===================================================================== *)
(** * pkg/logger *)
(* ===================================================================== *)

Module logger.

Inductive Level : Type := LevelDebug | LevelInfo | LevelWarn | LevelError.

(** A log record: its level and message (the attributes are left out). *)
Record Record_ : Type := mkRecord { level : Level; message : string }.

End logger.

(* ===================================================================== *)
(** * internal/infrastructure/repository/local_session_repository.go *)
(* ===================================================================== *)

Module repository.

Import time entity.
Local Open Scope go_scope.

(** [SessionData]: the JSON structure of a stored session. The three
    instants are [int64] seconds. *)
Record SessionData : Type := mkSessionData {
  data_ID : string;
  data_Username : string;
  data_Token : string;
  data_ExpiresAt : Z;
  data_CreatedAt : Z;
  data_LastUsed : Z
}.

(** ** The file system under [configDir] *)

(** An entry of the directory [configDir/sessions]: whether [os.ReadDir]
    reports it as a regular file, what decoding its content as JSON into a
    [SessionData] gives ([None] when the content does not decode: an empty
    or truncated file, a directory), and its permission bits. *)
Record Entry : Type := mkEntry {
  regular : bool;
  data : option SessionData;
  mode : Z
}.

(** The file [configDir/current_session]: its content and permission bits. *)
Record Pointer : Type := mkPointer { content : string; pmode : Z }.

(** The paths the repository builds. *)
Inductive Path : Type :=
| SessionsDir
| SessionFile (name : string)
| CurrentFile.

(** The calls to the operating system that can fail for a reason of the
    environment (permissions, a full disk, an I/O error). *)
Inductive Syscall : Type :=
| SysStat (p : Path)
| SysMkdirAll
| SysCreate (p : Path)
| SysEncode (p : Path)
| SysChmod (p : Path)
| SysClose (p : Path)
| SysOpen (p : Path)
| SysRemove (p : Path)
| SysReadDir
| SysReadFile (p : Path)
| SysWriteFile (p : Path).

(** The world of the repository.
      - [sessions]: the directory [configDir/sessions], [None] when it does
        not exist, else its entries by file name;
      - [current]: the file [configDir/current_session], [None] when it does
        not exist;
      - [fails c]: whether the call [c] fails for a reason of the environment
        other than the absence of the file;
      - [umask]: the permission bits removed from newly created files;
      - [logs]: the records written to the logger, oldest first. *)
Record World : Type := mkWorld {
  clock : Clock;
  sessions : option (gmap string Entry);
  current : option Pointer;
  fails : Syscall -> bool;
  umask : Z;
  logs : list logger.Record_
}.

Definition set_clock (c : Clock) (w : World) : World :=
  mkWorld c (sessions w) (current w) (fails w) (umask w) (logs w).
Definition set_sessions (d : option (gmap string Entry)) (w : World) : World :=
  mkWorld (clock w) d (current w) (fails w) (umask w) (logs w).
Definition set_current (p : option Pointer) (w : World) : World :=
  mkWorld (clock w) (sessions w) p (fails w) (umask w) (logs w).
Definition set_logs (l : list logger.Record_) (w : World) : World :=
  mkWorld (clock w) (sessions w) (current w) (fails w) (umask w) l.

(** Run a computation that only uses the clock. *)
Definition withClock {A} (m : M Clock A) : M World A :=
  fun w => let (a, c) := m (clock w) in (a, set_clock c w).

Definition log (l : logger.Level) (msg : string) : M World unit :=
  modify (fun w => set_logs (logs w ++ [logger.mkRecord l msg]) w).

Definition present {A} (o : option A) : bool :=
  match o with Some _ => true | None => false end.

(** The entry a path of a session file names, if there is one. *)
Definition entryAt (w : World) (name : string) : option Entry :=
  match sessions w with
  | Some d => d !! name
  | None => None
  end.

Definition putEntry (name : string) (e : Entry) (w : World) : World :=
  match sessions w with
  | Some d => set_sessions (Some (<[name := e]> d)) w
  | None => w
  end.

Definition perm0600 : Z := 384.
Definition perm0666 : Z := 438.

(** The permission bits a new file gets when it is created with [perm]. *)
Definition created_mode (perm : Z) (w : World) : Z := Z.land perm (Z.lnot (umask w)).

(** The result of [os.Stat(p)], as far as the callers look at it. *)
Inductive StatResult : Type :=
| StatFound
| StatNotExist
| StatFailed (e : error).

(** [os.Stat(p)]. *)
Definition Stat (p : Path) : M World StatResult :=
  gets (fun w =>
    if fails w (SysStat p) then StatFailed (External "os.Stat")
    else
      let found :=
        match p with
        | SessionsDir => present (sessions w)
        | SessionFile name => present (entryAt w name)
        | CurrentFile => present (current w)
        end in
      if found then StatFound else StatNotExist).

(** [os.IsNotExist(err)] on the error of [os.Stat]. *)
Definition IsNotExist (st : StatResult) : bool :=
  match st with StatNotExist => true | _ => false end.

(** [os.MkdirAll(sessionsDir, 0755)]. *)
Definition MkdirAll : M World (option error) :=
  fun w =>
    if fails w SysMkdirAll then (Some (External "os.MkdirAll"), w)
    else match sessions w with
         | Some _ => (None, w)
         | None => (None, set_sessions (Some ∅) w)
         end.

(** [os.Create(p)]: the file is created with mode 0666 before umask, or
    truncated, keeping its mode, when it exists. The directory itself cannot
    be opened for writing. *)
Definition Create (p : Path) : M World (option error) :=
  fun w =>
    if fails w (SysCreate p) then (Some (External "os.Create"), w)
    else match p with
         | SessionFile name =>
             match sessions w with
             | None => (Some (External "os.Create"), w)
             | Some d =>
                 match d !! name with
                 | Some e => (None, putEntry name (mkEntry (regular e) None (mode e)) w)
                 | None => (None, putEntry name (mkEntry true None (created_mode perm0666 w)) w)
                 end
             end
         | _ => (Some (External "os.Create"), w)
         end.

(** What decoding gives for the JSON text that encoding [d] writes: the
    three strings as [json.coerce] leaves them, the three [int64] as they
    are. *)
Definition written (d : SessionData) : SessionData :=
  mkSessionData (json.coerce (data_ID d)) (json.coerce (data_Username d))
    (json.coerce (data_Token d))
    (data_ExpiresAt d) (data_CreatedAt d) (data_LastUsed d).

(** [json.NewEncoder(file).Encode(data)] on the file just created. *)
Definition Encode (p : Path) (d : SessionData) : M World (option error) :=
  fun w =>
    if fails w (SysEncode p) then (Some (External "json.Encode"), w)
    else match p with
         | SessionFile name =>
             match entryAt w name with
             | Some e =>
                 (None, putEntry name (mkEntry (regular e) (Some (written d)) (mode e)) w)
             | None => (Some (External "json.Encode"), w)
             end
         | _ => (Some (External "json.Encode"), w)
         end.

(** [os.Chmod(p, perm)]. *)
Definition Chmod (p : Path) (perm : Z) : M World (option error) :=
  fun w =>
    if fails w (SysChmod p) then (Some (External "os.Chmod"), w)
    else match p with
         | SessionFile name =>
             match entryAt w name with
             | Some e => (None, putEntry name (mkEntry (regular e) (data e) perm) w)
             | None => (Some (External "os.Chmod"), w)
             end
         | _ => (Some (External "os.Chmod"), w)
         end.

(** The deferred [file.Close()], whose failure is only logged. *)
Definition deferClose (p : Path) : M World unit :=
  fun w =>
    if fails w (SysClose p)
    then log logger.LevelWarn "failed to close file" w
    else (tt, w).

(** [os.Open(p)]. *)
Definition Open (p : Path) : M World (option error) :=
  fun w =>
    if fails w (SysOpen p) then (Some (External "os.Open"), w)
    else match p with
         | SessionsDir =>
             if present (sessions w) then (None, w)
             else (Some (External "os.Open"), w)
         | SessionFile name =>
             if present (entryAt w name) then (None, w)
             else (Some (External "os.Open"), w)
         | CurrentFile =>
             if present (current w) then (None, w)
             else (Some (External "os.Open"), w)
         end.

(** [json.NewDecoder(file).Decode(&data)] on an open file. *)
Definition Decode (p : Path) : M World (result SessionData) :=
  gets (fun w =>
    match p with
    | SessionFile name =>
        match entryAt w name with
        | Some (mkEntry _ (Some d) _) => Ok d
        | _ => Err (External "json.Decode")
        end
    | _ => Err (External "json.Decode")
    end).

(** [os.Remove(p)], split by the way the callers test its error:
    [RemoveAbsent] for an error that [os.IsNotExist] accepts. *)
Inductive RemoveResult : Type :=
| Removed
| RemoveAbsent
| RemoveFailed (e : error).

Definition Remove (p : Path) : M World RemoveResult :=
  fun w =>
    if fails w (SysRemove p) then (RemoveFailed (External "os.Remove"), w)
    else match p with
         | SessionsDir =>
             match sessions w with
             | None => (RemoveAbsent, w)
             | Some d =>
                 if bool_decide (d = ∅) then (Removed, set_sessions None w)
                 else (RemoveFailed (External "os.Remove"), w)
             end
         | SessionFile name =>
             match sessions w with
             | None => (RemoveAbsent, w)
             | Some d =>
                 match d !! name with
                 | Some _ => (Removed, set_sessions (Some (delete name d)) w)
                 | None => (RemoveAbsent, w)
                 end
             end
         | CurrentFile =>
             match current w with
             | Some _ => (Removed, set_current None w)
             | None => (RemoveAbsent, w)
             end
         end.

(** [os.ReadFile(currentFile)]. *)
Definition ReadFile : M World (result string) :=
  gets (fun w =>
    if fails w (SysReadFile CurrentFile) then Err (External "os.ReadFile")
    else match current w with
         | Some p => Ok (content p)
         | None => Err (External "os.ReadFile")
         end).

(** [os.WriteFile(currentFile, data, 0600)]: the mode applies when the file
    is created. *)
Definition WriteFile (s : string) : M World (option error) :=
  fun w =>
    if fails w (SysWriteFile CurrentFile) then (Some (External "os.WriteFile"), w)
    else match current w with
         | Some p => (None, set_current (Some (mkPointer s (pmode p))) w)
         | None => (None, set_current (Some (mkPointer s (created_mode perm0600 w))) w)
         end.

(** File names are compared byte by byte. *)
Definition name_le (a b : string * Entry) : Prop := String.leb (fst a) (fst b) = true.

#[local] Instance name_le_dec (a b : string * Entry) : Decision (name_le a b).
Proof. unfold name_le. apply _. Defined.

(** [os.ReadDir(sessionsDir)]: the entries, sorted by file name. *)
Definition ReadDir : M World (result (list (string * Entry))) :=
  gets (fun w =>
    if fails w SysReadDir then Err (External "os.ReadDir")
    else match sessions w with
         | Some d => Ok (merge_sort name_le (map_to_list d))
         | None => Err (External "os.ReadDir")
         end).

(** ** The repository *)

(** [filepath.Join(r.getSessionsDir(), id.String())]: [Join] drops an empty
    element, so the zero [SessionID] names the directory itself. *)
Definition getSessionFilePath (sid : model.SessionID) : Path :=
  if String.eqb (model.String sid) "" then SessionsDir
  else SessionFile (model.String sid).

Definition getCurrentSessionFilePath : Path := CurrentFile.

Definition ensureConfigDir : M World (option error) := MkdirAll.

Definition dataToSession (d : SessionData) : M World (result Session) :=
  match model.NewSessionID (data_ID d) with
  | Err e => ret (Err e)
  | Ok sessionID =>
      session <- withClock (NewSession sessionID (data_Username d) (data_Token d)
                              (FromUnix (data_ExpiresAt d))) ;;
      ret (Ok (UpdateLastUsedAt session (FromUnix (data_LastUsed d))))
  end.

Definition Save (session : Session) : M World (option error) :=
  log logger.LevelDebug "saving session" ;;;
  err <- ensureConfigDir ;;
  match err with
  | Some e => ret (Some (Wrap e "failed to ensure config directory"))
  | None =>
      let d := mkSessionData (model.String (ID session)) (Username session)
                 (Token session) (Unix (ExpiresAt session))
                 (Unix (CreatedAt session)) (Unix (LastUsed session)) in
      let sessionFile := getSessionFilePath (ID session) in
      err <- Create sessionFile ;;
      match err with
      | Some e => ret (Some (Wrap e "failed to create session file"))
      | None =>
          err <- Encode sessionFile d ;;
          match err with
          | Some e =>
              deferClose sessionFile ;;;
              ret (Some (Wrap e "failed to encode session data"))
          | None =>
              err <- Chmod sessionFile perm0600 ;;
              match err with
              | Some _ => log logger.LevelWarn "failed to set session file permissions"
              | None => ret tt
              end ;;;
              log logger.LevelDebug "session saved successfully" ;;;
              deferClose sessionFile ;;;
              ret None
          end
      end
  end.

Definition GetByID (sid : model.SessionID) : M World (result Session) :=
  log logger.LevelDebug "getting session by ID" ;;;
  let sessionFile := getSessionFilePath sid in
  st <- Stat sessionFile ;;
  if IsNotExist st then ret (Err (NewAppError CodeNotFound "session not found" None))
  else
    err <- Open sessionFile ;;
    match err with
    | Some e => ret (Err (Wrap e "failed to open session file"))
    | None =>
        r <- Decode sessionFile ;;
        match r with
        | Err e =>
            deferClose sessionFile ;;;
            ret (Err (Wrap e "failed to decode session data"))
        | Ok d =>
            r <- dataToSession d ;;
            match r with
            | Err e =>
                deferClose sessionFile ;;;
                ret (Err (Wrap e "failed to convert session data"))
            | Ok session =>
                log logger.LevelDebug "session retrieved successfully" ;;;
                deferClose sessionFile ;;;
                ret (Ok session)
            end
        end
    end.

(** The loop of [List] over the directory entries. *)
Fixpoint listEntries (entries : list (string * Entry)) (acc : list Session)
    : M World (list Session) :=
  match entries with
  | [] => ret acc
  | (name, e) :: rest =>
      if negb (regular e) then listEntries rest acc
      else
        match model.NewSessionID name with
        | Err _ =>
            log logger.LevelWarn "invalid session file name" ;;;
            listEntries rest acc
        | Ok sessionID =>
            r <- GetByID sessionID ;;
            match r with
            | Err _ =>
                log logger.LevelWarn "failed to load session" ;;;
                listEntries rest acc
            | Ok session => listEntries rest (acc ++ [session])
            end
        end
  end.

Definition List : M World (result (list Session)) :=
  log logger.LevelDebug "listing all sessions" ;;;
  st <- Stat SessionsDir ;;
  if IsNotExist st then ret (Ok [])
  else
    r <- ReadDir ;;
    match r with
    | Err e => ret (Err (Wrap e "failed to read sessions directory"))
    | Ok entries =>
        ss <- listEntries entries [] ;;
        log logger.LevelDebug "sessions listed successfully" ;;;
        ret (Ok ss)
    end.

(** The loop of [GetByUsername]. *)
Fixpoint findValid (name : string) (ss : list Session) : M World (result Session) :=
  match ss with
  | [] => ret (Err (NewAppError CodeNotFound "no valid session found for username" None))
  | session :: rest =>
      if String.eqb (Username session) name
      then valid <- withClock (IsValid session) ;;
           if (valid : bool) then ret (Ok session) else findValid name rest
      else findValid name rest
  end.

Definition GetByUsername (name : string) : M World (result Session) :=
  log logger.LevelDebug "getting session by username" ;;;
  r <- List ;;
  match r with
  | Err e => ret (Err (Wrap e "failed to list sessions"))
  | Ok ss => findValid name ss
  end.

Definition GetCurrent : M World (result Session) :=
  log logger.LevelDebug "getting current session" ;;;
  let currentFile := getCurrentSessionFilePath in
  st <- Stat currentFile ;;
  if IsNotExist st then ret (Err (NewAppError CodeNotFound "no current session" None))
  else
    r <- ReadFile ;;
    match r with
    | Err e => ret (Err (Wrap e "failed to read current session file"))
    | Ok c =>
        match model.NewSessionID c with
        | Err e => ret (Err (Wrap e "invalid session ID in current session file"))
        | Ok sessionID => GetByID sessionID
        end
    end.

Definition Delete (sid : model.SessionID) : M World (option error) :=
  log logger.LevelDebug "deleting session" ;;;
  let sessionFile := getSessionFilePath sid in
  r <- Remove sessionFile ;;
  match r with
  | RemoveFailed e => ret (Some (Wrap e "failed to delete session file"))
  | _ =>
      log logger.LevelDebug "session deleted successfully" ;;;
      ret None
  end.

(** The loop of [DeleteByUsername]; [deleted] counts the removals. *)
Fixpoint deleteMatching (name : string) (ss : list Session) (deleted : Z) : M World Z :=
  match ss with
  | [] => ret deleted
  | session :: rest =>
      if String.eqb (Username session) name
      then err <- Delete (ID session) ;;
           match err with
           | Some _ =>
               log logger.LevelWarn "failed to delete session" ;;;
               deleteMatching name rest deleted
           | None => deleteMatching name rest (deleted + 1)
           end
      else deleteMatching name rest deleted
  end.

Definition DeleteByUsername (name : string) : M World (option error) :=
  log logger.LevelDebug "deleting sessions by username" ;;;
  r <- List ;;
  match r with
  | Err e => ret (Some (Wrap e "failed to list sessions"))
  | Ok ss =>
      _ <- deleteMatching name ss 0 ;;
      log logger.LevelDebug "sessions deleted by username" ;;;
      ret None
  end.

(** The loop of [DeleteExpired]. *)
Fixpoint deleteExpiredLoop (ss : list Session) (deleted : Z) : M World Z :=
  match ss with
  | [] => ret deleted
  | session :: rest =>
      expired <- withClock (IsExpired session) ;;
      if (expired : bool)
      then err <- Delete (ID session) ;;
           match err with
           | Some _ =>
               log logger.LevelWarn "failed to delete expired session" ;;;
               deleteExpiredLoop rest deleted
           | None => deleteExpiredLoop rest (deleted + 1)
           end
      else deleteExpiredLoop rest deleted
  end.

Definition DeleteExpired : M World (option error) :=
  log logger.LevelDebug "deleting expired sessions" ;;;
  r <- List ;;
  match r with
  | Err e => ret (Some (Wrap e "failed to list sessions"))
  | Ok ss =>
      _ <- deleteExpiredLoop ss 0 ;;
      log logger.LevelDebug "expired sessions deleted" ;;;
      ret None
  end.

Definition Exists (sid : model.SessionID) : M World (result bool) :=
  st <- Stat (getSessionFilePath sid) ;;
  match st with
  | StatNotExist => ret (Ok false)
  | StatFailed e => ret (Err (Wrap e "failed to check session file"))
  | StatFound => ret (Ok true)
  end.

Definition IsValid (sid : model.SessionID) : M World (result bool) :=
  r <- GetByID sid ;;
  match r with
  | Err e =>
      if IsAppError e CodeNotFound then ret (Ok false) else ret (Err e)
  | Ok session =>
      valid <- withClock (entity.IsValid session) ;;
      ret (Ok valid)
  end.

Definition SetCurrent (session : Session) : M World (option error) :=
  log logger.LevelDebug "setting current session" ;;;
  err <- ensureConfigDir ;;
  match err with
  | Some e => ret (Some (Wrap e "failed to ensure config directory"))
  | None =>
      err <- WriteFile (model.String (ID session)) ;;
      match err with
      | Some e => ret (Some (Wrap e "failed to write current session file"))
      | None =>
          log logger.LevelDebug "current session set successfully" ;;;
          ret None
      end
  end.

Definition ClearCurrent : M World (option error) :=
  log logger.LevelDebug "clearing current session" ;;;
  r <- Remove getCurrentSessionFilePath ;;
  match r with
  | RemoveFailed e => ret (Some (Wrap e "failed to remove current session file"))
  | _ =>
      log logger.LevelDebug "current session cleared successfully" ;;;
      ret None
  end.

End repository.

(* ===================================================================== *)
(** * internal/infrastructure/repository/aoj_auth_repository.go *)
(* ===================================================================== *)

Module auth.

Import time entity.
Local Open Scope go_scope.

Record AOJAuthRepository : Type := mkRepo { baseURL : string }.

(** [LoginRequest], the JSON payload of a login. *)
Record LoginRequest : Type := mkLoginRequest {
  req_ID : string;
  req_Password : string
}.

(** [LoginResponse], the JSON response of a login. *)
Record LoginResponse : Type := mkLoginResponse {
  resp_ID : string;
  resp_Name : string;
  resp_SessionID : string;
  resp_Token : string
}.

(** An HTTP request as the repository builds it: method, URL, the headers
    set, and the payload of a login. *)
Record Request : Type := mkRequest {
  method : string;
  url : string;
  header : list (string * string);
  payload : option LoginRequest
}.

(** An HTTP response: the status code, the status line, what decoding the
    body as JSON into a [LoginResponse] gives ([None] when it does not
    decode), and whether closing the body fails. *)
Record Response : Type := mkResponse {
  StatusCode : Z;
  Status : string;
  Body : option LoginResponse;
  closeFails : bool
}.

Definition StatusOK : Z := 200.
Definition StatusNoContent : Z := 204.
Definition StatusBadRequest : Z := 400.
Definition StatusUnauthorized : Z := 401.
Definition StatusInternalServerError : Z := 500.

(** A pointer to a session: an index in the heap. *)
Definition ptr : Type := nat.

(** The world of the gateway.
      - [heap]: the sessions allocated so far, a [*entity.Session] being
        the index of its target;
      - [validURL]: whether [http.NewRequestWithContext] accepts a URL;
      - [remote]: what [httpClient.Do] returns for a request, an error for a
        transport failure;
      - [sent]: the requests handed to [httpClient.Do], oldest first. *)
Record World : Type := mkWorld {
  clock : Clock;
  source : rand.Source;
  heap : list Session;
  validURL : string -> bool;
  remote : Request -> result Response;
  sent : list Request;
  logs : list logger.Record_
}.

Definition set_clock (c : Clock) (w : World) : World :=
  mkWorld c (source w) (heap w) (validURL w) (remote w) (sent w) (logs w).
Definition set_source (r : rand.Source) (w : World) : World :=
  mkWorld (clock w) r (heap w) (validURL w) (remote w) (sent w) (logs w).
Definition set_heap (h : list Session) (w : World) : World :=
  mkWorld (clock w) (source w) h (validURL w) (remote w) (sent w) (logs w).
Definition set_sent (l : list Request) (w : World) : World :=
  mkWorld (clock w) (source w) (heap w) (validURL w) (remote w) l (logs w).
Definition set_logs (l : list logger.Record_) (w : World) : World :=
  mkWorld (clock w) (source w) (heap w) (validURL w) (remote w) (sent w) l.

Definition withClock {A} (m : M Clock A) : M World A :=
  fun w => let (a, c) := m (clock w) in (a, set_clock c w).

Definition withSource {A} (m : M rand.Source A) : M World A :=
  fun w => let (a, r) := m (source w) in (a, set_source r w).

Definition log (l : logger.Level) (msg : string) : M World unit :=
  modify (fun w => set_logs (logs w ++ [logger.mkRecord l msg]) w).

(** Allocation of a session: [&Session{...}]. *)
Definition alloc (s : Session) : M World ptr :=
  fun w => (length (heap w), set_heap (heap w ++ [s]) w).

(** What a Go function does: it returns, or it panics (here: on a nil or
    dangling session pointer). *)
Inductive outcome (A : Type) : Type :=
| Returns (a : A)
| Panics.
Arguments Returns {A} a.
Arguments Panics {A}.

(** [http.NewRequestWithContext(ctx, method, url, body)]. *)
Definition NewRequest (method url : string) (payload : option LoginRequest)
    : M World (result Request) :=
  gets (fun w =>
    if validURL w url then Ok (mkRequest method url [] payload)
    else Err (External "http.NewRequestWithContext")).

(** [req.Header.Set(key, value)]. *)
Definition HeaderSet (req : Request) (key value : string) : Request :=
  mkRequest (method req) (url req)
    ((key, value) :: filter (fun kv => negb (String.eqb (fst kv) key)) (header req))
    (payload req).

(** [r.httpClient.Do(req)]. *)
Definition Do (req : Request) : M World (result Response) :=
  fun w => (remote w req, set_sent (sent w ++ [req]) w).

(** The deferred [resp.Body.Close()], whose failure is only logged. *)
Definition deferClose (resp : Response) : M World unit :=
  if closeFails resp then log logger.LevelWarn "failed to close response body"
  else ret tt.

Definition sessionDuration : Duration := 24 * Hour.

Definition parseLoginResponse (resp : Response) : M World (result ptr) :=
  match Body resp with
  | None => ret (Err (Wrap (External "json.Decode") "failed to decode login response"))
  | Some loginResp =>
      r <- withSource model.GenerateSessionID ;;
      match r with
      | Err e => ret (Err (Wrap e "failed to generate session ID"))
      | Ok sessionID =>
          s <- withClock (NewSessionWithDuration sessionID (resp_ID loginResp)
                            (resp_Token loginResp) sessionDuration) ;;
          session <- alloc s ;;
          log logger.LevelInfo "login successful" ;;;
          ret (Ok session)
      end
  end.

(** [json.Marshal] of the two strings of a [LoginRequest] does not fail:
    the payload of the request is given as the structure that is marshalled
    (on the wire its strings are as [json.coerce] leaves them). *)
Definition Login (r : AOJAuthRepository) (username password : string)
    : M World (result ptr) :=
  log logger.LevelInfo "attempting AOJ login" ;;;
  let loginReq := mkLoginRequest username password in
  let url := (baseURL r ++ "/session")%string in
  rq <- NewRequest "POST" url (Some loginReq) ;;
  match rq with
  | Err e => ret (Err (Wrap e "failed to create HTTP request"))
  | Ok req =>
      let req := HeaderSet req "Content-Type" "application/json;charset=UTF-8" in
      rs <- Do req ;;
      match rs with
      | Err e =>
          log logger.LevelError "HTTP request failed" ;;;
          ret (Err (NewAppError CodeNetworkError "failed to connect to AOJ" (Some e)))
      | Ok resp =>
          res <-
            (if StatusCode resp =? StatusOK then parseLoginResponse resp
             else if StatusCode resp =? StatusUnauthorized then
               log logger.LevelWarn "authentication failed" ;;;
               ret (Err (NewAppError CodeUnauthorized "invalid username or password" None))
             else if StatusCode resp =? StatusBadRequest then
               ret (Err (NewAppError CodeInvalidInput "invalid login request format" None))
             else if StatusCode resp =? StatusInternalServerError then
               ret (Err (NewAppError CodeServiceUnavailable "AOJ server error" None))
             else
               log logger.LevelError "unexpected response status" ;;;
               ret (Err (NewAppError CodeInternalServer "unexpected response from AOJ"
                           (WithDetail_nil ("status_code: " ++ Status resp))))) ;;
          deferClose resp ;;;
          ret res
      end
  end.

(** The body of [ValidateSession] once the session pointer is dereferenced. *)
Definition validateSession (r : AOJAuthRepository) (s : Session) : M World (result bool) :=
  log logger.LevelDebug "validating session" ;;;
  expired <- withClock (IsExpired s) ;;
  if (expired : bool) then
    log logger.LevelDebug "session is locally expired" ;;;
    ret (Ok false)
  else
    let url := (baseURL r ++ "/user/" ++ Username s)%string in
    rq <- NewRequest "GET" url None ;;
    match rq with
    | Err e => ret (Err (Wrap e "failed to create validation request"))
    | Ok req =>
        let req := HeaderSet req "Authorization" ("Bearer " ++ Token s) in
        rs <- Do req ;;
        match rs with
        | Err e =>
            log logger.LevelError "session validation request failed" ;;;
            ret (Err (NewAppError CodeNetworkError "failed to validate session with AOJ" (Some e)))
        | Ok resp =>
            let isValid := StatusCode resp =? StatusOK in
            log logger.LevelDebug "session validation completed" ;;;
            deferClose resp ;;;
            ret (Ok isValid)
        end
    end.

(** The session a pointer names stays the same during the call: the methods
    used on it ([ID], [IsExpired], [Username], [Token]) assign to no field. *)
Definition ValidateSession (r : AOJAuthRepository) (session : ptr)
    : M World (outcome (result bool)) :=
  fun w =>
    match heap w !! session with
    | None => (Panics, w)
    | Some s => let (res, w') := validateSession r s w in (Returns res, w')
    end.

Definition refreshSession (r : AOJAuthRepository) (s : Session) : M World (result ptr) :=
  log logger.LevelInfo "refreshing session" ;;;
  v <- validateSession r s ;;
  match v with
  | Err e => ret (Err (Wrap e "failed to validate session for refresh"))
  | Ok isValid =>
      if negb isValid then
        ret (Err (NewAppError CodeUnauthorized "session is no longer valid" None))
      else
        g <- withSource model.GenerateSessionID ;;
        match g with
        | Err e => ret (Err (Wrap e "failed to generate new session ID"))
        | Ok newSessionID =>
            s' <- withClock (NewSessionWithDuration newSessionID (Username s)
                               (Token s) sessionDuration) ;;
            refreshedSession <- alloc s' ;;
            log logger.LevelInfo "session refreshed" ;;;
            ret (Ok refreshedSession)
        end
  end.

Definition RefreshSession (r : AOJAuthRepository) (session : ptr)
    : M World (outcome (result ptr)) :=
  fun w =>
    match heap w !! session with
    | None => (Panics, w)
    | Some s => let (res, w') := refreshSession r s w in (Returns res, w')
    end.

Definition logout (r : AOJAuthRepository) (s : Session) : M World (option error) :=
  log logger.LevelInfo "attempting AOJ logout" ;;;
  let url := (baseURL r ++ "/session")%string in
  rq <- NewRequest "DELETE" url None ;;
  match rq with
  | Err e => ret (Some (Wrap e "failed to create logout request"))
  | Ok req =>
      let req := HeaderSet req "Authorization" ("Bearer " ++ Token s) in
      rs <- Do req ;;
      match rs with
      | Err e =>
          log logger.LevelError "logout request failed" ;;;
          ret (Some (NewAppError CodeNetworkError "failed to connect to AOJ for logout" (Some e)))
      | Ok resp =>
          (if negb (StatusCode resp =? StatusOK) && negb (StatusCode resp =? StatusNoContent)
           then log logger.LevelWarn "logout request returned unexpected status"
           else ret tt) ;;;
          log logger.LevelInfo "logout completed" ;;;
          deferClose resp ;;;
          ret None
      end
  end.

Definition Logout (r : AOJAuthRepository) (session : ptr)
    : M World (outcome (option error)) :=
  fun w =>
    match heap w !! session with
    | None => (Panics, w)
    | Some s => let (res, w') := logout r s w in (Returns res, w')
    end.

End auth.

(* ===================================================================== *)
(** * internal/domain/entity/session.go: [ToMap] and [FromMap] *)
(* ===================================================================== *)

Module sessionmap.

Import time entity.

Section Maps.

(** The type [float64] and the conversion [int64(f)] are parameters. *)
Variable float64 : Type.
Variable toInt64 : float64 -> Z.

(** A value of type [interface{}] as the two functions use it: its dynamic
    type and its content. *)
Inductive any : Type :=
| AString (s : string)
| AInt64 (n : Z)
| AFloat64 (f : float64).

(** [ToMap]: the three instants are stored as [int64]. *)
Definition ToMap (s : Session) : gmap string any :=
  <["id" := AString (model.String (id s))]>
  (<["username" := AString (username s)]>
  (<["token" := AString (token s)]>
  (<["expires_at" := AInt64 (Unix (expiresAt s))]>
  (<["created_at" := AInt64 (Unix (createdAt s))]>
  (<["last_used" := AInt64 (Unix (lastUsed s))]> ∅))))).

(** The type assertions [data[key].(string)] and [data[key].(float64)]:
    [None] when the assertion panics (the key is missing, or the value has
    another dynamic type). *)
Definition assertString (data : gmap string any) (key : string) : option string :=
  match data !! key with
  | Some (AString s) => Some s
  | _ => None
  end.

Definition assertFloat64 (data : gmap string any) (key : string) : option float64 :=
  match data !! key with
  | Some (AFloat64 f) => Some f
  | _ => None
  end.

Definition FromMap (data : gmap string any) : auth.outcome (result Session) :=
  match assertString data "id" with
  | None => auth.Panics
  | Some idv =>
      match model.NewSessionID idv with
      | Err e => auth.Returns (Err e)
      | Ok sid =>
          match assertString data "username" with
          | None => auth.Panics
          | Some username =>
              match assertString data "token" with
              | None => auth.Panics
              | Some token =>
                  match assertFloat64 data "expires_at" with
                  | None => auth.Panics
                  | Some e =>
                      match assertFloat64 data "created_at" with
                      | None => auth.Panics
                      | Some c =>
                          match assertFloat64 data "last_used" with
                          | None => auth.Panics
                          | Some l =>
                              auth.Returns
                                (Ok (mkSession sid username token
                                       (FromUnix (toInt64 e)) (FromUnix (toInt64 c))
                                       (FromUnix (toInt64 l))))
                          end
                      end
                  end
              end
          end
      end
  end.

End Maps.

Arguments AString {float64} s.
Arguments AInt64 {float64} n.
Arguments AFloat64 {float64} f.
Arguments ToMap {float64} s.
Arguments FromMap {float64} toInt64 data.

End sessionmap.

(* ===================================================================== *)
(** * internal/domain/repository: the two interfaces *)
(* ===================================================================== *)

Module domain.

Import entity.

(** [SessionRepository], over the state [R] of an implementation. A method
    is handed the session as a value: it reads it and does not change it. *)
Class SessionRepository (R : Type) : Type := {
  Save : Session -> M R (option error);
  GetByID : model.SessionID -> M R (result Session);
  GetByUsername : string -> M R (result Session);
  GetCurrent : M R (result Session);
  Delete : model.SessionID -> M R (option error);
  DeleteByUsername : string -> M R (option error);
  DeleteExpired : M R (option error);
  Exists : model.SessionID -> M R (result bool);
  IsValid : model.SessionID -> M R (result bool);
  SetCurrent : Session -> M R (option error);
  ClearCurrent : M R (option error);
  List : M R (result (list Session))
}.

(** [AuthRepository], over the state [A] of an implementation. *)
Class AuthRepository (A : Type) : Type := {
  Login : string -> string -> M A (result Session);
  Logout : Session -> M A (option error);
  RefreshSession : Session -> M A (result Session);
  ValidateSession : Session -> M A (result bool)
}.

(** [LocalSessionRepository] implements [SessionRepository]. *)
#[export] Instance LocalSessionRepository : SessionRepository repository.World := {
  Save := repository.Save;
  GetByID := repository.GetByID;
  GetByUsername := repository.GetByUsername;
  GetCurrent := repository.GetCurrent;
  Delete := repository.Delete;
  DeleteByUsername := repository.DeleteByUsername;
  DeleteExpired := repository.DeleteExpired;
  Exists := repository.Exists;
  IsValid := repository.IsValid;
  SetCurrent := repository.SetCurrent;
  ClearCurrent := repository.ClearCurrent;
  List := repository.List
}.

(** The session a returned pointer names. The gateway only returns pointers
    it has just allocated, so the second case does not arise. *)
Definition load (res : result auth.ptr) : M auth.World (result Session) :=
  fun w =>
    match res with
    | Err e => (Err e, w)
    | Ok p =>
        match auth.heap w !! p with
        | Some s => (Ok s, w)
        | None => (Err (External "nil session"), w)
        end
    end.

(** [AOJAuthRepository] implements [AuthRepository]. *)
#[export] Instance AOJAuthRepository (r : auth.AOJAuthRepository) : AuthRepository auth.World := {
  Login username password := bind (auth.Login r username password) load;
  Logout s := auth.logout r s;
  RefreshSession s := bind (auth.refreshSession r s) load;
  ValidateSession s := auth.validateSession r s
}.


(** [LoginRequest] of the package of the interfaces, and its [IsValid]. *)
Record LoginRequest : Type := mkLoginRequest {
  req_Username : string;
  req_Password : string
}.

Definition NewLoginRequest (username password : string) : LoginRequest :=
  mkLoginRequest username password.

Definition LoginRequest_IsValid (r : LoginRequest) : bool :=
  negb (String.eqb (req_Username r) "") && negb (String.eqb (req_Password r) "").

End domain.

(* ===================================================================== *)
(** * internal/usecase/login_usecase.go *)
(* ===================================================================== *)

Module usecase.

Import entity domain.
Local Open Scope go_scope.

Record LoginRequest : Type := mkLoginRequest {
  req_Username : string;
  req_Password : string
}.

Record LoginResponse : Type := mkLoginResponse {
  Success : bool;
  resp_Username : string;
  resp_SessionID : string;
  Message : string
}.

(** A call of the use case on one of its two repositories. *)
Inductive Call : Type :=
| CallLogin (username password : string)
| CallSave (session : Session)
| CallSetCurrent (session : Session).

(** The world of the use case: the states of the two repositories it was
    built with, the calls it has made on them, oldest first, and its log. *)
Record Env (A R : Type) : Type := mkEnv {
  authRepo : A;
  sessionRepo : R;
  calls : list Call;
  logs : list logger.Record_
}.
Arguments mkEnv {A R}.
Arguments authRepo {A R}.
Arguments sessionRepo {A R}.
Arguments calls {A R}.
Arguments logs {A R}.

Section LoginUseCase.

Context {A R : Type} `{AuthRepository A} `{SessionRepository R}.

Definition log (l : logger.Level) (msg : string) : M (Env A R) unit :=
  modify (fun e => mkEnv (authRepo e) (sessionRepo e) (calls e)
                     (logs e ++ [logger.mkRecord l msg])).

(** A method call on [uc.authRepo]. *)
Definition onAuth {X} (c : Call) (m : M A X) : M (Env A R) X :=
  fun e =>
    let (x, a) := m (authRepo e) in
    (x, mkEnv a (sessionRepo e) (calls e ++ [c]) (logs e)).

(** A method call on [uc.sessionRepo]. *)
Definition onSessions {X} (c : Call) (m : M R X) : M (Env A R) X :=
  fun e =>
    let (x, r) := m (sessionRepo e) in
    (x, mkEnv (authRepo e) r (calls e ++ [c]) (logs e)).

Definition validateRequest (request : LoginRequest) : option error :=
  if String.eqb (strs.TrimSpace (req_Username request)) "" then
    Some (NewAppError CodeInvalidInput "username cannot be empty" None)
  else if String.eqb (strs.TrimSpace (req_Password request)) "" then
    Some (NewAppError CodeInvalidInput "password cannot be empty" None)
  else None.

Definition Execute (request : LoginRequest) : M (Env A R) (result LoginResponse) :=
  log logger.LevelInfo "executing login usecase" ;;;
  match validateRequest request with
  | Some err =>
      log logger.LevelWarn "invalid login request" ;;;
      ret (Err err)
  | None =>
      r <- onAuth (CallLogin (req_Username request) (req_Password request))
             (Login (req_Username request) (req_Password request)) ;;
      match r with
      | Err err =>
          log logger.LevelError "authentication failed" ;;;
          ret (Err (Wrap err "authentication failed"))
      | Ok session =>
          e <- onSessions (CallSave session) (Save session) ;;
          match e with
          | Some err =>
              log logger.LevelError "failed to save session" ;;;
              ret (Err (Wrap err "failed to save session"))
          | None =>
              e <- onSessions (CallSetCurrent session) (SetCurrent session) ;;
              match e with
              | Some err =>
                  log logger.LevelError "failed to set current session" ;;;
                  ret (Err (Wrap err "failed to set current session"))
              | None =>
                  log logger.LevelInfo "login successful" ;;;
                  ret (Ok (mkLoginResponse true (Username session)
                             (model.String (ID session)) "Login successful"))
              end
          end
      end
  end.

End LoginUseCase.

End usecase.

(* ===================================================================== *)
(** * Vocabulary of the properties *)
(* ===================================================================== *)

(** A string of 32 to 128 hexadecimal characters, in the words of the
    specification. *)
Definition hex_digit (c : ascii) : Prop :=
  In c (list_ascii_of_string "0123456789abcdefABCDEF").

Definition hex_32_128 (s : string) : Prop :=
  (32 <= String.length s <= 128)%nat /\
  forall c, In c (list_ascii_of_string s) -> hex_digit c.

(** The record [Save] writes for a session, as it is read back: the
    strings go through the JSON encoding. *)
Definition storedData (s : entity.Session) : repository.SessionData :=
  repository.written
    (repository.mkSessionData (model.String (entity.ID s)) (entity.Username s)
       (entity.Token s) (time.Unix (entity.ExpiresAt s))
       (time.Unix (entity.CreatedAt s)) (time.Unix (entity.LastUsed s))).

(** An instant rounded down to a whole second. *)
Definition wholeSeconds (t : time.Time) : time.Time := time.FromUnix (time.Unix t).

(** What an operation of the store may change besides the files: the clock
    is read, the log grows; the failures of the environment and the umask
    stay as they are. *)
Definition env_le (w w' : repository.World) : Prop :=
  repository.fails w' = repository.fails w /\
  repository.umask w' = repository.umask w /\
  time.reading (repository.clock w') = time.reading (repository.clock w) /\
  (time.cursor (repository.clock w) <= time.cursor (repository.clock w'))%nat /\
  repository.logs w `prefix_of` repository.logs w'.

Definition same_files (w w' : repository.World) : Prop :=
  repository.sessions w' = repository.sessions w /\
  repository.current w' = repository.current w.

(** ** Example values *)

Definition sid0 : model.SessionID :=
  model.mkSessionID "0123456789abcdef0123456789abcdef".

Definition sid1 : model.SessionID :=
  model.mkSessionID "fedcba9876543210fedcba9876543210".

(** A session of alice whose expiry is not a whole second. *)
Definition alice0 : entity.Session :=
  entity.mkSession sid0 "alice" "token-a"
    (1700086400 * time.Second + 500000000)
    (1700000000 * time.Second) (1700000000 * time.Second + 250).

(** A session of bob that expired long ago. *)
Definition bob0 : entity.Session :=
  entity.mkSession sid1 "bob" "token-b"
    (1600000000 * time.Second)
    (1599990000 * time.Second) (1599990000 * time.Second).

(** A session whose user name is the single byte FF, which is not valid
    UTF-8. *)
Definition mallory0 : entity.Session :=
  entity.mkSession sid0 (String (ascii_of_N 255) EmptyString) "token-m"
    (1700086400 * time.Second)
    (1700000000 * time.Second) (1700000000 * time.Second).

(** A clock that advances by one second at each of its first readings. *)
Definition clock0 : time.Clock :=
  time.mkClock
    (fun n => nth n [1700000100 * time.Second; 1700000101 * time.Second;
                     1700000102 * time.Second; 1700000103 * time.Second;
                     1700000104 * time.Second; 1700000105 * time.Second]
                (1700000106 * time.Second)) 0.

Definition noFailure (c : repository.Syscall) : bool := false.

Definition chmodFails (c : repository.Syscall) : bool :=
  match c with repository.SysChmod _ => true | _ => false end.

Definition readDirFails (c : repository.Syscall) : bool :=
  match c with repository.SysReadDir => true | _ => false end.

Definition writeCurrentFails (c : repository.Syscall) : bool :=
  match c with repository.SysWriteFile _ => true | _ => false end.

Definition removeFails (c : repository.Syscall) : bool :=
  match c with repository.SysRemove _ => true | _ => false end.

(** An empty configuration directory, with the usual umask 022. *)
Definition world0 (fails : repository.Syscall -> bool) : repository.World :=
  repository.mkWorld clock0 None None fails 18 [].

(** The store after alice's and bob's sessions have been saved. *)
Definition world2 (fails : repository.Syscall -> bool) : repository.World :=
  snd (repository.Save bob0 (snd (repository.Save alice0 (world0 fails)))).

(** The world in which the log record that opens [GetCurrent] is written. *)
Definition enteredGetCurrent (w : repository.World) : repository.World :=
  snd (repository.log logger.LevelDebug "getting current session" w).

(** A pointer file that names [sid0] in a store without any record. *)
Definition danglingWorld : repository.World :=
  repository.mkWorld clock0 (Some ∅)
    (Some (repository.mkPointer "0123456789abcdef0123456789abcdef" 384))
    noFailure 18 [].

(** A pointer file whose content is not an identifier, and an empty one. *)
Definition garbledWorld : repository.World :=
  repository.mkWorld clock0 (Some ∅)
    (Some (repository.mkPointer "not-a-session-id" 384)) noFailure 18 [].

Definition emptyPointerWorld : repository.World :=
  repository.mkWorld clock0 (Some ∅)
    (Some (repository.mkPointer "" 384)) noFailure 18 [].

(** A stored record: a regular file of the directory, filed under a
    well-formed identifier, that opens, decodes, and holds the identifier it
    is filed under. This is what [Save] leaves. *)
Definition stored (w : repository.World) (k : string) (d : repository.SessionData) : Prop :=
  exists e,
    repository.entryAt w k = Some e /\
    repository.regular e = true /\
    repository.data e = Some d /\
    repository.data_ID d = k /\
    model.isValidSessionIDFormat k = true /\
    repository.fails w (repository.SysOpen (repository.SessionFile k)) = false.

(** The directory can be listed: it is seen not to exist (the listing is
    then empty), or it exists and reading it does not fail. *)
Definition listable (w : repository.World) : Prop :=
  match repository.sessions w with
  | None => repository.fails w (repository.SysStat repository.SessionsDir) = false
  | Some _ => repository.fails w repository.SysReadDir = false
  end.

Definition removalFails (w : repository.World) (k : string) : bool :=
  repository.fails w (repository.SysRemove (repository.SessionFile k)).

Definition warned (msg : string) (w : repository.World) : Prop :=
  In (logger.mkRecord logger.LevelWarn msg) (repository.logs w).

(** The instant of the next reading of the clock. *)
Definition nextReading (w : repository.World) : time.Time :=
  time.reading (repository.clock w) (time.cursor (repository.clock w)).

(** The common shape of the loops of [DeleteByUsername] and [DeleteExpired]:
    delete the sessions that pass [test], log [msg] for a deletion that
    fails and go on. *)
Fixpoint deleteWhere (test : entity.Session -> M repository.World bool) (msg : string)
    (ss : list entity.Session) (deleted : Z) : M repository.World Z :=
  match ss with
  | [] => ret deleted
  | session :: rest =>
      bind (test session) (fun b =>
        if (b : bool)
        then bind (repository.Delete (entity.ID session)) (fun err =>
               match err with
               | Some _ =>
                   bind (repository.log logger.LevelWarn msg)
                        (fun _ => deleteWhere test msg rest deleted)
               | None => deleteWhere test msg rest (deleted + 1)
               end)
        else deleteWhere test msg rest deleted)
  end.

(** A store whose directory exists and cannot be read. *)
Definition unreadableWorld : repository.World :=
  repository.mkWorld clock0 (Some ∅) None readDirFails 18 [].

Definition listError : error :=
  Wrap (Wrap (External "os.ReadDir") "failed to read sessions directory")
       "failed to list sessions".

(** ** Vocabulary and example values for the gateway *)

(** The request [Login] sends. *)
Definition loginRequest (r : auth.AOJAuthRepository) (username password : string)
    : auth.Request :=
  auth.HeaderSet
    (auth.mkRequest "POST" (auth.baseURL r ++ "/session") []
       (Some (auth.mkLoginRequest username password)))
    "Content-Type" "application/json;charset=UTF-8".

(** The session [Login] and [RefreshSession] build from a draw of the random
    source, at the next reading of the clock. *)
Definition mintedID (bs : list Byte.byte) : model.SessionID :=
  model.mkSessionID (hex.EncodeToString (firstn 32 (bs ++ repeat Byte.x00 32))).

Definition minted (bs : list Byte.byte) (username token : string) (now : time.Time)
    : entity.Session :=
  entity.mkSession (mintedID bs) username token (now + 24 * time.Hour) now now.

Definition authNextReading (w : auth.World) : time.Time :=
  time.reading (auth.clock w) (time.cursor (auth.clock w)).

Definition nextDraw (w : auth.World) : option (list Byte.byte) :=
  rand.draw (auth.source w) (rand.draws (auth.source w)).

(** The world in which the log record that opens [RefreshSession] is
    written. *)
Definition enteredRefresh (w : auth.World) : auth.World :=
  snd (auth.log logger.LevelInfo "refreshing session" w).

(** The error of a session identifier that could not be generated. *)
Definition randError (msg : string) : error :=
  Wrap (Wrap (External "rand.Read") "failed to generate random session ID") msg.

Definition repo0 : auth.AOJAuthRepository := auth.mkRepo "https://judgeapi.u-aizu.ac.jp".

Definition bytes0 : list Byte.byte :=
  [Byte.x00; Byte.x01; Byte.x02; Byte.x03; Byte.x04; Byte.x05; Byte.x06; Byte.x07;
   Byte.x08; Byte.x09; Byte.x0a; Byte.x0b; Byte.x0c; Byte.x0d; Byte.x0e; Byte.x0f;
   Byte.x10; Byte.x11; Byte.x12; Byte.x13; Byte.x14; Byte.x15; Byte.x16; Byte.x17;
   Byte.x18; Byte.x19; Byte.x1a; Byte.x1b; Byte.x1c; Byte.x1d; Byte.x1e; Byte.xff].

(** A source that always delivers [bytes0], and one that is unavailable. *)
Definition source0 : rand.Source := rand.mkSource (fun _ => Some bytes0) 0.
Definition noSource : rand.Source := rand.mkSource (fun _ => None) 0.

(** A server that answers every request with the same status and body. *)
Definition answers (status : Z) (body : option auth.LoginResponse)
    : auth.Request -> result auth.Response :=
  fun _ => Ok (auth.mkResponse status "" body false).

Definition unreachable : auth.Request -> result auth.Response :=
  fun _ => Err (External "http.Client.Do").

Definition carolResponse : auth.LoginResponse :=
  auth.mkLoginResponse "carol" "Carol" "" "token-c".

(** A session of carol, valid at [clock0], whose identifier is the encoding
    of [bytes0]. *)
Definition carol0 : entity.Session :=
  entity.mkSession (mintedID bytes0) "carol" "token-c"
    (1700050000 * time.Second) (1700000000 * time.Second) (1700000000 * time.Second).

Definition authWorld (src : rand.Source) (server : auth.Request -> result auth.Response)
    : auth.World :=
  auth.mkWorld clock0 src [carol0] (fun _ => true) server [] [].

(** ** Example values for the login use case *)

Definition carolRequest : usecase.LoginRequest := usecase.mkLoginRequest "carol" "pw".

(** The session the gateway mints for carol at the second reading of
    [clock0] from the bytes [bytes0]. *)
Definition carol1 : entity.Session :=
  minted bytes0 "carol" "token-c" (1700000100 * time.Second).

(** A use case on the AOJ gateway and the local store, before any call. *)
Definition loginEnv (server : auth.Request -> result auth.Response)
    (fails : repository.Syscall -> bool) : usecase.Env auth.World repository.World :=
  usecase.mkEnv (authWorld source0 server) (world0 fails) [] [].

Definition ExecuteAOJ (request : usecase.LoginRequest)
    : M (usecase.Env auth.World repository.World) (result usecase.LoginResponse) :=
  @usecase.Execute auth.World repository.World
    (domain.AOJAuthRepository repo0) domain.LocalSessionRepository request.

(** ** Vocabulary of the further properties *)

(** A lower-case hexadecimal digit. *)
Definition lower_hex_digit (c : ascii) : Prop :=
  In c (list_ascii_of_string "0123456789abcdef").

(** A 33-character identifier: well formed, of odd length. *)
Definition sidOdd : model.SessionID :=
  model.mkSessionID "0123456789abcdef0123456789abcdef0".

Definition encodeFails (c : repository.Syscall) : bool :=
  match c with repository.SysEncode _ => true | _ => false end.

(** The store that holds alice's record, with a given set of failures and a
    given pointer file. *)
Definition worldAlice (fails : repository.Syscall -> bool)
    (pointer : option repository.Pointer) : repository.World :=
  repository.mkWorld clock0
    (repository.sessions (snd (repository.Save alice0 (world0 noFailure))))
    pointer fails 18 [].

Definition alicePointer : repository.Pointer :=
  repository.mkPointer "0123456789abcdef0123456789abcdef" 420.

Definition notFoundSession : error := AppError CodeNotFound "session not found" None.
Definition notFoundCurrent : error := AppError CodeNotFound "no current session" None.
Definition decodeError : error :=
  Wrap (External "json.Decode") "failed to decode session data".

Definition noValidSession : error :=
  AppError CodeNotFound "no valid session found for username" None.

(** A session that was decoded from a record of the store: the record is
    filed under a well-formed name, and its fields are those of the session
    (the identifier of the session is the one written in the record, not the
    name of the file). *)
Definition decodedFrom (w : repository.World) (s : entity.Session) : Prop :=
  exists (k : string) (e : repository.Entry) (d : repository.SessionData),
    model.isValidSessionIDFormat k = true /\
    repository.entryAt w k = Some e /\
    repository.data e = Some d /\
    model.NewSessionID (repository.data_ID d) = Ok (entity.ID s) /\
    entity.Username s = repository.data_Username d /\
    entity.Token s = repository.data_Token d /\
    entity.ExpiresAt s = time.FromUnix (repository.data_ExpiresAt d) /\
    entity.LastUsed s = time.FromUnix (repository.data_LastUsed d).

(** The permission bits of the group and of the others. *)
Definition groupOtherBits : Z := 63.

(** A store whose only record does not decode. *)
Definition tornWorld : repository.World :=
  snd (repository.Save alice0 (worldAlice encodeFails None)).

(** Alice's session as it is read back from its record by the first
    operation on [clock0]. *)
Definition aliceLoaded : entity.Session :=
  entity.mkSession sid0 "alice" "token-a"
    (wholeSeconds (entity.ExpiresAt alice0))
    (1700000100 * time.Second)
    (wholeSeconds (entity.LastUsed alice0)).

(** The request [ValidateSession] sends for a session, and the one [Logout]
    sends. *)
Definition validationRequest (r : auth.AOJAuthRepository) (s : entity.Session)
    : auth.Request :=
  auth.HeaderSet
    (auth.mkRequest "GET" (auth.baseURL r ++ "/user/" ++ entity.Username s) [] None)
    "Authorization" ("Bearer " ++ entity.Token s).

Definition logoutRequest (r : auth.AOJAuthRepository) (s : entity.Session)
    : auth.Request :=
  auth.HeaderSet (auth.mkRequest "DELETE" (auth.baseURL r ++ "/session") [] None)
    "Authorization" ("Bearer " ++ entity.Token s).

Definition validationURLError : error :=
  Wrap (External "http.NewRequestWithContext") "failed to create validation request".

Definition noLongerValid : error :=
  AppError CodeUnauthorized "session is no longer valid" None.

(** A gateway that holds carol's session, valid at [clock0], and bob's,
    which expired long ago. *)
Definition authWorld2 (server : auth.Request -> result auth.Response) : auth.World :=
  auth.mkWorld clock0 source0 [carol0; bob0] (fun _ => true) server [] [].

(** A response of the server without a token. *)
Definition noTokenResponse : auth.LoginResponse :=
  auth.mkLoginResponse "carol" "Carol" "" "".

(** A string made of ASCII white space only. *)
Definition allSpace (s : string) : bool :=
  forallb strs.asciiSpace (list_ascii_of_string s).

Definition blankRequest : usecase.LoginRequest := usecase.mkLoginRequest "  " "pw".
(* ===================================================================== *)
(** * Properties *)
(* ===================================================================== *)

(** Unfolding of the state-passing combinators. *)
Ltac run :=
  cbv beta iota delta [bind ret gets modify] in *.

(** ** Session identifiers *)

Section SessionIDFacts.

Import strs.

Lemma isHexChar_range c :
  model.isHexChar c = true <->
  (48 <= byte_of c <= 57 \/ 65 <= byte_of c <= 70 \/ 97 <= byte_of c <= 102)%N.
Proof.
  unfold model.isHexChar. cbv zeta.
  rewrite !orb_true_iff, !andb_true_iff, !N.leb_le. tauto.
Qed.

Lemma isHexChar_hex_digit c : model.isHexChar c = true <-> hex_digit c.
Proof.
  split.
  - intros Hc. destruct c as [[] [] [] [] [] [] [] []];
      first [ discriminate Hc | unfold hex_digit; simpl; tauto ].
  - unfold hex_digit. simpl.
    intros Hc. repeat (destruct Hc as [<- | Hc]; [reflexivity |]). destruct Hc.
Qed.

Lemma allHex_forall s :
  model.allHex s = true <-> forall c, In c (list_ascii_of_string s) -> hex_digit c.
Proof.
  induction s as [| a s IH]; simpl.
  - split; [intros _ c [] | reflexivity].
  - rewrite andb_true_iff, IH, isHexChar_hex_digit. split.
    + intros [Ha Hs] c [<- | Hc]; auto.
    + intros Hall. split; [apply Hall; now left | intros c Hc; apply Hall; now right].
Qed.

(** The pattern accepts exactly the strings of 32 to 128 hexadecimal
    characters. *)
Lemma isValidSessionIDFormat_iff s :
  model.isValidSessionIDFormat s = true <-> hex_32_128 s.
Proof.
  unfold model.isValidSessionIDFormat, hex_32_128.
  rewrite !andb_true_iff, allHex_forall, !Nat.leb_le. tauto.
Qed.

Lemma hex_not_space c :
  model.isHexChar c = true ->
  asciiSpace c = false /\
  (forall c2, space2 c c2 = false) /\ (forall c2, space2 c2 c = false) /\
  (forall c2 c3, space3 c c2 c3 = false) /\ (forall c2 c3, space3 c3 c2 c = false).
Proof.
  rewrite isHexChar_range. intros Hc.
  unfold asciiSpace, space2, space3. cbv zeta.
  repeat split; intros;
    rewrite ?orb_false_iff, ?andb_false_iff, ?orb_false_iff, ?andb_false_iff,
      ?N.eqb_neq, ?N.leb_gt; lia.
Qed.

Lemma trimLeft_hex c r : model.isHexChar c = true -> trimLeft (String c r) = String c r.
Proof.
  intros Hc. destruct (hex_not_space c Hc) as (H1 & H2 & _ & H3 & _).
  simpl. rewrite H1.
  destruct r as [| c2 r]; [reflexivity |]. rewrite H2.
  destruct r as [| c3 r]; [reflexivity |]. now rewrite H3.
Qed.

Lemma trimLeftRev_hex c r : model.isHexChar c = true -> trimLeftRev (String c r) = String c r.
Proof.
  intros Hc. destruct (hex_not_space c Hc) as (H1 & _ & H2 & _ & H3).
  simpl. rewrite H1.
  destruct r as [| c2 r]; [reflexivity |]. rewrite H2.
  destruct r as [| c3 r]; [reflexivity |]. now rewrite H3.
Qed.

Lemma rev_app_rev_app s : forall t u,
  String.rev_app (String.rev_app s t) u = String.rev_app t (s ++ u)%string.
Proof.
  induction s as [| a s IH]; intros t u; simpl; [reflexivity |].
  now rewrite IH.
Qed.

Lemma append_empty_r s : (s ++ "")%string = s.
Proof.
  induction s as [| a s IH]; [reflexivity |].
  change (String a (s ++ "")%string = String a s). now f_equal.
Qed.

Lemma rev_rev s : String.rev (String.rev s) = s.
Proof. unfold String.rev. rewrite rev_app_rev_app. simpl. apply append_empty_r. Qed.

Lemma allHex_rev_app s : forall t,
  model.allHex (String.rev_app s t) = model.allHex s && model.allHex t.
Proof.
  induction s as [| a s IH]; intros t; simpl; [reflexivity |].
  rewrite IH. simpl. destruct (model.isHexChar a), (model.allHex s); reflexivity.
Qed.

(** Trimming leaves a string of hexadecimal characters as it is. *)
Lemma TrimSpace_allHex s : model.allHex s = true -> TrimSpace s = s.
Proof.
  intros Hs. unfold TrimSpace, trimRight.
  assert (Hl : trimLeft s = s).
  { destruct s as [| c r]; [reflexivity |]. simpl in Hs.
    apply andb_true_iff in Hs as [Hc _]. now apply trimLeft_hex. }
  rewrite Hl.
  assert (Hr : model.allHex (String.rev s) = true).
  { unfold String.rev. rewrite allHex_rev_app, Hs. reflexivity. }
  destruct (String.rev s) as [| c r] eqn:E.
  - simpl. rewrite <- (rev_rev s), E. reflexivity.
  - simpl in Hr. apply andb_true_iff in Hr as [Hc _].
    rewrite (trimLeftRev_hex c r Hc), <- E. apply rev_rev.
Qed.

Lemma isValidSessionIDFormat_nonempty s :
  model.isValidSessionIDFormat s = true -> String.eqb s "" = false.
Proof.
  unfold model.isValidSessionIDFormat. rewrite !andb_true_iff, !Nat.leb_le.
  intros [[_ Hlen] _]. destruct s; [simpl in Hlen; lia | reflexivity].
Qed.

Lemma isValidSessionIDFormat_trim s :
  model.isValidSessionIDFormat s = true -> TrimSpace s = s.
Proof.
  intros Hs. apply TrimSpace_allHex.
  unfold model.isValidSessionIDFormat in Hs. now rewrite !andb_true_iff in Hs.
Qed.

Lemma TrimSpace_empty : TrimSpace "" = "".
Proof. reflexivity. Qed.

(** What [NewSessionID] returns, by the format of the trimmed value. *)
Lemma NewSessionID_eq v :
  model.NewSessionID v =
  if model.isValidSessionIDFormat (TrimSpace v) then Ok (model.mkSessionID (TrimSpace v))
  else if String.eqb v "" then
    Err (AppError CodeInvalidInput "session ID cannot be empty" None)
  else Err (AppError CodeInvalidInput "invalid session ID format" None).
Proof.
  unfold model.NewSessionID, NewAppError, WithDetail_nil.
  destruct (String.eqb v "") eqn:E.
  - apply String.eqb_eq in E. subst v. reflexivity.
  - destruct (model.isValidSessionIDFormat (TrimSpace v)); reflexivity.
Qed.

Lemma NewSessionID_valid v :
  model.isValidSessionIDFormat v = true -> model.NewSessionID v = Ok (model.mkSessionID v).
Proof.
  intros Hv. rewrite NewSessionID_eq, (isValidSessionIDFormat_trim v Hv), Hv.
  reflexivity.
Qed.

Lemma NewSessionID_Ok_inv v sid :
  model.NewSessionID v = Ok sid ->
  model.value sid = TrimSpace v /\ model.isValidSessionIDFormat (model.value sid) = true.
Proof.
  rewrite NewSessionID_eq.
  destruct (model.isValidSessionIDFormat (TrimSpace v)) eqn:E.
  - intros [= <-]. simpl. auto.
  - destruct (String.eqb v ""); discriminate.
Qed.

Lemma NewSessionID_Err_code v e :
  model.NewSessionID v = Err e -> GetErrorCode e = Some CodeInvalidInput.
Proof.
  rewrite NewSessionID_eq.
  destruct (model.isValidSessionIDFormat (TrimSpace v)); [discriminate |].
  destruct (String.eqb v ""); intros [= <-]; reflexivity.
Qed.

End SessionIDFacts.

(** ** Strings through the JSON encoding *)

Section JSONFacts.

Lemma coerce_single c r : utf8.single c = true -> json.coerce (String c r) = String c (json.coerce r).
Proof. intros H. cbn [json.coerce]. now rewrite H. Qed.

Lemma isHexChar_single c : model.isHexChar c = true -> utf8.single c = true.
Proof.
  rewrite isHexChar_range. unfold utf8.single. intros H. apply N.ltb_lt. lia.
Qed.

(** A string of hexadecimal characters goes through unchanged. *)
Lemma coerce_allHex s : model.allHex s = true -> json.coerce s = s.
Proof.
  induction s as [| c r IH]; [reflexivity |].
  cbn [model.allHex]. intros H. apply andb_true_iff in H as [Hc Hr].
  rewrite (coerce_single c r (isHexChar_single c Hc)), (IH Hr). reflexivity.
Qed.

Lemma coerce_valid_upto (n : nat) :
  forall s, (String.length s <= n)%nat -> utf8.ValidString s = true -> json.coerce s = s.
Proof.
  induction n as [| n IH]; intros s Hl Hv.
  - destruct s; [reflexivity | simpl in Hl; lia].
  - destruct s as [| c1 r1]; [reflexivity |].
    cbn [utf8.ValidString json.coerce String.length] in *.
    destruct (utf8.single c1); [f_equal; apply IH; [lia | exact Hv] |].
    destruct r1 as [| c2 r2]; [discriminate Hv |].
    cbn [String.length] in Hl.
    destruct (utf8.two c1 c2); [do 2 f_equal; apply IH; [lia | exact Hv] |].
    destruct r2 as [| c3 r3]; [discriminate Hv |].
    cbn [String.length] in Hl.
    destruct (utf8.three c1 c2 c3); [do 3 f_equal; apply IH; [lia | exact Hv] |].
    destruct r3 as [| c4 r4]; [discriminate Hv |].
    cbn [String.length] in Hl.
    destruct (utf8.four c1 c2 c3 c4); [| discriminate Hv].
    do 4 f_equal. apply IH; [lia | exact Hv].
Qed.

(** A string that is valid UTF-8 goes through unchanged. *)
Lemma coerce_valid s : utf8.ValidString s = true -> json.coerce s = s.
Proof. apply (coerce_valid_upto (String.length s)). lia. Qed.

Lemma written_storedData_ID (s : entity.Session) :
  model.isValidSessionIDFormat (model.value (entity.ID s)) = true ->
  repository.data_ID (storedData s) = model.value (entity.ID s).
Proof.
  intros Hv. unfold storedData, repository.written. cbn [repository.data_ID].
  unfold model.String. apply coerce_allHex.
  unfold model.isValidSessionIDFormat in Hv. now rewrite !andb_true_iff in Hv.
Qed.

End JSONFacts.

(** C5 (as amended). A string of 32 to 128 hexadecimal characters is
    accepted by [NewSessionID] and [String()] returns it unchanged. More
    generally the value is trimmed first: when the trimmed value is such a
    string, construction succeeds and [String()] returns the trimmed value;
    for every other string construction fails with an error of kind
    [InvalidInput]. *)
Theorem NewSessionID_spec (v : string) :
  (hex_32_128 v ->
     exists sid, model.NewSessionID v = Ok sid /\ model.String sid = v) /\
  (hex_32_128 (strs.TrimSpace v) ->
     exists sid, model.NewSessionID v = Ok sid /\
                 model.String sid = strs.TrimSpace v) /\
  (~ hex_32_128 (strs.TrimSpace v) ->
     exists e, model.NewSessionID v = Err e /\
               GetErrorCode e = Some CodeInvalidInput).
Proof.
  repeat split.
  - intros Hv%isValidSessionIDFormat_iff.
    exists (model.mkSessionID v). split; [now apply NewSessionID_valid | reflexivity].
  - intros Hv%isValidSessionIDFormat_iff.
    exists (model.mkSessionID (strs.TrimSpace v)).
    rewrite NewSessionID_eq, Hv. split; reflexivity.
  - intros Hv. rewrite <- isValidSessionIDFormat_iff in Hv.
    apply not_true_is_false in Hv.
    destruct (model.NewSessionID v) as [sid | e] eqn:E.
    + apply NewSessionID_Ok_inv in E as [E1 E2]. rewrite E1 in E2. congruence.
    + exists e. split; [reflexivity | now apply NewSessionID_Err_code in E].
Qed.

(** The three parts at concrete values: a bare identifier, one surrounded
    by white space, and one that is too short. *)
Lemma NewSessionID_spec_witness :
  (exists sid, model.NewSessionID "0123456789abcdefABCDEF0123456789" = Ok sid /\
               model.String sid = "0123456789abcdefABCDEF0123456789") /\
  (exists sid, model.NewSessionID " 0123456789abcdefABCDEF0123456789 " = Ok sid /\
               model.String sid = "0123456789abcdefABCDEF0123456789") /\
  (exists e, model.NewSessionID "abc" = Err e /\
             GetErrorCode e = Some CodeInvalidInput).
Proof.
  split; [| split].
  - apply (proj1 (NewSessionID_spec "0123456789abcdefABCDEF0123456789")).
    apply isValidSessionIDFormat_iff. vm_compute. reflexivity.
  - apply (proj1 (proj2 (NewSessionID_spec " 0123456789abcdefABCDEF0123456789 "))).
    apply isValidSessionIDFormat_iff. vm_compute. reflexivity.
  - apply (proj2 (proj2 (NewSessionID_spec "abc"))).
    rewrite <- isValidSessionIDFormat_iff. vm_compute. discriminate.
Defined.

(** C5 as stated fails: a string that is not made of 32 to 128 hexadecimal
    characters (it starts with a space) is accepted, because the value is
    trimmed before it is checked. *)
Lemma NewSessionID_counterexample :
  ~ hex_32_128 " 0123456789abcdef0123456789abcdef" /\
  model.NewSessionID " 0123456789abcdef0123456789abcdef"
  = Ok (model.mkSessionID "0123456789abcdef0123456789abcdef").
Proof.
  split.
  - rewrite <- isValidSessionIDFormat_iff. vm_compute. discriminate.
  - vm_compute. reflexivity.
Qed.
(** ** Sessions *)

Section SessionFacts.

Import time entity.


End SessionFacts.


(** ** The local session store *)

(** Case analysis on the innermost scrutinee of a hypothesis or of the goal. *)
Ltac break_in E :=
  repeat (simpl in E;
          match type of E with
          | context [match ?x with _ => _ end] =>
              lazymatch x with
              | context [match _ with _ => _ end] => fail
              | _ => destruct x eqn:?
              end
          end); simpl in E.

Ltac unfold_os :=
  unfold repository.ensureConfigDir, repository.MkdirAll, repository.Create,
    repository.Encode, repository.Chmod, repository.deferClose, repository.Open,
    repository.Decode, repository.Remove, repository.ReadFile, repository.WriteFile,
    repository.ReadDir, repository.Stat, repository.IsNotExist, repository.log, repository.withClock,
    repository.getSessionFilePath, repository.getCurrentSessionFilePath,
    repository.putEntry, repository.entryAt in *.

Ltac solve_prefix := simpl; repeat apply prefix_app_r; reflexivity.

Ltac solve_env_le :=
  unfold env_le; simpl; repeat split; try congruence; try lia; try solve_prefix.

Section StoreFacts.

Import time entity repository.
#[local] Arguments model.NewSessionID : simpl never.
#[local] Arguments strs.TrimSpace : simpl never.

Lemma env_le_refl w : env_le w w.
Proof. solve_env_le. Qed.

Lemma env_le_trans w1 w2 w3 : env_le w1 w2 -> env_le w2 w3 -> env_le w1 w3.
Proof.
  intros (F1 & U1 & R1 & C1 & L1) (F2 & U2 & R2 & C2 & L2).
  unfold env_le. repeat split; try congruence; try lia. now transitivity (logs w2).
Qed.

Lemma SessionID_eta (sid : model.SessionID) : model.mkSessionID (model.value sid) = sid.
Proof. now destruct sid. Qed.

(** When [Save] returns nil the record of the session is in the directory,
    under the identifier of the session. *)
Lemma Save_inv (s : Session) (w w' : World) :
  Save s w = (None, w') ->
  String.eqb (model.String (ID s)) "" = false /\
  exists (d : gmap string Entry) (reg : bool) (m : Z),
    sessions w' = Some (<[model.String (ID s) := mkEntry reg (Some (storedData s)) m]> d) /\
    (fails w (SysChmod (SessionFile (model.String (ID s)))) = false -> m = perm0600) /\
    current w' = current w /\ env_le w w' /\ clock w' = clock w.
Proof.
  intros E. unfold Save in E. unfold_os. run.
  break_in E; try discriminate E; injection E as <-;
    repeat match goal with
           | H : <[_:=_]> _ !! _ = _ |- _ =>
               rewrite lookup_insert_eq in H; first [discriminate H | injection H as <-]
           end;
    (split; [first [assumption | reflexivity] |]); simpl; do 3 eexists;
    (split; [reflexivity |]); (split; [congruence |]);
    (split; [reflexivity |]); (split; [solve_env_le | reflexivity]).
Qed.

(** Loading a record that is there, opens and decodes. *)
Lemma GetByID_found (name : string) (w : World) (e : Entry) (d : SessionData)
    (sid : model.SessionID) :
  String.eqb name "" = false ->
  entryAt w name = Some e ->
  data e = Some d ->
  fails w (SysOpen (SessionFile name)) = false ->
  model.NewSessionID (data_ID d) = Ok sid ->
  exists w',
    GetByID (model.mkSessionID name) w =
      (Ok (mkSession sid (data_Username d) (data_Token d) (FromUnix (data_ExpiresAt d))
             (reading (clock w) (cursor (clock w))) (FromUnix (data_LastUsed d))), w') /\
    same_files w w' /\ env_le w w' /\
    cursor (clock w') = S (cursor (clock w)).
Proof.
  intros Hn He Hd Ho Hs. unfold GetByID, dataToSession. unfold_os. run.
  destruct (sessions w) as [g|] eqn:Eg; [| discriminate].
  destruct e as [reg dat m]. simpl in Hd. subst dat.
  unfold NewSession, Now, UpdateLastUsedAt. run.
  destruct (fails w (SysStat (SessionFile name))) eqn:Est;
    repeat (simpl; first [rewrite Hn | rewrite Est | rewrite Eg | rewrite He
                         | rewrite Ho | rewrite Hs]);
    simpl; destruct (fails w (SysClose (SessionFile name))); simpl;
    eexists; (split; [reflexivity |]); unfold same_files; simpl;
    (split; [auto |]); (split; [solve_env_le | reflexivity]).
Qed.

(** Whatever [GetByID] returns, it leaves the files as they are. *)
Lemma GetByID_frame (sid : model.SessionID) (w w' : World) (r : result Session) :
  GetByID sid w = (r, w') -> same_files w w' /\ env_le w w'.
Proof.
  intros E. unfold GetByID, dataToSession in E. unfold_os.
  unfold NewSession, Now, UpdateLastUsedAt in E. run.
  break_in E; injection E as <- <-; unfold same_files; simpl;
    (split; [auto | solve_env_le]).
Qed.

(** The identifier of a session that [GetByID] returns is well formed. *)
Lemma GetByID_valid (sid : model.SessionID) (w w' : World) (s : Session) :
  GetByID sid w = (Ok s, w') -> model.isValidSessionIDFormat (model.value (ID s)) = true.
Proof.
  intros E. unfold GetByID, dataToSession in E. unfold_os.
  unfold NewSession, Now, UpdateLastUsedAt in E. run.
  break_in E; try discriminate E; injection E as <- <-; simpl;
    match goal with
    | H : model.NewSessionID _ = Ok _ |- _ => now apply NewSessionID_Ok_inv in H
    end.
Qed.

(** Loading a record that is not there. *)
Lemma GetByID_absent (sid : model.SessionID) (w : World) :
  String.eqb (model.String sid) "" = false ->
  fails w (SysStat (SessionFile (model.String sid))) = false ->
  entryAt w (model.String sid) = None ->
  fst (GetByID sid w) = Err (AppError CodeNotFound "session not found" None).
Proof.
  intros Hn Hst He. unfold GetByID. unfold_os. run. simpl in *.
  rewrite Hn. simpl. rewrite Hst.
  destruct (sessions w); simpl; [rewrite He |]; reflexivity.
Qed.

End StoreFacts.

(** C1 (as amended). When [Save(s)] succeeds for a session with a well-formed
    identifier and the record can be opened, [GetByID(s.id)] right after
    succeeds and returns a session with the same identifier; its user name
    and its token are those of [s] as the JSON encoding leaves them (every
    byte that starts no UTF-8 encoding replaced by U+FFFD), so the same
    whenever they are valid UTF-8; its expiry and its last use are those of
    [s] rounded down to the whole second, which is what the record holds. *)
Theorem Save_GetByID (s : entity.Session) (w w1 : repository.World) :
  model.IsValid (entity.ID s) = true ->
  repository.Save s w = (None, w1) ->
  repository.fails w (repository.SysOpen
     (repository.SessionFile (model.String (entity.ID s)))) = false ->
  exists s' w2,
    repository.GetByID (entity.ID s) w1 = (Ok s', w2) /\
    entity.ID s' = entity.ID s /\
    entity.Username s' = json.coerce (entity.Username s) /\
    entity.Token s' = json.coerce (entity.Token s) /\
    (utf8.ValidString (entity.Username s) = true ->
     entity.Username s' = entity.Username s) /\
    (utf8.ValidString (entity.Token s) = true ->
     entity.Token s' = entity.Token s) /\
    entity.ExpiresAt s' = wholeSeconds (entity.ExpiresAt s) /\
    entity.LastUsed s' = wholeSeconds (entity.LastUsed s).
Proof.
  intros Hv Hs Ho.
  apply Save_inv in Hs as (Hn & d & reg & m & Hd & _ & _ & Hle & _).
  unfold model.IsValid in Hv. apply andb_true_iff in Hv as [_ Hv].
  destruct Hle as (Hf & _).
  destruct (GetByID_found (model.String (entity.ID s)) w1
              (repository.mkEntry reg (Some (storedData s)) m) (storedData s) (entity.ID s))
    as (w2 & E & _); try reflexivity; try assumption.
  - unfold repository.entryAt. rewrite Hd. apply lookup_insert_eq.
  - congruence.
  - rewrite (written_storedData_ID s Hv), (NewSessionID_valid _ Hv).
    f_equal. apply SessionID_eta.
  - exists (entity.mkSession (entity.ID s) (json.coerce (entity.Username s))
              (json.coerce (entity.Token s))
              (wholeSeconds (entity.ExpiresAt s))
              (time.reading (repository.clock w1) (time.cursor (repository.clock w1)))
              (wholeSeconds (entity.LastUsed s))), w2.
    split; [unfold model.String in E; rewrite SessionID_eta in E; exact E |].
    split; [reflexivity |]. split; [reflexivity |]. split; [reflexivity |].
    split; [intros H; exact (coerce_valid _ H) |].
    split; [intros H; exact (coerce_valid _ H) |].
    split; reflexivity.
Qed.

Lemma Save_GetByID_witness :
  exists s' w2,
    repository.GetByID (entity.ID alice0) (snd (repository.Save alice0 (world0 noFailure)))
      = (Ok s', w2) /\
    entity.ID s' = entity.ID alice0 /\
    entity.Username s' = entity.Username alice0 /\
    entity.Token s' = entity.Token alice0 /\
    entity.ExpiresAt s' = wholeSeconds (entity.ExpiresAt alice0) /\
    entity.LastUsed s' = wholeSeconds (entity.LastUsed alice0).
Proof.
  destruct (Save_GetByID alice0 (world0 noFailure)
              (snd (repository.Save alice0 (world0 noFailure))))
    as (s' & w2 & E & H1 & _ & _ & H2 & H3 & H4 & H5).
  - vm_compute. reflexivity.
  - apply injective_projections; [vm_compute; reflexivity | reflexivity].
  - reflexivity.
  - exists s', w2. split; [exact E |]. split; [exact H1 |].
    split; [exact (H2 eq_refl) |]. split; [exact (H3 eq_refl) |].
    split; [exact H4 | exact H5].
Defined.

(** C1 as stated fails on the instants: alice's session expires half a
    second after a whole second, and the session read back expires at the
    whole second; its creation instant is the instant of the reading. *)
Lemma Save_GetByID_counterexample :
  fst (repository.Save alice0 (world0 noFailure)) = None /\
  exists s',
    fst (repository.GetByID (entity.ID alice0)
           (snd (repository.Save alice0 (world0 noFailure)))) = Ok s' /\
    entity.ExpiresAt s' <> entity.ExpiresAt alice0 /\
    entity.LastUsed s' <> entity.LastUsed alice0 /\
    entity.CreatedAt s' <> entity.CreatedAt alice0.
Proof.
  split; [vm_compute; reflexivity |].
  eexists. split; [vm_compute; reflexivity |].
  repeat split; vm_compute; discriminate.
Qed.

(** A user name that is not valid UTF-8 does not come back as it was
    saved: the byte FF is read back as the three bytes of U+FFFD. *)
Lemma Save_GetByID_invalid_utf8 :
  fst (repository.Save mallory0 (world0 noFailure)) = None /\
  exists s',
    fst (repository.GetByID (entity.ID mallory0)
           (snd (repository.Save mallory0 (world0 noFailure)))) = Ok s' /\
    entity.Username s' = utf8.replacement "" /\
    entity.Username s' <> entity.Username mallory0.
Proof.
  split; [vm_compute; reflexivity |].
  eexists. split; [vm_compute; reflexivity |].
  split; [reflexivity | vm_compute; discriminate].
Qed.

(** C6 (as amended). When [Save(s)] returns success and changing the mode of
    the record did not fail, the record of [s] has mode 0600 exactly. (When
    [os.Chmod] fails, [Save] logs a warning and still returns success.) *)
Theorem Save_mode (s : entity.Session) (w w1 : repository.World) :
  repository.Save s w = (None, w1) ->
  repository.fails w (repository.SysChmod
     (repository.SessionFile (model.String (entity.ID s)))) = false ->
  exists e,
    repository.entryAt w1 (model.String (entity.ID s)) = Some e /\
    repository.data e = Some (storedData s) /\
    repository.mode e = repository.perm0600.
Proof.
  intros Hs Hc.
  apply Save_inv in Hs as (Hn & d & reg & m & Hd & Hm & _).
  exists (repository.mkEntry reg (Some (storedData s)) m).
  unfold repository.entryAt. rewrite Hd, lookup_insert_eq. simpl. auto.
Qed.

Lemma Save_mode_witness :
  exists e,
    repository.entryAt (snd (repository.Save alice0 (world0 noFailure)))
      (model.String (entity.ID alice0)) = Some e /\
    repository.data e = Some (storedData alice0) /\
    repository.mode e = repository.perm0600.
Proof.
  apply (Save_mode alice0 (world0 noFailure)).
  - vm_compute. reflexivity.
  - reflexivity.
Defined.

(** C6 as stated fails: when [os.Chmod] fails, [Save] still returns success
    and the new record keeps the mode it was created with, 0644 under the
    umask 022; the failure is logged as a warning. *)
Lemma Save_mode_counterexample :
  fst (repository.Save alice0 (world0 chmodFails)) = None /\
  (exists e,
     repository.entryAt (snd (repository.Save alice0 (world0 chmodFails)))
       (model.String (entity.ID alice0)) = Some e /\
     repository.mode e = 420 /\ repository.mode e <> repository.perm0600) /\
  In (logger.mkRecord logger.LevelWarn "failed to set session file permissions")
     (repository.logs (snd (repository.Save alice0 (world0 chmodFails)))).
Proof.
  split; [vm_compute; reflexivity |]. split.
  - eexists. split; [vm_compute; reflexivity |]. split; [reflexivity | discriminate].
  - vm_compute. tauto.
Qed.

(** ** The current-session pointer *)

Section CurrentFacts.

Import time entity repository.
#[local] Arguments model.NewSessionID : simpl never.

(** [GetCurrent], case by case. The pointer file is taken to be absent
    only when [os.Stat] says so. *)
Lemma GetCurrent_eq (w : World) :
  GetCurrent w =
  match current w with
  | None =>
      if fails w (SysStat CurrentFile)
      then (Err (Wrap (External "os.ReadFile") "failed to read current session file"),
            enteredGetCurrent w)
      else (Err (AppError CodeNotFound "no current session" None), enteredGetCurrent w)
  | Some p =>
      if fails w (SysReadFile CurrentFile)
      then (Err (Wrap (External "os.ReadFile") "failed to read current session file"),
            enteredGetCurrent w)
      else match model.NewSessionID (content p) with
           | Err e => (Err (Wrap e "invalid session ID in current session file"),
                       enteredGetCurrent w)
           | Ok sid => GetByID sid (enteredGetCurrent w)
           end
  end.
Proof.
  unfold GetCurrent, enteredGetCurrent. unfold_os. run. simpl.
  destruct (current w) as [p |] eqn:Hc; simpl.
  - destruct (fails w (SysStat CurrentFile)); simpl;
      (destruct (fails w (SysReadFile CurrentFile)) eqn:Hf; simpl; [reflexivity |]);
      rewrite Hc; simpl; destruct (model.NewSessionID (content p)); reflexivity.
  - destruct (fails w (SysStat CurrentFile)); simpl; [| reflexivity].
    destruct (fails w (SysReadFile CurrentFile)); simpl; [reflexivity |].
    rewrite Hc. reflexivity.
Qed.

End CurrentFacts.

(** C4. [GetCurrent] fails with [NotFound] when the pointer file is absent
    ([os.Stat] reports that it does not exist).
    When the pointer file is there, is read, and holds a session identifier,
    [GetCurrent] is [GetByID] on that identifier: it returns what [GetByID]
    returns. In particular, when no record is stored under the identifier
    (a dangling pointer), it fails with the plain [NotFound] of [GetByID]. *)
Theorem GetCurrent_spec (w : repository.World) :
  (repository.current w = None ->
   repository.fails w (repository.SysStat repository.CurrentFile) = false ->
     exists e, fst (repository.GetCurrent w) = Err e /\
               e = AppError CodeNotFound "no current session" None /\
               GetErrorCode e = Some CodeNotFound) /\
  (forall p sid,
     repository.current w = Some p ->
     repository.fails w (repository.SysReadFile repository.CurrentFile) = false ->
     model.NewSessionID (repository.content p) = Ok sid ->
     repository.GetCurrent w = repository.GetByID sid (enteredGetCurrent w) /\
     (repository.entryAt w (model.String sid) = None ->
      repository.fails w (repository.SysStat
         (repository.SessionFile (model.String sid))) = false ->
        fst (repository.GetCurrent w)
        = Err (AppError CodeNotFound "session not found" None))).
Proof.
  split.
  - intros Hc Hst. rewrite GetCurrent_eq, Hc, Hst. simpl. eauto.
  - intros p sid Hc Hr Hs. rewrite GetCurrent_eq, Hc, Hr, Hs.
    split; [reflexivity |]. intros He Hst.
    apply GetByID_absent; [| exact Hst | exact He].
    apply NewSessionID_Ok_inv in Hs as [_ Hv].
    now apply isValidSessionIDFormat_nonempty.
Qed.

Lemma GetCurrent_spec_witness :
  (exists e, fst (repository.GetCurrent (world0 noFailure)) = Err e /\
             e = AppError CodeNotFound "no current session" None /\
             GetErrorCode e = Some CodeNotFound) /\
  repository.GetCurrent danglingWorld
    = repository.GetByID sid0 (enteredGetCurrent danglingWorld) /\
  fst (repository.GetCurrent danglingWorld)
    = Err (AppError CodeNotFound "session not found" None).
Proof.
  split; [| split].
  - apply (proj1 (GetCurrent_spec (world0 noFailure))); reflexivity.
  - apply (proj2 (GetCurrent_spec danglingWorld)
             (repository.mkPointer "0123456789abcdef0123456789abcdef" 384) sid0);
      [reflexivity | reflexivity | vm_compute; reflexivity].
  - apply (proj2 (GetCurrent_spec danglingWorld)
             (repository.mkPointer "0123456789abcdef0123456789abcdef" 384) sid0);
      [reflexivity | reflexivity | vm_compute; reflexivity | vm_compute; reflexivity
      | reflexivity].
Defined.

(** C10. When the pointer file is there and is read, and its content is not
    a session identifier, [GetCurrent] fails with the error of
    [NewSessionID], of kind [InvalidInput], wrapped with a message; the
    error is not of kind [NotFound]. *)
Theorem GetCurrent_invalid_pointer (w : repository.World) (p : repository.Pointer)
    (e : error) :
  repository.current w = Some p ->
  repository.fails w (repository.SysReadFile repository.CurrentFile) = false ->
  model.NewSessionID (repository.content p) = Err e ->
  fst (repository.GetCurrent w)
    = Err (Wrap e "invalid session ID in current session file") /\
  GetErrorCode (Wrap e "invalid session ID in current session file")
    = Some CodeInvalidInput /\
  IsAppError (Wrap e "invalid session ID in current session file") CodeNotFound = false.
Proof.
  intros Hc Hr Hs. rewrite GetCurrent_eq, Hc, Hr, Hs.
  apply NewSessionID_Err_code in Hs.
  unfold IsAppError. simpl. rewrite Hs. auto.
Qed.

Lemma GetCurrent_invalid_pointer_witness :
  (exists e,
     fst (repository.GetCurrent garbledWorld)
       = Err (Wrap e "invalid session ID in current session file") /\
     GetErrorCode (Wrap e "invalid session ID in current session file")
       = Some CodeInvalidInput /\
     IsAppError (Wrap e "invalid session ID in current session file") CodeNotFound = false) /\
  (exists e,
     fst (repository.GetCurrent emptyPointerWorld)
       = Err (Wrap e "invalid session ID in current session file") /\
     GetErrorCode (Wrap e "invalid session ID in current session file")
       = Some CodeInvalidInput /\
     IsAppError (Wrap e "invalid session ID in current session file") CodeNotFound = false).
Proof.
  split.
  - eexists.
    apply (GetCurrent_invalid_pointer garbledWorld
             (repository.mkPointer "not-a-session-id" 384));
      [reflexivity | reflexivity | vm_compute; reflexivity].
  - eexists.
    apply (GetCurrent_invalid_pointer emptyPointerWorld (repository.mkPointer "" 384));
      [reflexivity | reflexivity | vm_compute; reflexivity].
Defined.

(** ** Scans of the directory: [List], [DeleteByUsername], [DeleteExpired] *)

Section DeleteFacts.

Import time entity repository.
#[local] Arguments model.NewSessionID : simpl never.
#[local] Arguments GetByID : simpl never.
#[local] Arguments Delete : simpl never.

Lemma same_files_refl w : same_files w w.
Proof. now split. Qed.

Lemma same_files_trans w1 w2 w3 : same_files w1 w2 -> same_files w2 w3 -> same_files w1 w3.
Proof. intros [A B] [C D]. split; congruence. Qed.

Lemma same_files_entryAt w w' k : same_files w w' -> entryAt w' k = entryAt w k.
Proof. intros [A _]. unfold entryAt. now rewrite A. Qed.

Lemma log_frame l m w : same_files w (snd (log l m w)) /\ env_le w (snd (log l m w)).
Proof. unfold log. run. simpl. split; [split; reflexivity | solve_env_le]. Qed.

Lemma listEntries_spec (entries : list (string * Entry)) :
  forall (acc : list Session) (w w' : World) (ss : list Session),
  listEntries entries acc w = (ss, w') ->
  same_files w w' /\ env_le w w' /\
  (forall s, s ∈ acc -> s ∈ ss) /\
  (forall s, s ∈ ss -> s ∈ acc \/ model.isValidSessionIDFormat (model.value (ID s)) = true) /\
  (forall k e d, (k, e) ∈ entries -> entryAt w k = Some e -> regular e = true ->
     data e = Some d -> data_ID d = k -> model.isValidSessionIDFormat k = true ->
     fails w (SysOpen (SessionFile k)) = false ->
     exists s, s ∈ ss /\ ID s = model.mkSessionID k /\ Username s = data_Username d /\
               ExpiresAt s = FromUnix (data_ExpiresAt d)).
Proof.
  induction entries as [| [k0 e0] rest IH]; intros acc w w' ss E.
  - simpl in E. run. injection E as <- <-.
    repeat split; try apply same_files_refl; try apply env_le_refl; auto.
    intros k e d Hin. inversion Hin.
  - simpl in E. run.
    assert (Hstep : forall acc1 w1,
      same_files w w1 -> env_le w w1 ->
      (forall s, s ∈ acc -> s ∈ acc1) ->
      (forall s, s ∈ acc1 -> s ∈ acc \/ model.isValidSessionIDFormat (model.value (ID s)) = true) ->
      listEntries rest acc1 w1 = (ss, w') ->
      same_files w w' /\ env_le w w' /\
      (forall s, s ∈ acc -> s ∈ ss) /\
      (forall s, s ∈ ss -> s ∈ acc \/ model.isValidSessionIDFormat (model.value (ID s)) = true) /\
      (forall k e d, (k, e) ∈ rest -> entryAt w k = Some e -> regular e = true ->
         data e = Some d -> data_ID d = k -> model.isValidSessionIDFormat k = true ->
         fails w (SysOpen (SessionFile k)) = false ->
         exists s, s ∈ ss /\ ID s = model.mkSessionID k /\ Username s = data_Username d /\
                   ExpiresAt s = FromUnix (data_ExpiresAt d)) /\
      (forall s, s ∈ acc1 -> s ∈ ss)).
    { intros acc1 w1 Hsf Hle Hacc Hval E1.
      apply IH in E1 as (Hsf1 & Hle1 & Hacc1 & Hval1 & Hall1).
      split; [eapply same_files_trans; eauto |].
      split; [eapply env_le_trans; eauto |].
      split; [auto |].
      split; [intros s Hs; destruct (Hval1 s Hs) as [H1 | H1]; auto |].
      split; [| exact Hacc1].
      intros k e d Hin He Hr Hd Hid Hv Ho.
      apply (Hall1 k e d); auto.
      - now rewrite (same_files_entryAt w w1).
      - destruct Hle as (Hf & _). now rewrite Hf. }
    assert (Hhead : forall (k : string) (e : Entry) (d : SessionData),
              (k, e) ∈ (k0, e0) :: rest -> (k, e) = (k0, e0) \/ (k, e) ∈ rest).
    { intros k e d Hin. apply elem_of_cons in Hin. exact Hin. }
    destruct (regular e0) eqn:Hreg; simpl in E.
    2:{ destruct (Hstep acc w) as (A & B & C & D & F & _);
          auto using same_files_refl, env_le_refl.
        do 4 (split; [assumption |]).
        intros k e d Hin He Hr. destruct (Hhead k e d Hin) as [[= -> ->] | Hin'];
          [congruence | now apply F]. }
    destruct (model.NewSessionID k0) as [sid | err] eqn:Hsid.
    2:{ edestruct Hstep as (A & B & C & D & F & _); [| | | | exact E |];
          [split; reflexivity | solve_env_le | auto | auto |].
        do 4 (split; [assumption |]).
        intros k e d Hin He Hr Hd Hid Hv Ho.
        destruct (Hhead k e d Hin) as [[= -> ->] | Hin']; [| now apply (F k e d)].
        rewrite (NewSessionID_valid _ Hv) in Hsid. discriminate. }
    destruct (GetByID sid w) as [r w1] eqn:EG.
    pose proof (GetByID_frame _ _ _ _ EG) as [G1 G2].
    destruct r as [s | err].
    + destruct (Hstep (acc ++ [s]) w1) as (A & B & C & D & F & Hs); auto.
      { intros x Hx. apply elem_of_app. now left. }
      { intros x Hx. apply elem_of_app in Hx as [Hx | Hx]; [now left |].
        apply list_elem_of_singleton in Hx as ->. right.
        now apply (GetByID_valid _ _ _ _ EG). }
      do 4 (split; [assumption |]).
      intros k e d Hin He Hr Hd Hid Hv Ho.
      destruct (Hhead k e d Hin) as [[= -> ->] | Hin']; [| now apply (F k e d)].
      rewrite (NewSessionID_valid _ Hv) in Hsid. injection Hsid as <-.
      destruct (GetByID_found k0 w e0 d (model.mkSessionID k0)) as (w2 & EG' & _); auto.
      { now apply isValidSessionIDFormat_nonempty. }
      { rewrite Hid. now apply NewSessionID_valid. }
      rewrite EG in EG'. injection EG' as -> _.
      eexists. split; [apply Hs, elem_of_app; right; apply list_elem_of_singleton; reflexivity |].
      simpl. auto.
    + simpl in E.
      edestruct Hstep as (A & B & C & D & F & _); [| | | | exact E |];
        [ eapply same_files_trans; [exact G1 | split; reflexivity]
        | eapply env_le_trans; [exact G2 | solve_env_le] | auto | auto |].
      do 4 (split; [assumption |]).
      intros k e d Hin He Hr Hd Hid Hv Ho.
      destruct (Hhead k e d Hin) as [[= -> ->] | Hin']; [| now apply (F k e d)].
      rewrite (NewSessionID_valid _ Hv) in Hsid. injection Hsid as <-.
      destruct (GetByID_found k0 w e0 d (model.mkSessionID k0)) as (w3 & EG' & _); auto.
      { now apply isValidSessionIDFormat_nonempty. }
      { rewrite Hid. now apply NewSessionID_valid. }
      rewrite EG in EG'. discriminate.
Qed.

(** [List], case by case. *)
Lemma List_spec (w w' : World) (r : result (list Session)) :
  List w = (r, w') ->
  same_files w w' /\ env_le w w' /\
  (~ listable w ->
     r = Err (Wrap (External "os.ReadDir") "failed to read sessions directory")) /\
  (listable w ->
     exists ss, r = Ok ss /\
       (forall s, s ∈ ss -> model.isValidSessionIDFormat (model.value (ID s)) = true) /\
       (forall k d, stored w k d ->
          exists s, s ∈ ss /\ ID s = model.mkSessionID k /\
                    Username s = data_Username d /\
                    ExpiresAt s = FromUnix (data_ExpiresAt d))).
Proof.
  intros E. unfold List in E. unfold_os. run. simpl in E.
  destruct (sessions w) as [d0 |] eqn:Hd0; simpl in E.
  - destruct (fails w SysReadDir) eqn:Hrd;
      destruct (fails w (SysStat SessionsDir)) eqn:Hst;
      simpl in E; rewrite ?Hrd, ?Hd0 in E; simpl in E.
    1, 2: injection E as <- <-; (split; [split; reflexivity |]);
      (split; [solve_env_le |]); (split; [reflexivity |]);
      unfold listable; rewrite Hd0; congruence.
    all: destruct (listEntries (merge_sort name_le (map_to_list d0)) []
                  (set_logs (logs w ++ [logger.mkRecord logger.LevelDebug "listing all sessions"]) w))
        as [ss w1] eqn:EL;
      injection E as <- <-;
      apply listEntries_spec in EL as (A & B & _ & D & F);
      (split; [destruct A as [A1 A2]; split; simpl in *; congruence |]);
      (split; [eapply env_le_trans; [| eapply env_le_trans; [exact B |]]; solve_env_le |]);
      (split; [intros Hn; exfalso; apply Hn; unfold listable; rewrite Hd0; exact Hrd |]);
      intros _; exists ss; (split; [reflexivity |]); split;
      [ intros s Hs; destruct (D s Hs) as [H | H]; [inversion H | exact H]
      | intros k d (e & He & Hr & Hd & Hid & Hv & Ho);
        apply (F k e d); auto;
        rewrite merge_sort_Permutation; apply elem_of_map_to_list;
        unfold entryAt in He; rewrite Hd0 in He; exact He ].
  - destruct (fails w (SysStat SessionsDir)) eqn:Hst; simpl in E.
    + assert (r = Err (Wrap (External "os.ReadDir") "failed to read sessions directory") /\
              w' = set_logs (logs w ++ [logger.mkRecord logger.LevelDebug
                                          "listing all sessions"]) w) as [-> ->].
      { destruct (fails w SysReadDir); simpl in E; rewrite ?Hd0 in E; simpl in E;
          injection E as <- <-; auto. }
      split; [split; reflexivity |]. split; [solve_env_le |].
      split; [reflexivity |]. unfold listable. rewrite Hd0. congruence.
    + injection E as <- <-. split; [split; reflexivity |]. split; [solve_env_le |].
      split. { intros Hn. exfalso. apply Hn. unfold listable. now rewrite Hd0. }
      intros _. exists []. split; [reflexivity |]. split.
      * intros s Hs. inversion Hs.
      * intros k d (e & He & _). unfold entryAt in He. rewrite Hd0 in He. discriminate.
Qed.

End DeleteFacts.

Section DeleteLoops.

Import time entity repository.
#[local] Arguments model.NewSessionID : simpl never.
#[local] Arguments GetByID : simpl never.

Lemma env_le_warned m w w' : env_le w w' -> warned m w -> warned m w'.
Proof.
  intros (_ & _ & _ & _ & [l Hl]) Hw. unfold warned in *. rewrite Hl.
  apply in_or_app. now left.
Qed.

Lemma env_le_removalFails w w' k : env_le w w' -> removalFails w' k = removalFails w k.
Proof. intros (Hf & _). unfold removalFails. now rewrite Hf. Qed.

(** One deletion. *)
Lemma Delete_spec (sid : model.SessionID) (w w' : World) (r : option error) :
  String.eqb (model.String sid) "" = false ->
  Delete sid w = (r, w') ->
  env_le w w' /\ current w' = current w /\
  (forall k, entryAt w k = None -> entryAt w' k = None) /\
  (forall k, k <> model.String sid -> entryAt w' k = entryAt w k) /\
  (if removalFails w (model.String sid)
   then r = Some (Wrap (External "os.Remove") "failed to delete session file") /\
        sessions w' = sessions w
   else r = None /\ entryAt w' (model.String sid) = None).
Proof.
  intros Hn E. unfold Delete in E. unfold_os. unfold removalFails. run. simpl in E.
  rewrite Hn in E. simpl in E.
  destruct (fails w (SysRemove (SessionFile (model.String sid)))) eqn:Hf; simpl in E.
  - injection E as <- <-. simpl. split; [solve_env_le |]. auto.
  - destruct (sessions w) as [d0 |] eqn:Hd0; simpl in E.
    + rewrite ?Hd0 in E. destruct (d0 !! model.String sid) eqn:Hk; simpl in E;
        injection E as <- <-; simpl; (split; [solve_env_le |]); (split; [reflexivity |]).
      * split; [| split; [| split; [reflexivity |]]].
        -- intros k Hk0. destruct (decide (k = model.String sid)) as [-> | Hne].
           ++ apply lookup_delete_eq.
           ++ now rewrite lookup_delete_ne.
        -- intros k Hne. now rewrite lookup_delete_ne.
        -- apply lookup_delete_eq.
      * rewrite Hd0. auto.
    + injection E as <- <-. simpl. split; [solve_env_le |]. rewrite ?Hd0. auto.
Qed.

Lemma deleteWhere_spec (test : Session -> M World bool) (msg : string) (P : Session -> Prop)
    (ss : list Session) :
  (forall s w1 b w2, test s w1 = (b, w2) -> same_files w1 w2 /\ env_le w1 w2) ->
  forall (n : Z) (w w' : World) (r : Z),
  (forall s w1, env_le w w1 -> P s -> fst (test s w1) = true) ->
  (forall s, s ∈ ss -> model.isValidSessionIDFormat (model.value (ID s)) = true) ->
  deleteWhere test msg ss n w = (r, w') ->
  env_le w w' /\ current w' = current w /\
  (forall k, entryAt w k = None -> entryAt w' k = None) /\
  (forall k, removalFails w k = true -> entryAt w' k = entryAt w k) /\
  (forall s, s ∈ ss -> P s ->
     if removalFails w (model.String (ID s))
     then warned msg w'
     else entryAt w' (model.String (ID s)) = None).
Proof.
  intros Htest. induction ss as [| s0 rest IH]; intros n w w' r HP Hval E.
  - simpl in E. run. injection E as <- <-.
    split; [apply env_le_refl |]. repeat split; auto. intros s Hs. inversion Hs.
  - simpl in E. run.
    destruct (test s0 w) as [b w1] eqn:Et.
    destruct (Htest _ _ _ _ Et) as [T1 T2].
    assert (Hrest : forall s, s ∈ rest ->
              model.isValidSessionIDFormat (model.value (ID s)) = true).
    { intros s Hs. apply Hval. now right. }
    assert (Hcont : forall n2 w2,
      env_le w1 w2 -> current w2 = current w1 ->
      (forall k, entryAt w1 k = None -> entryAt w2 k = None) ->
      (forall k, removalFails w k = true -> entryAt w2 k = entryAt w k) ->
      (P s0 -> if removalFails w (model.String (ID s0))
               then warned msg w2 else entryAt w2 (model.String (ID s0)) = None) ->
      deleteWhere test msg rest n2 w2 = (r, w') ->
      env_le w w' /\ current w' = current w /\
      (forall k, entryAt w k = None -> entryAt w' k = None) /\
      (forall k, removalFails w k = true -> entryAt w' k = entryAt w k) /\
      (forall s, s ∈ s0 :: rest -> P s ->
         if removalFails w (model.String (ID s))
         then warned msg w' else entryAt w' (model.String (ID s)) = None)).
    { intros n2 w2 L2 C2 N2 F2 H0 E2.
      assert (L : env_le w w2) by (eapply env_le_trans; eauto).
      apply IH in E2 as (A & B & C & D & F); auto.
      2:{ intros s wx Hx. apply HP. eapply env_le_trans; eauto. }
      split; [eapply env_le_trans; eauto |].
      split; [destruct T1 as [_ T1]; congruence |].
      split. { intros k Hk. apply C, N2. now rewrite (same_files_entryAt w w1). }
      split. { intros k Hk. rewrite D; [now apply F2 |].
               now rewrite (env_le_removalFails w w2). }
      intros s Hs HPs. apply elem_of_cons in Hs as [-> | Hs].
      - specialize (H0 HPs).
        destruct (removalFails w (model.String (ID s0))) eqn:Hrf.
        + eapply env_le_warned; eauto.
        + now apply C.
      - specialize (F s Hs HPs). now rewrite (env_le_removalFails w w2) in F. }
    destruct b.
    + destruct (Delete (ID s0) w1) as [err w2] eqn:Ed.
      assert (Hn0 : String.eqb (model.String (ID s0)) "" = false).
      { apply isValidSessionIDFormat_nonempty, Hval. now left. }
      destruct (Delete_spec _ _ _ _ Hn0 Ed) as (D1 & D2 & D3 & D4 & D5).
      rewrite (env_le_removalFails w w1 _ T2) in D5.
      destruct (removalFails w (model.String (ID s0))) eqn:Hrf.
      * destruct D5 as [-> D5]. simpl in E.
        eapply Hcont; [| | | | | exact E].
        -- eapply env_le_trans; [exact D1 | solve_env_le].
        -- simpl. exact D2.
        -- intros k Hk. simpl. now apply D3.
        -- intros k Hk. unfold entryAt in *. simpl. rewrite D5.
           destruct T1 as [T1 _]. now rewrite T1.
        -- intros _. unfold warned. simpl. apply in_or_app. right. now left.
      * destruct D5 as [-> D5].
        eapply Hcont; [| | | | | exact E]; auto.
        intros k Hk. rewrite D4.
        -- now apply (same_files_entryAt w w1).
        -- intros ->. congruence.
    + eapply Hcont; [| | | | | exact E]; auto using env_le_refl.
      * intros k Hk. now apply (same_files_entryAt w w1).
      * intros HPs. pose proof (HP s0 w (env_le_refl w) HPs) as X.
        rewrite Et in X. discriminate.
Qed.

Lemma deleteMatching_eq (name : string) (ss : list Session) :
  forall (n : Z) (w : World),
  deleteMatching name ss n w
  = deleteWhere (fun s => ret (String.eqb (Username s) name))
      "failed to delete session" ss n w.
Proof.
  induction ss as [| s rest IH]; intros n w; [reflexivity |].
  simpl. run. destruct (String.eqb (Username s) name); [| apply IH].
  destruct (Delete (ID s) w) as [[e |] w1]; [| apply IH].
  destruct (log logger.LevelWarn "failed to delete session" w1) as [u w2]. apply IH.
Qed.

Lemma deleteExpiredLoop_eq (ss : list Session) :
  forall (n : Z) (w : World),
  deleteExpiredLoop ss n w
  = deleteWhere (fun s => withClock (IsExpired s))
      "failed to delete expired session" ss n w.
Proof.
  induction ss as [| s rest IH]; intros n w; [reflexivity |].
  simpl. run. destruct (withClock (IsExpired s) w) as [[] w0]; [| apply IH].
  destruct (Delete (ID s) w0) as [[e |] w1]; [| apply IH].
  destruct (log logger.LevelWarn "failed to delete expired session" w1) as [u w2]. apply IH.
Qed.

Lemma IsExpired_frame (s : Session) (w1 w2 : World) (b : bool) :
  withClock (IsExpired s) w1 = (b, w2) -> same_files w1 w2 /\ env_le w1 w2.
Proof.
  unfold withClock, IsExpired, Now. run. simpl. intros [= <- <-].
  split; [split; reflexivity | solve_env_le].
Qed.

(** On a clock that never runs backwards, a session that has expired stays
    expired at every later reading. *)
Lemma IsExpired_later (s : Session) (w w1 : World) :
  monotone (clock w) -> env_le w w1 ->
  ExpiresAt s < nextReading w ->
  fst (withClock (IsExpired s) w1) = true.
Proof.
  intros Hm (_ & _ & Hr & Hc & _) Hlt.
  unfold withClock, IsExpired, Now, After, nextReading in *. run. simpl.
  apply Z.ltb_lt. rewrite Hr. specialize (Hm _ _ Hc). unfold ExpiresAt in Hlt. lia.
Qed.

(** A scan, its listing apart: [DeleteByUsername]. *)
Lemma DeleteByUsername_spec (name : string) (w w' : World) (r : option error) :
  DeleteByUsername name w = (r, w') ->
  (~ listable w ->
     r = Some (Wrap (Wrap (External "os.ReadDir") "failed to read sessions directory")
                 "failed to list sessions") /\ same_files w w') /\
  (listable w ->
     r = None /\
     forall k d, stored w k d -> data_Username d = name ->
       if removalFails w k
       then entryAt w' k = entryAt w k /\ warned "failed to delete session" w'
       else entryAt w' k = None).
Proof.
  intros E. unfold DeleteByUsername in E. unfold log in E. run. simpl in E.
  match type of E with context [List ?w0] => destruct (List w0) as [rl w1] eqn:EL end.
  apply List_spec in EL as (A & B & Hno & Hyes).
  assert (A0 : same_files w w1).
  { destruct A as [A1 A2]. split; simpl in *; congruence. }
  assert (B0 : env_le w w1).
  { eapply env_le_trans; [| exact B]. solve_env_le. }
  assert (L0 : listable w <->
               listable (set_logs (logs w ++ [logger.mkRecord logger.LevelDebug
                                                "deleting sessions by username"]) w)).
  { unfold listable. simpl. tauto. }
  split.
  - intros Hn. rewrite Hno in E by (now rewrite <- L0).
    injection E as <- <-. auto.
  - intros Hl. destruct Hyes as (ss & -> & Hval & Hall); [now rewrite <- L0 |].
    rewrite deleteMatching_eq in E.
    destruct (deleteWhere _ _ ss 0 w1) as [n w2] eqn:ED. simpl in E.
    injection E as <- <-. split; [reflexivity |].
    apply (deleteWhere_spec _ _ (fun s => Username s = name)) in ED
      as (D1 & D2 & D3 & D4 & D5); auto.
    2:{ intros s wa b wb. run. intros [= <- <-].
        split; [apply same_files_refl | apply env_le_refl]. }
    2:{ intros s wa _ Hs. run. simpl. now apply String.eqb_eq. }
    intros k d Hst Hu.
    destruct (Hall k d) as (s & Hs & Hid & Hus & _).
    { destruct Hst as (e & He & Hrest). exists e. split; [exact He |].
      destruct Hrest as (? & ? & ? & ? & ?). auto. }
    specialize (D5 s Hs (eq_trans Hus Hu)).
    rewrite Hid in D5. simpl in D5.
    rewrite (env_le_removalFails w w1 k B0) in D5.
    destruct (removalFails w k) eqn:Hrf.
    + split.
      * unfold entryAt at 1. simpl. fold (entryAt w2 k).
        rewrite D4 by (now rewrite (env_le_removalFails w w1)).
        now apply same_files_entryAt.
      * unfold warned in *. simpl. apply in_or_app. now left.
    + exact D5.
Qed.

(** A scan, its listing apart: [DeleteExpired]. *)
Lemma DeleteExpired_spec (w w' : World) (r : option error) :
  DeleteExpired w = (r, w') ->
  (~ listable w ->
     r = Some (Wrap (Wrap (External "os.ReadDir") "failed to read sessions directory")
                 "failed to list sessions") /\ same_files w w') /\
  (listable w ->
     r = None /\
     (monotone (clock w) ->
      forall k d, stored w k d -> FromUnix (data_ExpiresAt d) < nextReading w ->
        if removalFails w k
        then entryAt w' k = entryAt w k /\ warned "failed to delete expired session" w'
        else entryAt w' k = None)).
Proof.
  intros E. unfold DeleteExpired in E. unfold log in E. run. simpl in E.
  match type of E with context [List ?w0] => destruct (List w0) as [rl w1] eqn:EL end.
  apply List_spec in EL as (A & B & Hno & Hyes).
  assert (A0 : same_files w w1).
  { destruct A as [A1 A2]. split; simpl in *; congruence. }
  assert (B0 : env_le w w1).
  { eapply env_le_trans; [| exact B]. solve_env_le. }
  assert (L0 : listable w <->
               listable (set_logs (logs w ++ [logger.mkRecord logger.LevelDebug
                                                "deleting expired sessions"]) w)).
  { unfold listable. simpl. tauto. }
  split.
  - intros Hn. rewrite Hno in E by (now rewrite <- L0).
    injection E as <- <-. auto.
  - intros Hl. destruct Hyes as (ss & -> & Hval & Hall); [now rewrite <- L0 |].
    rewrite deleteExpiredLoop_eq in E.
    destruct (deleteWhere _ _ ss 0 w1) as [n w2] eqn:ED. simpl in E.
    injection E as <- <-. split; [reflexivity |]. intros Hm.
    apply (deleteWhere_spec _ _ (fun s => ExpiresAt s < nextReading w)) in ED
      as (D1 & D2 & D3 & D4 & D5); auto.
    2:{ intros s wa b wb. apply IsExpired_frame. }
    2:{ intros s wa Hle Hs. apply (IsExpired_later s w wa); auto.
        eapply env_le_trans; eauto. }
    intros k d Hst Hu.
    destruct (Hall k d) as (s & Hs & Hid & _ & Hex).
    { destruct Hst as (e & He & Hrest). exists e. split; [exact He |].
      destruct Hrest as (? & ? & ? & ? & ?). auto. }
    rewrite <- Hex in Hu. specialize (D5 s Hs Hu).
    rewrite Hid in D5. simpl in D5.
    rewrite (env_le_removalFails w w1 k B0) in D5.
    destruct (removalFails w k) eqn:Hrf.
    + split.
      * unfold entryAt at 1. simpl. fold (entryAt w2 k).
        rewrite D4 by (now rewrite (env_le_removalFails w w1)).
        now apply same_files_entryAt.
      * unfold warned in *. simpl. apply in_or_app. now left.
    + exact D5.
Qed.

End DeleteLoops.

Lemma clock0_monotone : time.monotone clock0.
Proof.
  intros i j Hij. unfold clock0, time.Second. cbn [time.reading].
  do 7 (destruct i as [| i];
        [do 7 (destruct j as [| j]; [first [lia | cbn; lia] |]); cbn; lia |]).
  do 7 (destruct j as [| j]; [lia |]). cbn. lia.
Qed.

(** C3 (as amended). [DeleteByUsername(name)] and [DeleteExpired()] return an
    error only when the directory of the records cannot be listed, and then
    they delete nothing. Otherwise they return success, and every stored
    record whose user name is [name] (for [DeleteExpired], on a clock that
    does not run backwards: every stored record that has expired when the
    call is made) is deleted when its removal does not fail; when its removal
    fails the record stays, a warning is logged, and the scan goes on. *)
Theorem Delete_scans_best_effort (w : repository.World) (name : string) :
  let byName := repository.DeleteByUsername name w in
  let expired := repository.DeleteExpired w in
  (~ listable w ->
     fst byName = Some listError /\ same_files w (snd byName) /\
     fst expired = Some listError /\ same_files w (snd expired)) /\
  (listable w ->
     fst byName = None /\ fst expired = None /\
     (forall k d, stored w k d -> repository.data_Username d = name ->
        if removalFails w k
        then repository.entryAt (snd byName) k = repository.entryAt w k /\
             warned "failed to delete session" (snd byName)
        else repository.entryAt (snd byName) k = None) /\
     (time.monotone (repository.clock w) ->
      forall k d, stored w k d ->
        time.FromUnix (repository.data_ExpiresAt d) < nextReading w ->
        if removalFails w k
        then repository.entryAt (snd expired) k = repository.entryAt w k /\
             warned "failed to delete expired session" (snd expired)
        else repository.entryAt (snd expired) k = None)).
Proof.
  intros byName expired.
  destruct (DeleteByUsername_spec name w (snd byName) (fst byName)) as [N1 Y1];
    [subst byName; apply surjective_pairing |].
  destruct (DeleteExpired_spec w (snd expired) (fst expired)) as [N2 Y2];
    [subst expired; apply surjective_pairing |].
  split.
  - intros Hn. destruct (N1 Hn) as [-> ?]. destruct (N2 Hn) as [-> ?]. auto.
  - intros Hl. destruct (Y1 Hl) as [-> H1]. destruct (Y2 Hl) as [-> H2]. auto.
Qed.

(** Alice's and bob's sessions are saved, nothing fails: the scan by name
    removes alice's record, the scan for expired sessions bob's. With
    removals that fail, alice's record stays and the warning is logged. *)
Lemma Delete_scans_best_effort_witness :
  (fst (repository.DeleteByUsername "alice" (world2 noFailure)) = None /\
   repository.entryAt (snd (repository.DeleteByUsername "alice" (world2 noFailure)))
     (model.String sid0) = None) /\
  repository.entryAt (snd (repository.DeleteExpired (world2 noFailure)))
     (model.String sid1) = None /\
  (fst (repository.DeleteByUsername "alice" (world2 removeFails)) = None /\
   repository.entryAt (snd (repository.DeleteByUsername "alice" (world2 removeFails)))
     (model.String sid0) = repository.entryAt (world2 removeFails) (model.String sid0) /\
   warned "failed to delete session"
     (snd (repository.DeleteByUsername "alice" (world2 removeFails)))).
Proof.
  assert (L1 : listable (world2 noFailure)) by (vm_compute; reflexivity).
  assert (L2 : listable (world2 removeFails)) by (vm_compute; reflexivity).
  split; [| split].
  - destruct (proj2 (Delete_scans_best_effort (world2 noFailure) "alice"))
      as (H1 & _ & H3 & _); [assumption |].
    split; [exact H1 |].
    apply (H3 (model.String sid0) (storedData alice0)); [| reflexivity].
    exists (repository.mkEntry true (Some (storedData alice0)) 384).
    repeat split; vm_compute; reflexivity.
  - destruct (proj2 (Delete_scans_best_effort (world2 noFailure) "alice"))
      as (_ & _ & _ & H4); [assumption |].
    apply (H4 clock0_monotone (model.String sid1) (storedData bob0)).
    + exists (repository.mkEntry true (Some (storedData bob0)) 384).
      repeat split; vm_compute; reflexivity.
    + vm_compute. reflexivity.
  - destruct (proj2 (Delete_scans_best_effort (world2 removeFails) "alice"))
      as (H1 & _ & H3 & _); [assumption |].
    split; [exact H1 |].
    apply (H3 (model.String sid0) (storedData alice0)); [| reflexivity].
    exists (repository.mkEntry true (Some (storedData alice0)) 384).
    repeat split; vm_compute; reflexivity.
Defined.

(** C3 as stated fails: when the directory of the records exists and cannot
    be read, both scans return an error. *)
Lemma Delete_scans_counterexample :
  fst (repository.DeleteByUsername "alice" unreadableWorld) = Some listError /\
  fst (repository.DeleteExpired unreadableWorld) = Some listError.
Proof. split; vm_compute; reflexivity. Qed.

(** ** The authentication gateway *)

Ltac unfold_auth :=
  unfold auth.parseLoginResponse, auth.NewRequest, auth.Do, auth.deferClose,
    auth.alloc, auth.log, auth.withClock, auth.withSource,
    model.GenerateSessionID, rand.Read, entity.NewSessionWithDuration,
    entity.IsExpired, time.Now in *.

Section AuthFacts.

Import time entity auth.
#[local] Arguments validateSession : simpl never.

(** [validateSession] allocates nothing and draws nothing. *)
Lemma validateSession_frame (r : AOJAuthRepository) (s : Session) (w w' : World)
    (v : result bool) :
  validateSession r s w = (v, w') -> heap w' = heap w /\ source w' = source w.
Proof.
  intros E. unfold validateSession in E. unfold_auth. run.
  break_in E; injection E as <- <-; simpl; auto.
Qed.

(** [refreshSession], by the result of the validation and of the draw. *)
Lemma refreshSession_eq (r : AOJAuthRepository) (s : Session) (w : World) :
  let res := fst (refreshSession r s w) in
  let w' := snd (refreshSession r s w) in
  match validateSession r s (enteredRefresh w) with
  | (Err e, _) =>
      res = Err (Wrap e "failed to validate session for refresh") /\ heap w' = heap w
  | (Ok false, _) =>
      res = Err (AppError CodeUnauthorized "session is no longer valid" None) /\
      heap w' = heap w
  | (Ok true, w1) =>
      match nextDraw w with
      | None => res = Err (randError "failed to generate new session ID") /\
                heap w' = heap w
      | Some bs =>
          res = Ok (length (heap w)) /\
          heap w' = heap w ++ [minted bs (Username s) (Token s) (authNextReading w1)]
      end
  end.
Proof.
  intros res w'. subst res w'. unfold refreshSession, enteredRefresh, nextDraw, log.
  run. simpl.
  match goal with
  | |- context [validateSession r s ?w0] =>
      destruct (validateSession r s w0) as [v w1] eqn:Ev
  end.
  destruct (validateSession_frame _ _ _ _ _ Ev) as [Hh Hs]. simpl in Hh, Hs.
  destruct v as [[] | e]; simpl; [| auto | auto].
  unfold_auth. run. simpl. rewrite Hs.
  destruct (rand.draw (source w) (rand.draws (source w))) as [bs |]; simpl;
    rewrite Hh; split; reflexivity.
Qed.

End AuthFacts.

(** C7 (as amended). [RefreshSession(s)] validates [s] first. An error of
    the validation is wrapped and returned; an invalid session gives an
    error of kind [Unauthorized]; for a valid session an identifier is
    generated: when the random source fails its error is wrapped and
    returned, otherwise a newly allocated session is returned that carries
    the generated identifier (the encoding of the bytes drawn), the user
    name and the token of [s], and expires 24 hours after its creation. In
    every case [s], and every session allocated before the call, is left as
    it was. *)
Theorem RefreshSession_spec (r : auth.AOJAuthRepository) (session : auth.ptr)
    (w : auth.World) (s : entity.Session) :
  auth.heap w !! session = Some s ->
  let out := fst (auth.RefreshSession r session w) in
  let w' := snd (auth.RefreshSession r session w) in
  auth.heap w' !! session = Some s /\
  (forall q x, auth.heap w !! q = Some x -> auth.heap w' !! q = Some x) /\
  match auth.validateSession r s (enteredRefresh w) with
  | (Err e, _) =>
      out = auth.Returns (Err (Wrap e "failed to validate session for refresh")) /\
      auth.heap w' = auth.heap w
  | (Ok false, _) =>
      out = auth.Returns (Err (AppError CodeUnauthorized "session is no longer valid" None)) /\
      auth.heap w' = auth.heap w
  | (Ok true, w1) =>
      match nextDraw w with
      | None =>
          out = auth.Returns (Err (randError "failed to generate new session ID")) /\
          auth.heap w' = auth.heap w
      | Some bs =>
          exists q s',
            out = auth.Returns (Ok q) /\ q <> session /\
            auth.heap w' = auth.heap w ++ [s'] /\
            auth.heap w' !! q = Some s' /\
            entity.ID s' = mintedID bs /\
            entity.Username s' = entity.Username s /\
            entity.Token s' = entity.Token s /\
            entity.ExpiresAt s' = entity.CreatedAt s' + 24 * time.Hour /\
            entity.CreatedAt s' = authNextReading w1
      end
  end.
Proof.
  intros Hs out w'. subst out w'. unfold auth.RefreshSession. rewrite Hs.
  pose proof (refreshSession_eq r s w) as H. cbv zeta in H.
  destruct (auth.refreshSession r s w) as [res w'] eqn:E. simpl in *.
  assert (Hframe : (exists l, auth.heap w' = auth.heap w ++ l) ->
            auth.heap w' !! session = Some s /\
            (forall q x, auth.heap w !! q = Some x -> auth.heap w' !! q = Some x)).
  { intros [l ->]. split; [now apply lookup_app_l_Some |].
    intros q x Hq. now apply lookup_app_l_Some. }
  destruct (auth.validateSession r s (enteredRefresh w)) as [[[] | e] w1].
  - destruct (nextDraw w) as [bs |].
    + destruct H as [-> Hh].
      destruct Hframe as [F1 F2]; [eexists; exact Hh |].
      split; [exact F1 |]. split; [exact F2 |].
      exists (length (auth.heap w)),
             (minted bs (entity.Username s) (entity.Token s) (authNextReading w1)).
      split; [reflexivity |].
      split; [apply lookup_lt_Some in Hs; lia |].
      split; [exact Hh |].
      split; [rewrite Hh; apply list_lookup_middle; reflexivity |].
      repeat split.
    + destruct H as [-> Hh].
      destruct Hframe as [F1 F2]; [exists []; now rewrite app_nil_r |]. auto.
  - destruct H as [-> Hh].
    destruct Hframe as [F1 F2]; [exists []; now rewrite app_nil_r |]. auto.
  - destruct H as [-> Hh].
    destruct Hframe as [F1 F2]; [exists []; now rewrite app_nil_r |]. auto.
Qed.

(** Carol's session is valid and the source delivers: the refreshed session
    is a second one, and carol's is untouched. *)
Lemma RefreshSession_spec_witness :
  auth.heap (snd (auth.RefreshSession repo0 0%nat (authWorld source0 (answers 200 None))))
    !! 0%nat = Some carol0 /\
  exists s',
    fst (auth.RefreshSession repo0 0%nat (authWorld source0 (answers 200 None)))
      = auth.Returns (Ok 1%nat) /\
    auth.heap (snd (auth.RefreshSession repo0 0%nat (authWorld source0 (answers 200 None))))
      = [carol0; s'] /\
    entity.Username s' = "carol" /\ entity.Token s' = "token-c" /\
    entity.ExpiresAt s' = entity.CreatedAt s' + 24 * time.Hour.
Proof.
  pose proof (RefreshSession_spec repo0 0%nat (authWorld source0 (answers 200 None)) carol0
                eq_refl) as H.
  cbv zeta in H. destruct H as (H1 & _ & H3).
  split; [exact H1 |].
  vm_compute in H3.
  destruct H3 as (q & s' & Hq & _ & Hh & _ & _ & Hu & Ht & He & _).
  exists s'. vm_compute. vm_compute in Hq, Hh, Hu, Ht, He. auto.
Defined.

(** C7 as stated fails in two ways. With the random source unavailable a
    valid session is answered by an error instead of a new session; and the
    new identifier is whatever the source delivers, which can be the bytes
    of the old identifier. *)
Lemma RefreshSession_counterexample :
  (fst (auth.validateSession repo0 carol0
          (enteredRefresh (authWorld noSource (answers 200 None)))) = Ok true /\
   fst (auth.RefreshSession repo0 0%nat (authWorld noSource (answers 200 None)))
     = auth.Returns (Err (randError "failed to generate new session ID"))) /\
  (fst (auth.validateSession repo0 carol0
          (enteredRefresh (authWorld source0 (answers 200 None)))) = Ok true /\
   exists s',
     auth.heap (snd (auth.RefreshSession repo0 0%nat (authWorld source0 (answers 200 None))))
       !! 1%nat = Some s' /\
     entity.ID s' = entity.ID carol0).
Proof.
  split; [split; vm_compute; reflexivity |].
  split; [vm_compute; reflexivity |].
  eexists. split; [vm_compute; reflexivity | reflexivity].
Qed.

(** C8 (as amended). Once its request is built, [Login] sends it and maps
    the outcome: a transport failure gives an error of kind [NetworkError];
    status 401 gives [Unauthorized], 400 [InvalidInput], 500
    [ServiceUnavailable], and a status that is none of 200, 401, 400 and 500
    gives [InternalServer]; on status 200 the
    body is decoded and a session identifier generated, and when both
    succeed a new session is returned, with the user name and the token of
    the response and a duration of 24 hours; when the body does not decode
    or the random source fails, the error is wrapped and returned, without
    a kind. *)
Theorem Login_outcomes (r : auth.AOJAuthRepository) (username password : string)
    (w : auth.World) :
  auth.validURL w (auth.baseURL r ++ "/session") = true ->
  let res := fst (auth.Login r username password w) in
  let w' := snd (auth.Login r username password w) in
  auth.sent w' = auth.sent w ++ [loginRequest r username password] /\
  match auth.remote w (loginRequest r username password) with
  | Err e =>
      res = Err (AppError CodeNetworkError "failed to connect to AOJ" (Some e))
  | Ok resp =>
      if auth.StatusCode resp =? 200 then
        match auth.Body resp with
        | None =>
            res = Err (Wrap (External "json.Decode") "failed to decode login response") /\
            GetErrorCode (Wrap (External "json.Decode") "failed to decode login response")
              = None
        | Some loginResp =>
            match nextDraw w with
            | None =>
                res = Err (randError "failed to generate session ID") /\
                GetErrorCode (randError "failed to generate session ID") = None
            | Some bs =>
                res = Ok (length (auth.heap w)) /\
                auth.heap w' =
                  auth.heap w ++ [minted bs (auth.resp_ID loginResp)
                                    (auth.resp_Token loginResp) (authNextReading w)]
            end
        end
      else if auth.StatusCode resp =? 401 then
        res = Err (AppError CodeUnauthorized "invalid username or password" None)
      else if auth.StatusCode resp =? 400 then
        res = Err (AppError CodeInvalidInput "invalid login request format" None)
      else if auth.StatusCode resp =? 500 then
        res = Err (AppError CodeServiceUnavailable "AOJ server error" None)
      else
        res = Err (AppError CodeInternalServer "unexpected response from AOJ" None)
  end.
Proof.
  intros Hurl res w'. subst res w'.
  unfold auth.Login, loginRequest, nextDraw, authNextReading. unfold_auth. run. simpl.
  rewrite Hurl. simpl.
  match goal with
  | |- context [auth.remote w ?req] => destruct (auth.remote w req) as [resp | e]
  end; simpl; [| split; reflexivity].
  unfold auth.StatusOK, auth.StatusUnauthorized, auth.StatusBadRequest,
    auth.StatusInternalServerError.
  destruct (auth.StatusCode resp =? 200).
  - destruct (auth.Body resp) as [loginResp |]; simpl.
    + destruct (rand.draw (auth.source w) (rand.draws (auth.source w))) as [bs |]; simpl;
        destruct (auth.closeFails resp); simpl; repeat split; reflexivity.
    + destruct (auth.closeFails resp); simpl; repeat split; reflexivity.
  - destruct (auth.StatusCode resp =? 401); simpl;
      [destruct (auth.closeFails resp); simpl; split; reflexivity |].
    destruct (auth.StatusCode resp =? 400); simpl;
      [destruct (auth.closeFails resp); simpl; split; reflexivity |].
    destruct (auth.StatusCode resp =? 500); simpl;
      destruct (auth.closeFails resp); simpl; split; reflexivity.
Qed.

(** The six outcomes at concrete servers. *)
Lemma Login_outcomes_witness :
  fst (auth.Login repo0 "carol" "pw" (authWorld source0 (answers 200 (Some carolResponse))))
    = Ok 1%nat /\
  fst (auth.Login repo0 "carol" "pw" (authWorld source0 (answers 401 None)))
    = Err (AppError CodeUnauthorized "invalid username or password" None) /\
  fst (auth.Login repo0 "carol" "pw" (authWorld source0 (answers 400 None)))
    = Err (AppError CodeInvalidInput "invalid login request format" None) /\
  fst (auth.Login repo0 "carol" "pw" (authWorld source0 (answers 500 None)))
    = Err (AppError CodeServiceUnavailable "AOJ server error" None) /\
  fst (auth.Login repo0 "carol" "pw" (authWorld source0 (answers 503 None)))
    = Err (AppError CodeInternalServer "unexpected response from AOJ" None) /\
  fst (auth.Login repo0 "carol" "pw" (authWorld source0 unreachable))
    = Err (AppError CodeNetworkError "failed to connect to AOJ"
             (Some (External "http.Client.Do"))).
Proof.
  split; [| split; [| split; [| split; [| split]]]].
  - exact (proj1 (proj2 (Login_outcomes repo0 "carol" "pw"
                           (authWorld source0 (answers 200 (Some carolResponse))) eq_refl))).
  - exact (proj2 (Login_outcomes repo0 "carol" "pw"
                    (authWorld source0 (answers 401 None)) eq_refl)).
  - exact (proj2 (Login_outcomes repo0 "carol" "pw"
                    (authWorld source0 (answers 400 None)) eq_refl)).
  - exact (proj2 (Login_outcomes repo0 "carol" "pw"
                    (authWorld source0 (answers 500 None)) eq_refl)).
  - exact (proj2 (Login_outcomes repo0 "carol" "pw"
                    (authWorld source0 (answers 503 None)) eq_refl)).
  - exact (proj2 (Login_outcomes repo0 "carol" "pw"
                    (authWorld source0 unreachable) eq_refl)).
Defined.

(** C8 as stated fails: the server answers 200 with a body that does not
    decode, and [Login] returns an error. *)
Lemma Login_outcomes_counterexample :
  auth.remote (authWorld source0 (answers 200 None)) (loginRequest repo0 "carol" "pw")
    = Ok (auth.mkResponse 200 "" None false) /\
  fst (auth.Login repo0 "carol" "pw" (authWorld source0 (answers 200 None)))
    = Err (Wrap (External "json.Decode") "failed to decode login response").
Proof. split; vm_compute; reflexivity. Qed.

(** ** The login use case *)

Section LoginFacts.

Import entity repository.

(** [SetCurrent] leaves the records alone. *)
Lemma SetCurrent_sessions (s : Session) (w : World) (d : gmap string Entry) :
  sessions w = Some d -> sessions (snd (SetCurrent s w)) = Some d.
Proof.
  intros Hd. unfold SetCurrent. unfold_os. run. simpl.
  destruct (fails w SysMkdirAll); simpl; [exact Hd |].
  rewrite Hd. simpl.
  destruct (fails w (SysWriteFile CurrentFile)); simpl; [exact Hd |].
  destruct (current w); simpl; exact Hd.
Qed.

End LoginFacts.

Section ExecuteFacts.

Context {A R : Type} {HA : domain.AuthRepository A} {HR : domain.SessionRepository R}.

(** [Execute], step by step: what it returns, the calls it has made on the
    two repositories, and their states. *)
Lemma Execute_steps (request : usecase.LoginRequest) (env : usecase.Env A R) :
  let u := usecase.req_Username request in
  let p := usecase.req_Password request in
  let res := fst (usecase.Execute request env) in
  let env' := snd (usecase.Execute request env) in
  match usecase.validateRequest request with
  | Some err =>
      res = Err err /\ GetErrorCode err = Some CodeInvalidInput /\
      usecase.calls env' = usecase.calls env /\
      usecase.authRepo env' = usecase.authRepo env /\
      usecase.sessionRepo env' = usecase.sessionRepo env
  | None =>
      match domain.Login u p (usecase.authRepo env) with
      | (Err e, a1) =>
          res = Err (Wrap e "authentication failed") /\
          usecase.calls env' = usecase.calls env ++ [usecase.CallLogin u p] /\
          usecase.authRepo env' = a1 /\
          usecase.sessionRepo env' = usecase.sessionRepo env
      | (Ok s, a1) =>
          match domain.Save s (usecase.sessionRepo env) with
          | (Some e, r1) =>
              res = Err (Wrap e "failed to save session") /\
              usecase.calls env'
                = usecase.calls env ++ [usecase.CallLogin u p; usecase.CallSave s] /\
              usecase.authRepo env' = a1 /\
              usecase.sessionRepo env' = r1
          | (None, r1) =>
              match domain.SetCurrent s r1 with
              | (Some e, r2) =>
                  res = Err (Wrap e "failed to set current session") /\
                  usecase.calls env'
                    = usecase.calls env ++ [usecase.CallLogin u p; usecase.CallSave s;
                                            usecase.CallSetCurrent s] /\
                  usecase.authRepo env' = a1 /\
                  usecase.sessionRepo env' = r2
              | (None, r2) =>
                  res = Ok (usecase.mkLoginResponse true (entity.Username s)
                              (model.String (entity.ID s)) "Login successful") /\
                  usecase.calls env'
                    = usecase.calls env ++ [usecase.CallLogin u p; usecase.CallSave s;
                                            usecase.CallSetCurrent s] /\
                  usecase.authRepo env' = a1 /\
                  usecase.sessionRepo env' = r2
              end
          end
      end
  end.
Proof.
  intros u p res env'. subst u p res env'.
  unfold usecase.Execute, usecase.validateRequest, usecase.onAuth, usecase.onSessions,
    usecase.log. run. simpl.
  destruct (String.eqb (strs.TrimSpace (usecase.req_Username request)) ""); simpl;
    [repeat split |].
  destruct (String.eqb (strs.TrimSpace (usecase.req_Password request)) ""); simpl;
    [repeat split |].
  destruct (domain.Login _ _ (usecase.authRepo env)) as [[s | e] a1]; simpl;
    [| repeat split].
  destruct (domain.Save s (usecase.sessionRepo env)) as [[e |] r1]; simpl;
    [repeat split; now rewrite <- app_assoc |].
  destruct (domain.SetCurrent s r1) as [[e |] r2]; simpl;
    repeat split; now rewrite <- !app_assoc.
Qed.

End ExecuteFacts.

(** C2. [Execute] validates the request, then calls [Login], [Save] and
    [SetCurrent] in this order, and the failure of a step ends the run:
      - a request that is not valid fails with [InvalidInput] and no call is
        made on either repository; this is the case when the user name or the
        password is empty;
      - when [Login] fails, [Login] is the only call;
      - when [Save] fails, [Login] and [Save] are the only calls: [SetCurrent]
        is not called;
      - when [SetCurrent] fails, an error is returned; no further call is
        made, and on the local store the record that [Save] wrote is still
        there;
      - otherwise the three calls are made and the response reports success. *)
Theorem Execute_sequence :
  (forall (A R : Type) (HA : domain.AuthRepository A) (HR : domain.SessionRepository R)
          (request : usecase.LoginRequest) (env : usecase.Env A R),
     let u := usecase.req_Username request in
     let p := usecase.req_Password request in
     let res := fst (usecase.Execute request env) in
     let env' := snd (usecase.Execute request env) in
     match usecase.validateRequest request with
     | Some err =>
         res = Err err /\ GetErrorCode err = Some CodeInvalidInput /\
         usecase.calls env' = usecase.calls env /\
         usecase.authRepo env' = usecase.authRepo env /\
         usecase.sessionRepo env' = usecase.sessionRepo env
     | None =>
         match domain.Login u p (usecase.authRepo env) with
         | (Err e, a1) =>
             res = Err (Wrap e "authentication failed") /\
             usecase.calls env' = usecase.calls env ++ [usecase.CallLogin u p] /\
             usecase.authRepo env' = a1 /\
             usecase.sessionRepo env' = usecase.sessionRepo env
         | (Ok s, a1) =>
             match domain.Save s (usecase.sessionRepo env) with
             | (Some e, r1) =>
                 res = Err (Wrap e "failed to save session") /\
                 usecase.calls env'
                   = usecase.calls env ++ [usecase.CallLogin u p; usecase.CallSave s] /\
                 usecase.authRepo env' = a1 /\
                 usecase.sessionRepo env' = r1
             | (None, r1) =>
                 match domain.SetCurrent s r1 with
                 | (Some e, r2) =>
                     res = Err (Wrap e "failed to set current session") /\
                     usecase.calls env'
                       = usecase.calls env ++ [usecase.CallLogin u p; usecase.CallSave s;
                                               usecase.CallSetCurrent s] /\
                     usecase.authRepo env' = a1 /\
                     usecase.sessionRepo env' = r2
                 | (None, r2) =>
                     res = Ok (usecase.mkLoginResponse true (entity.Username s)
                                 (model.String (entity.ID s)) "Login successful") /\
                     usecase.calls env'
                       = usecase.calls env ++ [usecase.CallLogin u p; usecase.CallSave s;
                                               usecase.CallSetCurrent s] /\
                     usecase.authRepo env' = a1 /\
                     usecase.sessionRepo env' = r2
                 end
             end
         end
     end) /\
  (forall (request : usecase.LoginRequest),
     usecase.req_Username request = "" \/ usecase.req_Password request = "" ->
     exists err, usecase.validateRequest request = Some err) /\
  (forall (A : Type) (HA : domain.AuthRepository A)
          (request : usecase.LoginRequest) (env : usecase.Env A repository.World)
          (s : entity.Session) (e : error),
     usecase.validateRequest request = None ->
     fst (domain.Login (usecase.req_Username request) (usecase.req_Password request)
            (usecase.authRepo env)) = Ok s ->
     fst (repository.Save s (usecase.sessionRepo env)) = None ->
     fst (repository.SetCurrent s (snd (repository.Save s (usecase.sessionRepo env))))
       = Some e ->
     let run := @usecase.Execute A repository.World HA domain.LocalSessionRepository
                  request env in
     let env' := snd run in
     fst run = Err (Wrap e "failed to set current session") /\
     repository.sessions (usecase.sessionRepo env')
       = repository.sessions (snd (repository.Save s (usecase.sessionRepo env))) /\
     exists entry,
       repository.entryAt (usecase.sessionRepo env') (model.String (entity.ID s))
         = Some entry /\
       repository.data entry = Some (storedData s)).
Proof.
  split; [| split].
  - intros A R HA HR request env. apply Execute_steps.
  - intros request [Hu | Hp]; unfold usecase.validateRequest.
    + rewrite Hu. simpl. eauto.
    + rewrite Hp. destruct (String.eqb _ ""); simpl; eauto.
  - intros A HA request env s e Hv Hl Hs Hc run env'. subst env' run.
    pose proof (@Execute_steps A repository.World HA domain.LocalSessionRepository
                  request env) as H. cbv zeta in H.
    rewrite Hv in H.
    destruct (domain.Login _ _ (usecase.authRepo env)) as [rl a1]. simpl in Hl. subst rl.
    change (domain.Save s (usecase.sessionRepo env))
      with (repository.Save s (usecase.sessionRepo env)) in H.
    destruct (repository.Save s (usecase.sessionRepo env)) as [rs r1] eqn:ES.
    simpl in Hs, Hc. subst rs.
    change (domain.SetCurrent s r1) with (repository.SetCurrent s r1) in H.
    pose proof (Save_inv _ _ _ ES) as (_ & d & reg & m & Hd & _).
    pose proof (SetCurrent_sessions s r1 _ Hd) as Hd2.
    destruct (repository.SetCurrent s r1) as [rc r2]. simpl in Hc, Hd2. subst rc.
    destruct H as (-> & _ & _ & ->). simpl.
    split; [reflexivity |]. split; [congruence |].
    exists (repository.mkEntry reg (Some (storedData s)) m).
    unfold repository.entryAt. rewrite Hd2, lookup_insert_eq. auto.
Qed.

(** Carol logs in, the gateway answers 200, the record is saved, and the
    pointer file cannot be written: [Execute] fails, and carol's record is
    in the store. *)
Lemma Execute_sequence_witness :
  (exists err, usecase.validateRequest (usecase.mkLoginRequest "" "pw") = Some err) /\
  fst (ExecuteAOJ carolRequest
         (loginEnv (answers 200 (Some carolResponse)) writeCurrentFails))
    = Err (Wrap (Wrap (External "os.WriteFile") "failed to write current session file")
             "failed to set current session") /\
  exists entry,
    repository.entryAt
      (usecase.sessionRepo
         (snd (ExecuteAOJ carolRequest
                 (loginEnv (answers 200 (Some carolResponse)) writeCurrentFails))))
      (model.String (entity.ID carol1)) = Some entry /\
    repository.data entry = Some (storedData carol1).
Proof.
  destruct Execute_sequence as (_ & H2 & H3).
  split.
  - apply H2. left. reflexivity.
  - destruct (H3 auth.World (domain.AOJAuthRepository repo0) carolRequest
                (loginEnv (answers 200 (Some carolResponse)) writeCurrentFails)
                carol1
                (Wrap (External "os.WriteFile") "failed to write current session file"))
      as (R1 & _ & R3).
    + vm_compute. reflexivity.
    + vm_compute. reflexivity.
    + vm_compute. reflexivity.
    + vm_compute. reflexivity.
    + split; [exact R1 | exact R3].
Defined.

(* ===================================================================== *)
(** * Further properties *)
(* ===================================================================== *)

(** ** Session identifiers: generation, decoding, masking *)

Section HexFacts.

Lemma length_append (s t : string) :
  String.length (String.append s t) = (String.length s + String.length t)%nat.
Proof.
  induction s as [| a s IH]; [reflexivity |].
  change (S (String.length (String.append s t))
          = S (String.length s + String.length t)). now f_equal.
Qed.

Lemma length_substring (s : string) : forall n m : nat,
  (n + m <= String.length s)%nat -> String.length (String.substring n m s) = m.
Proof.
  induction s as [| a s IH]; intros n m H; simpl in H.
  - assert (n = 0 /\ m = 0)%nat as [-> ->] by lia. reflexivity.
  - destruct n as [| n]; simpl.
    + destruct m as [| m]; [reflexivity |]. simpl. f_equal. apply IH. simpl. lia.
    + apply IH. lia.
Qed.

Lemma get_beyond (s : string) : forall i : nat,
  (String.length s <= i)%nat -> String.get i s = None.
Proof.
  induction s as [| a s IH]; intros i H; [reflexivity |].
  destruct i as [| i]; simpl in *; [lia | apply IH; lia].
Qed.

Lemma length_Repeat_star (n : nat) : String.length (strs.Repeat "*" n) = n.
Proof. induction n as [| n IH]; [reflexivity |]. simpl. now f_equal. Qed.

Lemma get_Repeat_star (n i : nat) :
  (i < n)%nat -> String.get i (strs.Repeat "*" n) = Some "*"%char.
Proof.
  revert i. induction n as [| n IH]; intros i H; [lia |].
  destruct i as [| i]; [reflexivity |]. simpl. apply IH. lia.
Qed.

Lemma digit_lower_hex (b : Byte.byte) :
  model.isHexChar (hex.digit (Byte.to_N b / 16)) = true /\
  model.isHexChar (hex.digit (Byte.to_N b mod 16)) = true /\
  lower_hex_digit (hex.digit (Byte.to_N b / 16)) /\
  lower_hex_digit (hex.digit (Byte.to_N b mod 16)).
Proof.
  destruct b; (split; [reflexivity |]); (split; [reflexivity |]);
    unfold lower_hex_digit; vm_compute; tauto.
Qed.

Lemma decode_digits (b : Byte.byte) :
  hex.fromHexChar (hex.digit (Byte.to_N b / 16)) = Some (Byte.to_N b / 16)%N /\
  hex.fromHexChar (hex.digit (Byte.to_N b mod 16)) = Some (Byte.to_N b mod 16)%N /\
  hex.byteOfN ((Byte.to_N b / 16) * 16 + Byte.to_N b mod 16) = b.
Proof. destruct b; vm_compute; auto. Qed.

Lemma EncodeToString_length (bs : list Byte.byte) :
  String.length (hex.EncodeToString bs) = (2 * length bs)%nat.
Proof. induction bs as [| b bs IH]; [reflexivity |]. simpl. rewrite IH. lia. Qed.

Lemma EncodeToString_allHex (bs : list Byte.byte) :
  model.allHex (hex.EncodeToString bs) = true.
Proof.
  induction bs as [| b bs IH]; [reflexivity |].
  destruct (digit_lower_hex b) as (H1 & H2 & _).
  cbn [hex.EncodeToString model.allHex]. now rewrite H1, H2, IH.
Qed.

Lemma EncodeToString_lower (bs : list Byte.byte) (c : ascii) :
  In c (list_ascii_of_string (hex.EncodeToString bs)) -> lower_hex_digit c.
Proof.
  induction bs as [| b bs IH]; [intros [] |].
  destruct (digit_lower_hex b) as (_ & _ & H1 & H2).
  cbn [hex.EncodeToString list_ascii_of_string]. intros [<- | [<- | H]]; auto.
Qed.

(** Decoding inverts encoding. *)
Lemma DecodeString_EncodeToString (bs : list Byte.byte) :
  hex.DecodeString (hex.EncodeToString bs) = (bs, None).
Proof.
  induction bs as [| b bs IH]; [reflexivity |].
  destruct (decode_digits b) as (H1 & H2 & H3).
  cbn [hex.EncodeToString hex.DecodeString]. now rewrite H1, H2, IH, H3.
Qed.

Lemma isHexChar_fromHexChar (c : ascii) :
  model.isHexChar c = true -> exists n, hex.fromHexChar c = Some n.
Proof.
  destruct c as [[] [] [] [] [] [] [] []]; intros H;
    first [discriminate H | vm_compute; eauto].
Qed.

(** On hexadecimal characters decoding fails only for an odd length. *)
Lemma DecodeString_allHex (s : string) :
  (model.allHex s = true ->
   snd (hex.DecodeString s)
   = if Nat.even (String.length s) then None else Some hex.ErrLength) /\
  (forall c, model.allHex (String c s) = true ->
   snd (hex.DecodeString (String c s))
   = if Nat.even (String.length (String c s)) then None else Some hex.ErrLength).
Proof.
  induction s as [| a s [IH1 IH2]].
  - split; [reflexivity |]. intros c H. simpl in H.
    apply andb_true_iff in H as [Hc _].
    destruct (isHexChar_fromHexChar c Hc) as [n Hn].
    cbn [hex.DecodeString]. now rewrite Hn.
  - split; [intros H; apply (IH2 a H) |].
    intros c H. cbn [model.allHex] in H.
    apply andb_true_iff in H as [Hc H]. apply andb_true_iff in H as [Ha H].
    destruct (isHexChar_fromHexChar c Hc) as [n Hn].
    destruct (isHexChar_fromHexChar a Ha) as [m Hm].
    cbn [hex.DecodeString]. rewrite Hn, Hm.
    specialize (IH1 H). destruct (hex.DecodeString s) as [bs err]. simpl in *.
    exact IH1.
Qed.

Lemma mintedID_length (bs : list Byte.byte) :
  String.length (model.value (mintedID bs)) = 64%nat.
Proof.
  unfold mintedID. cbn [model.value]. rewrite EncodeToString_length.
  rewrite length_take, length_app, repeat_length. lia.
Qed.

Lemma mintedID_format (bs : list Byte.byte) :
  model.isValidSessionIDFormat (model.value (mintedID bs)) = true.
Proof.
  unfold model.isValidSessionIDFormat. rewrite mintedID_length.
  unfold mintedID. cbn [model.value]. now rewrite EncodeToString_allHex.
Qed.

Lemma GenerateSessionID_Ok (src src' : rand.Source) (sid : model.SessionID) :
  model.GenerateSessionID src = (Ok sid, src') ->
  exists bs, rand.draw src (rand.draws src) = Some bs /\ sid = mintedID bs.
Proof.
  unfold model.GenerateSessionID, rand.Read. run.
  destruct (rand.draw src (rand.draws src)) as [bs |]; intros [= <- _]; eauto.
Qed.

End HexFacts.

(** X1. An identifier that [GenerateSessionID] returns is 64 lower-case
    hexadecimal characters: it is well formed ([IsValid]) and long enough
    ([IsSecure]). *)
Theorem GenerateSessionID_wellformed (src src' : rand.Source) (sid : model.SessionID) :
  model.GenerateSessionID src = (Ok sid, src') ->
  model.Length sid = 64%nat /\
  (forall c, In c (list_ascii_of_string (model.String sid)) -> lower_hex_digit c) /\
  model.IsValid sid = true /\
  model.IsSecure sid = true.
Proof.
  intros H. apply GenerateSessionID_Ok in H as (bs & _ & ->).
  pose proof (mintedID_length bs) as Hl. pose proof (mintedID_format bs) as Hf.
  split; [exact Hl |]. split; [intros c; apply EncodeToString_lower |].
  split.
  - unfold model.IsValid. rewrite Hf, (isValidSessionIDFormat_nonempty _ Hf). reflexivity.
  - unfold model.IsSecure. rewrite Hl. reflexivity.
Qed.

Lemma GenerateSessionID_wellformed_witness :
  model.Length (mintedID bytes0) = 64%nat /\
  (forall c, In c (list_ascii_of_string (model.String (mintedID bytes0))) ->
             lower_hex_digit c) /\
  model.IsValid (mintedID bytes0) = true /\
  model.IsSecure (mintedID bytes0) = true.
Proof.
  apply (GenerateSessionID_wellformed source0 (snd (model.GenerateSessionID source0))).
  reflexivity.
Defined.

(** X2. An identifier that [NewSessionID] accepts is well formed, and
    constructing an identifier from its [String()] gives it back: the
    normalisation is done once. *)
Theorem NewSessionID_reparse (v : string) (sid : model.SessionID) :
  model.NewSessionID v = Ok sid ->
  model.IsValid sid = true /\
  model.NewSessionID (model.String sid) = Ok sid /\
  model.Equals sid (model.mkSessionID (strs.TrimSpace v)) = true.
Proof.
  intros H. apply NewSessionID_Ok_inv in H as [Hv Hf].
  split; [| split].
  - unfold model.IsValid. rewrite Hf, (isValidSessionIDFormat_nonempty _ Hf). reflexivity.
  - unfold model.String. rewrite (NewSessionID_valid _ Hf). f_equal. now destruct sid.
  - unfold model.Equals. cbn [model.value]. rewrite Hv. apply String.eqb_refl.
Qed.

Lemma NewSessionID_reparse_witness :
  model.IsValid sid0 = true /\
  model.NewSessionID (model.String sid0) = Ok sid0 /\
  model.Equals sid0
    (model.mkSessionID (strs.TrimSpace " 0123456789abcdef0123456789abcdef ")) = true.
Proof.
  apply (NewSessionID_reparse " 0123456789abcdef0123456789abcdef "). vm_compute. reflexivity.
Defined.

(** X3. [Bytes()] of a generated identifier returns, without error, the 32
    bytes that were drawn from the random source. *)
Theorem Bytes_of_generated (src src' : rand.Source) (sid : model.SessionID)
    (bs : list Byte.byte) :
  model.GenerateSessionID src = (Ok sid, src') ->
  rand.draw src (rand.draws src) = Some bs ->
  length bs = 32%nat ->
  model.Bytes sid = (bs, None).
Proof.
  intros H Hd Hl. apply GenerateSessionID_Ok in H as (bs' & Hd' & ->).
  assert (bs' = bs) as -> by congruence.
  unfold model.Bytes, mintedID. cbn [model.value].
  rewrite DecodeString_EncodeToString. f_equal.
  rewrite take_app_le by lia. apply firstn_all2. lia.
Qed.

Lemma Bytes_of_generated_witness : model.Bytes (mintedID bytes0) = (bytes0, None).
Proof.
  apply (Bytes_of_generated source0 (snd (model.GenerateSessionID source0)));
    reflexivity.
Defined.

(** X4. For a well-formed identifier [Bytes()] fails exactly when the
    identifier has an odd number of characters, and then with the error of
    an odd length: being well formed does not make an identifier decodable. *)
Theorem Bytes_of_valid (sid : model.SessionID) :
  model.IsValid sid = true ->
  snd (model.Bytes sid)
  = if Nat.even (model.Length sid) then None else Some hex.ErrLength.
Proof.
  unfold model.IsValid, model.isValidSessionIDFormat, model.Bytes, model.Length.
  rewrite !andb_true_iff. intros (_ & (Hh & _) & _).
  now apply (proj1 (DecodeString_allHex (model.value sid))).
Qed.

Lemma Bytes_of_valid_witness :
  snd (model.Bytes sid0) = None /\ snd (model.Bytes sidOdd) = Some hex.ErrLength.
Proof.
  split.
  - apply (Bytes_of_valid sid0). vm_compute. reflexivity.
  - apply (Bytes_of_valid sidOdd). vm_compute. reflexivity.
Defined.

(** X5. [MaskedString()] has the length of the identifier. An identifier of
    at most 8 characters is masked entirely; of a longer one the first four
    and the last four characters are shown and every character in between
    is a star. *)
Theorem MaskedString_spec (sid : model.SessionID) :
  let len := model.Length sid in
  String.length (model.MaskedString sid) = len /\
  ((len <= 8)%nat -> model.MaskedString sid = strs.Repeat "*" len) /\
  ((8 < len)%nat ->
   forall i : nat,
     ((i < 4)%nat ->
        String.get i (model.MaskedString sid) = String.get i (model.String sid)) /\
     ((4 <= i < len - 4)%nat ->
        String.get i (model.MaskedString sid) = Some "*"%char) /\
     ((len - 4 <= i)%nat ->
        String.get i (model.MaskedString sid) = String.get i (model.String sid))).
Proof.
  intros len. subst len. unfold model.MaskedString, model.Length, model.String.
  set (v := model.value sid). set (n := String.length v).
  destruct (Nat.leb_spec n 8) as [Hle | Hgt].
  - split; [apply length_Repeat_star |]. split; [reflexivity | lia].
  - assert (L1 : String.length (String.substring 0 4 v) = 4%nat)
      by (apply length_substring; lia).
    assert (L3 : String.length (String.substring (n - 4) 4 v) = 4%nat)
      by (apply length_substring; lia).
    split; [| split; [lia |]].
    + rewrite !length_append, L1, L3, length_Repeat_star. lia.
    + intros _ i. split; [| split].
      * intros Hi. rewrite <- append_correct1 by lia.
        rewrite substring_correct1 by lia. f_equal. lia.
      * intros Hi. replace i with ((i - 4) + String.length (String.substring 0 4 v))%nat
          by lia.
        rewrite <- append_correct2. rewrite <- append_correct1
          by (rewrite length_Repeat_star; lia).
        apply get_Repeat_star. lia.
      * intros Hi.
        replace i with ((i - 4) + String.length (String.substring 0 4 v))%nat at 1 by lia.
        rewrite <- append_correct2.
        replace (i - 4)%nat
          with ((i - (n - 4)) + String.length (strs.Repeat "*" (n - 8)))%nat
          by (rewrite length_Repeat_star; lia).
        rewrite <- append_correct2.
        destruct (Nat.lt_ge_cases (i - (n - 4)) 4) as [Hlt | Hge].
        -- rewrite substring_correct1 by lia. f_equal. lia.
        -- rewrite substring_correct2 by lia. symmetry. apply get_beyond. lia.
Qed.

Lemma MaskedString_spec_witness :
  String.get 10 (model.MaskedString sid0) = Some "*"%char /\
  String.get 30 (model.MaskedString sid0) = String.get 30 (model.String sid0) /\
  model.MaskedString (model.mkSessionID "abcdefgh") = "********".
Proof.
  destruct (MaskedString_spec sid0) as (_ & _ & H).
  destruct (MaskedString_spec (model.mkSessionID "abcdefgh")) as (_ & H8 & _).
  assert (Hlen : (8 < model.Length sid0)%nat) by (vm_compute; lia).
  split; [| split].
  - apply (proj1 (proj2 (H Hlen 10%nat))). vm_compute. lia.
  - apply (proj2 (proj2 (H Hlen 30%nat))). vm_compute. lia.
  - apply H8. vm_compute. lia.
Defined.

(** X6. [Truncate(n)] is empty for [n <= 0] and the whole identifier when
    [n] is at least its length; otherwise it is the first [n] characters of
    the identifier followed by three dots. *)
Theorem Truncate_spec (sid : model.SessionID) (n : Z) :
  (n <= 0 -> model.Truncate sid n = "") /\
  (0 < n -> Z.of_nat (model.Length sid) <= n -> model.Truncate sid n = model.String sid) /\
  (0 < n < Z.of_nat (model.Length sid) ->
     String.length (model.Truncate sid n) = (Z.to_nat n + 3)%nat /\
     (forall i : nat, (i < Z.to_nat n)%nat ->
        String.get i (model.Truncate sid n) = String.get i (model.String sid)) /\
     String.substring (Z.to_nat n) 3 (model.Truncate sid n) = "...").
Proof.
  unfold model.Truncate, model.Length, model.String.
  set (v := model.value sid).
  split; [| split].
  - intros H. destruct (Z.leb_spec n 0); [reflexivity | lia].
  - intros H1 H2. destruct (Z.leb_spec n 0); [lia |].
    destruct (Z.leb_spec (Z.of_nat (String.length v)) n); [reflexivity | lia].
  - intros [H1 H2]. destruct (Z.leb_spec n 0); [lia |].
    destruct (Z.leb_spec (Z.of_nat (String.length v)) n); [lia |].
    assert (L : String.length (String.substring 0 (Z.to_nat n) v) = Z.to_nat n)
      by (apply length_substring; lia).
    split; [rewrite length_append, L; reflexivity |]. split.
    + intros i Hi. rewrite <- append_correct1 by lia.
      rewrite substring_correct1 by lia. f_equal. lia.
    + apply String.get_correct. intros i.
      destruct (Nat.lt_ge_cases i 3) as [Hlt | Hge].
      * rewrite substring_correct1 by lia.
        rewrite <- L at 1. now rewrite <- append_correct2.
      * rewrite substring_correct2 by lia. symmetry. apply get_beyond. simpl. lia.
Qed.

Lemma Truncate_spec_witness :
  model.Truncate sid0 0 = "" /\
  model.Truncate sid0 32 = model.String sid0 /\
  String.length (model.Truncate sid0 6) = 9%nat /\
  String.substring 6 3 (model.Truncate sid0 6) = "...".
Proof.
  destruct (Truncate_spec sid0 0) as (H1 & _).
  destruct (Truncate_spec sid0 32) as (_ & H2 & _).
  destruct (Truncate_spec sid0 6) as (_ & _ & H3).
  split; [apply H1; lia |].
  split; [apply H2; [lia | vm_compute; discriminate] |].
  destruct H3 as (A & _ & B); [vm_compute; split; reflexivity |].
  split; [exact A | exact B].
Defined.

(** ** Sessions: refreshing, remaining time, tokens *)

Section SessionMore.

Import time entity.

Lemma Refresh_eq (s : Session) (d : Duration) (c : Clock) :
  Refresh s d c =
  (mkSession (id s) (username s) (token s) (reading c (cursor c) + d)
     (createdAt s) (reading c (S (cursor c))),
   mkClock (reading c) (S (S (cursor c)))).
Proof. reflexivity. Qed.

Lemma Sub_eq (t u : Time) : Sub t u = Z.max minDuration (Z.min (t - u) maxDuration).
Proof.
  unfold Sub, minDuration, maxDuration. cbv zeta.
  destruct (Z.ltb_spec (t - u) (-9223372036854775808));
    [lia |]. destruct (Z.ltb_spec 9223372036854775807 (t - u)); lia.
Qed.

Lemma RemainingTime_eq (s : Session) (c : Clock) :
  RemainingTime s c =
  (Z.max 0 (Z.min (expiresAt s - reading c (cursor c)) maxDuration),
   mkClock (reading c) (S (cursor c))).
Proof.
  unfold RemainingTime, TimeUntilExpiry, Until, Now. run. cbv beta iota. rewrite Sub_eq.
  unfold minDuration, maxDuration.
  match goal with
  | |- context [Z.ltb ?x 0] => destruct (Z.ltb_spec x 0)
  end; f_equal; lia.
Qed.

End SessionMore.

(** X7. [Refresh(d)] sets the expiry to now plus [d] whatever the old expiry
    was (an expiry further in the future is brought back), and [lastUsed]
    to the instant of its second reading of the clock. An [IsExpired()]
    that follows answers false exactly when the clock has not passed that
    new expiry. *)
Theorem Refresh_spec (s : entity.Session) (d : time.Duration) (c : time.Clock) :
  let now := time.reading c (time.cursor c) in
  let s' := fst (entity.Refresh s d c) in
  let c' := snd (entity.Refresh s d c) in
  entity.ExpiresAt s' = now + d /\
  entity.LastUsed s' = time.reading c (S (time.cursor c)) /\
  entity.ID s' = entity.ID s /\ entity.Username s' = entity.Username s /\
  entity.Token s' = entity.Token s /\ entity.CreatedAt s' = entity.CreatedAt s /\
  (fst (entity.IsExpired s' c') = false <->
   time.reading c (S (S (time.cursor c))) <= now + d).
Proof.
  rewrite Refresh_eq. cbn. repeat split; unfold time.After; cbn.
  - intros H. apply Z.ltb_ge in H. exact H.
  - intros H. apply Z.ltb_ge. exact H.
Qed.

(** X8. [RemainingTime()] is the time from now to the expiry, capped at
    the greatest [Duration], and zero when the expiry is not in the future:
    it is never negative, and it is zero for a session that [IsExpiredAt]
    now. When the expiry is no further away than the greatest [Duration] it
    is exactly the difference. *)
Theorem RemainingTime_spec (s : entity.Session) (c : time.Clock) :
  let now := time.reading c (time.cursor c) in
  let r := fst (entity.RemainingTime s c) in
  0 <= r <= time.maxDuration /\
  r = Z.max 0 (Z.min (entity.ExpiresAt s - now) time.maxDuration) /\
  (entity.ExpiresAt s - now <= time.maxDuration ->
   r = Z.max 0 (entity.ExpiresAt s - now)) /\
  (r = 0 <-> entity.ExpiresAt s <= now) /\
  (entity.IsExpiredAt s now = true -> r = 0) /\
  (0 < r -> fst (entity.TimeUntilExpiry s c) = r).
Proof.
  rewrite RemainingTime_eq.
  unfold entity.TimeUntilExpiry, time.Until, time.Now,
    entity.IsExpiredAt, time.After, entity.ExpiresAt. run. cbn [fst snd].
  rewrite Sub_eq. unfold time.minDuration, time.maxDuration.
  split; [lia |]. split; [reflexivity |]. split; [lia |]. split; [lia |]. split.
  - intros H. apply Z.ltb_lt in H. lia.
  - lia.
Qed.

Lemma RemainingTime_spec_witness :
  fst (entity.RemainingTime bob0 clock0) = 0 /\
  fst (entity.TimeUntilExpiry alice0 clock0) = fst (entity.RemainingTime alice0 clock0) /\
  fst (entity.RemainingTime alice0 clock0)
    = Z.max 0 (entity.ExpiresAt alice0 - time.reading clock0 0).
Proof.
  split; [| split].
  - apply (proj1 (proj2 (proj2 (proj2 (proj2 (RemainingTime_spec bob0 clock0)))))).
    vm_compute. reflexivity.
  - apply (proj2 (proj2 (proj2 (proj2 (proj2 (RemainingTime_spec alice0 clock0)))))).
    vm_compute. reflexivity.
  - apply (proj1 (proj2 (proj2 (RemainingTime_spec alice0 clock0)))).
    vm_compute. discriminate.
Defined.

(** X9. [UpdateToken] stores the token it is given without any check, and
    sets [lastUsed] to now. After [UpdateToken("")] the session is not
    valid, whatever its expiry, and [IsValid()] answers without reading the
    clock. *)
Theorem UpdateToken_spec (s : entity.Session) (tok : string) (c : time.Clock) :
  let s' := fst (entity.UpdateToken s tok c) in
  let c' := snd (entity.UpdateToken s tok c) in
  entity.Token s' = tok /\
  entity.LastUsed s' = time.reading c (time.cursor c) /\
  entity.ID s' = entity.ID s /\ entity.Username s' = entity.Username s /\
  entity.ExpiresAt s' = entity.ExpiresAt s /\ entity.CreatedAt s' = entity.CreatedAt s /\
  (tok = "" -> entity.IsValid s' c' = (false, c')).
Proof.
  cbn. repeat split. intros ->. unfold entity.IsValid. cbn.
  now rewrite andb_false_r.
Qed.

Lemma UpdateToken_spec_witness :
  entity.IsValid (fst (entity.UpdateToken alice0 "" clock0))
                 (snd (entity.UpdateToken alice0 "" clock0))
  = (false, snd (entity.UpdateToken alice0 "" clock0)).
Proof.
  apply (proj2 (proj2 (proj2 (proj2 (proj2 (proj2
           (UpdateToken_spec alice0 "" clock0))))))). reflexivity.
Defined.

(** ** [ToMap] and [FromMap] *)

(** X10. [FromMap] does not read back what [ToMap] writes: [ToMap] stores
    the three instants as [int64] and [FromMap] asserts them to be
    [float64]. For a session with a well-formed identifier
    [FromMap(s.ToMap())] panics; for any other it returns the error of
    [NewSessionID]. It never returns a session. *)
Theorem FromMap_ToMap (float64 : Type) (toInt64 : float64 -> Z) (s : entity.Session) :
  sessionmap.FromMap toInt64 (sessionmap.ToMap s)
  = match model.NewSessionID (model.String (entity.ID s)) with
    | Ok _ => auth.Panics
    | Err e => auth.Returns (Err e)
    end.
Proof.
  unfold sessionmap.FromMap, sessionmap.ToMap, sessionmap.assertString,
    sessionmap.assertFloat64.
  rewrite lookup_insert_eq.
  destruct (model.NewSessionID (model.String (entity.id s))) as [sid | e] eqn:E;
    unfold entity.ID; rewrite E; [| reflexivity].
  rewrite lookup_insert_ne by discriminate. rewrite lookup_insert_eq.
  rewrite !(lookup_insert_ne _ "id" "token") by discriminate.
  rewrite (lookup_insert_ne _ "username" "token") by discriminate.
  rewrite lookup_insert_eq.
  rewrite (lookup_insert_ne _ "id" "expires_at") by discriminate.
  rewrite (lookup_insert_ne _ "username" "expires_at") by discriminate.
  rewrite (lookup_insert_ne _ "token" "expires_at") by discriminate.
  rewrite lookup_insert_eq. reflexivity.
Qed.

(** ** The local store: how its operations compose *)

Section StoreMore.

Import time entity repository.
#[local] Arguments model.NewSessionID : simpl never.
#[local] Arguments strs.TrimSpace : simpl never.

Ltac solve_lookup :=
  simpl; rewrite ?lookup_insert_ne by congruence; rewrite ?lookup_empty;
  first [reflexivity | assumption | congruence].

(** [Save] touches one record only. *)
Lemma Save_frame (s : Session) (w w' : World) (r : option error) :
  Save s w = (r, w') ->
  current w' = current w /\
  forall k, k <> model.String (ID s) -> entryAt w' k = entryAt w k.
Proof.
  intros E. unfold Save in E. unfold_os. run.
  break_in E; injection E as <- <-; (split; [reflexivity |]); intros k Hk;
    repeat match goal with
           | H : <[_:=_]> _ !! _ = _ |- _ => clear H
           end;
    simpl; rewrite ?lookup_insert_ne by congruence; rewrite ?lookup_empty;
    repeat match goal with
           | H : sessions w = _ |- _ => rewrite H
           | H : Some _ = Some _ |- _ => injection H as <-
           end;
    rewrite ?lookup_insert_ne by congruence; rewrite ?lookup_empty;
    try reflexivity; try congruence.
Qed.

(** Loading a record whose content does not decode. *)
Lemma GetByID_undecodable (name : string) (w : World) (e : Entry) :
  String.eqb name "" = false ->
  entryAt w name = Some e ->
  data e = None ->
  fails w (SysOpen (SessionFile name)) = false ->
  fst (GetByID (model.mkSessionID name) w)
  = Err (Wrap (External "json.Decode") "failed to decode session data").
Proof.
  intros Hn He Hd Ho. unfold GetByID. unfold_os. run.
  destruct (sessions w) as [g |] eqn:Eg; [| discriminate].
  destruct e as [reg dat m]. simpl in Hd. subst dat.
  destruct (fails w (SysStat (SessionFile name))) eqn:Est;
    repeat (simpl; first [rewrite Hn | rewrite Est | rewrite Eg | rewrite He | rewrite Ho]);
    simpl; destruct (fails w (SysClose (SessionFile name))); reflexivity.
Qed.

(** [Exists], case by case. *)
Lemma Exists_eq (name : string) (w : World) :
  String.eqb name "" = false ->
  Exists (model.mkSessionID name) w =
  (if fails w (SysStat (SessionFile name))
   then Err (Wrap (External "os.Stat") "failed to check session file")
   else Ok (present (entryAt w name)), w).
Proof.
  intros Hn. unfold Exists. unfold_os. run. simpl. rewrite Hn. simpl.
  destruct (fails w (SysStat (SessionFile name))); [reflexivity |].
  destruct (sessions w) as [g |]; simpl; [| reflexivity].
  destruct (g !! name); reflexivity.
Qed.

(** [SetCurrent], when it succeeds. *)
Lemma SetCurrent_inv (s : Session) (w w' : World) :
  SetCurrent s w = (None, w') ->
  (exists p, current w' = Some p /\ content p = model.String (ID s) /\
             pmode p = match current w with
                       | Some p0 => pmode p0
                       | None => created_mode perm0600 w
                       end) /\
  (forall k, entryAt w' k = entryAt w k) /\
  env_le w w' /\ clock w' = clock w /\
  sessions w' = Some (default ∅ (sessions w)).
Proof.
  intros E. unfold SetCurrent in E. unfold_os. unfold created_mode in *. run.
  break_in E; try discriminate E; injection E as <-; simpl;
    (split; [eexists; split; [reflexivity |]; split; reflexivity |]);
    (split; [intros k;
             repeat match goal with H : sessions w = _ |- _ => rewrite H end;
             rewrite ?lookup_empty; reflexivity |]);
    (split; [solve_env_le |]); (split; [reflexivity |]);
    repeat match goal with H : sessions w = _ |- _ => rewrite H end; reflexivity.
Qed.

(** [SetCurrent] writes no record, whatever it returns. *)
(** [SetCurrent] succeeds whenever the directory can be made and the
    pointer file written, whatever the session. *)
Lemma SetCurrent_succeeds (s : Session) (w : World) :
  fails w SysMkdirAll = false ->
  fails w (SysWriteFile CurrentFile) = false ->
  fst (SetCurrent s w) = None.
Proof.
  intros Hmk Hwr. unfold SetCurrent. unfold_os. run. simpl.
  rewrite Hmk. destruct (sessions w); simpl; rewrite Hwr;
    destruct (current w); reflexivity.
Qed.

Lemma SetCurrent_frame (s : Session) (w w' : World) (r : option error) :
  SetCurrent s w = (r, w') -> forall k, entryAt w' k = entryAt w k.
Proof.
  intros E. unfold SetCurrent in E. unfold_os. run.
  break_in E; injection E as <- <-; intros k; simpl;
    repeat match goal with H : sessions w = _ |- _ => rewrite H end;
    rewrite ?lookup_empty; reflexivity.
Qed.

(** [ClearCurrent], case by case. *)
Lemma ClearCurrent_eq (w : World) :
  let w1 := snd (ClearCurrent w) in
  sessions w1 = sessions w /\ env_le w w1 /\ clock w1 = clock w /\
  if fails w (SysRemove CurrentFile)
  then fst (ClearCurrent w)
         = Some (Wrap (External "os.Remove") "failed to remove current session file") /\
       current w1 = current w
  else fst (ClearCurrent w) = None /\ current w1 = None.
Proof.
  unfold ClearCurrent. unfold_os. run. simpl.
  destruct (fails w (SysRemove CurrentFile)); simpl.
  - repeat split; solve_env_le.
  - destruct (current w) eqn:Hc; simpl; repeat split; try solve_env_le; auto.
Qed.

End StoreMore.

(** X11. Two saves in a row, both successful: when the two sessions have
    the same identifier the record holds the second one; when they have
    different identifiers both records are there. The pointer file is not
    touched. *)
Theorem Save_twice (s1 s2 : entity.Session) (w : repository.World) :
  let w1 := snd (repository.Save s1 w) in
  let w2 := snd (repository.Save s2 w1) in
  fst (repository.Save s1 w) = None ->
  fst (repository.Save s2 w1) = None ->
  repository.current w2 = repository.current w /\
  (exists e2, repository.entryAt w2 (model.String (entity.ID s2)) = Some e2 /\
              repository.data e2 = Some (storedData s2)) /\
  (model.String (entity.ID s1) <> model.String (entity.ID s2) ->
   exists e1, repository.entryAt w2 (model.String (entity.ID s1)) = Some e1 /\
              repository.data e1 = Some (storedData s1)).
Proof.
  intros w1 w2 H1 H2.
  assert (H1' : repository.Save s1 w = (None, w1))
    by (rewrite <- H1; apply surjective_pairing).
  assert (H2' : repository.Save s2 w1 = (None, w2))
    by (rewrite <- H2; apply surjective_pairing).
  clear H1 H2. rename H1' into H1, H2' into H2.
  destruct (Save_frame _ _ _ _ H1) as [C1 _].
  destruct (Save_frame _ _ _ _ H2) as [C2 F2].
  apply Save_inv in H1 as (_ & d1 & reg1 & m1 & Hd1 & _).
  apply Save_inv in H2 as (_ & d2 & reg2 & m2 & Hd2 & _).
  split; [congruence |]. split.
  - eexists. unfold repository.entryAt. rewrite Hd2, lookup_insert_eq. split; reflexivity.
  - intros Hne. rewrite F2 by exact Hne.
    eexists. unfold repository.entryAt. rewrite Hd1, lookup_insert_eq. split; reflexivity.
Qed.

Lemma Save_twice_witness :
  (exists e2, repository.entryAt (world2 noFailure) (model.String sid1) = Some e2 /\
              repository.data e2 = Some (storedData bob0)) /\
  (exists e1, repository.entryAt (world2 noFailure) (model.String sid0) = Some e1 /\
              repository.data e1 = Some (storedData alice0)).
Proof.
  destruct (Save_twice alice0 bob0 (world0 noFailure)) as (_ & H2 & H3).
  - vm_compute. reflexivity.
  - vm_compute. reflexivity.
  - split; [exact H2 | apply H3; discriminate].
Defined.

(** X12. [Save] is not atomic. When the file is created (an existing record
    is truncated) and the encoding then fails, [Save] returns the error and
    leaves a record that does not decode: [GetByID] on the identifier fails
    with a decoding error, whatever was stored before. *)
Theorem Save_encode_failure (s : entity.Session) (w : repository.World) :
  String.eqb (model.String (entity.ID s)) "" = false ->
  repository.fails w repository.SysMkdirAll = false ->
  repository.fails w (repository.SysCreate
     (repository.SessionFile (model.String (entity.ID s)))) = false ->
  repository.fails w (repository.SysEncode
     (repository.SessionFile (model.String (entity.ID s)))) = true ->
  repository.fails w (repository.SysOpen
     (repository.SessionFile (model.String (entity.ID s)))) = false ->
  let w1 := snd (repository.Save s w) in
  fst (repository.Save s w)
    = Some (Wrap (External "json.Encode") "failed to encode session data") /\
  (exists e, repository.entryAt w1 (model.String (entity.ID s)) = Some e /\
             repository.data e = None) /\
  fst (repository.GetByID (entity.ID s) w1) = Err decodeError.
Proof.
  intros Hn Hm Hc He Ho w1.
  assert (H : fst (repository.Save s w)
              = Some (Wrap (External "json.Encode") "failed to encode session data") /\
              exists e, repository.entryAt w1 (model.String (entity.ID s)) = Some e /\
                        repository.data e = None /\
                        repository.fails w1 = repository.fails w).
  { subst w1. destruct (repository.Save s w) as [r w1] eqn:E.
    unfold repository.Save in E. unfold_os. run.
    simpl in E. rewrite Hm in E. simpl in E.
    destruct (repository.sessions w) as [d0 |] eqn:Hd0; simpl in E;
      rewrite Hn in E; simpl in E; rewrite Hc in E; simpl in E;
      rewrite ?Hd0 in E; simpl in E.
    - destruct (d0 !! model.String (entity.ID s)) eqn:Hk; simpl in E;
        rewrite He in E; simpl in E;
        destruct (repository.fails w (repository.SysClose _)); simpl in E;
        injection E as <- <-; simpl; (split; [reflexivity |]);
        eexists; rewrite lookup_insert_eq; repeat split.
    - rewrite lookup_empty in E. simpl in E. rewrite He in E. simpl in E.
      destruct (repository.fails w (repository.SysClose _)); simpl in E;
        injection E as <- <-; simpl; (split; [reflexivity |]);
        eexists; rewrite lookup_insert_eq; repeat split. }
  destruct H as (Hr & e & Hen & Hd & Hf).
  split; [exact Hr |]. split; [eauto |].
  rewrite <- (SessionID_eta (entity.ID s)).
  apply (GetByID_undecodable _ _ e); auto. now rewrite Hf.
Qed.

Lemma Save_encode_failure_witness :
  fst (repository.Save alice0 (worldAlice encodeFails None))
    = Some (Wrap (External "json.Encode") "failed to encode session data") /\
  fst (repository.GetByID sid0 (snd (repository.Save alice0 (worldAlice encodeFails None))))
    = Err decodeError.
Proof.
  destruct (Save_encode_failure alice0 (worldAlice encodeFails None))
    as (H1 & _ & H3); try reflexivity.
  split; [exact H1 | exact H3].
Defined.

(** X13. After a [Delete(id)] that returns success the record is gone:
    [Exists(id)] answers false and [GetByID(id)] fails with [NotFound]; the
    other records and the pointer file are as before, and a second
    [Delete(id)] succeeds again. *)
Theorem Delete_then_absent (sid : model.SessionID) (w : repository.World) :
  let w1 := snd (repository.Delete sid w) in
  model.IsValid sid = true ->
  fst (repository.Delete sid w) = None ->
  repository.fails w (repository.SysStat
     (repository.SessionFile (model.String sid))) = false ->
  repository.entryAt w1 (model.String sid) = None /\
  fst (repository.Exists sid w1) = Ok false /\
  fst (repository.GetByID sid w1) = Err notFoundSession /\
  (forall k, k <> model.String sid -> repository.entryAt w1 k = repository.entryAt w k) /\
  repository.current w1 = repository.current w /\
  fst (repository.Delete sid w1) = None.
Proof.
  intros w1 Hv Hd0 Hst.
  assert (Hd : repository.Delete sid w = (None, w1))
    by (rewrite <- Hd0; apply surjective_pairing).
  clear Hd0.
  assert (Hn : String.eqb (model.String sid) "" = false).
  { unfold model.IsValid in Hv. apply andb_true_iff in Hv as [_ Hv].
    now apply isValidSessionIDFormat_nonempty. }
  destruct (Delete_spec _ _ _ _ Hn Hd) as (Hle & Hc & _ & Hother & Hcase).
  assert (Hf : repository.fails w1 = repository.fails w) by (destruct Hle; assumption).
  destruct (removalFails w (model.String sid)) eqn:Hrf;
    [destruct Hcase as [Hcase _]; discriminate |].
  destruct Hcase as [_ Habs].
  split; [exact Habs |]. split.
  { rewrite <- (SessionID_eta sid) at 1. rewrite Exists_eq by exact Hn.
    unfold model.String in *. rewrite Hf, Hst, Habs. reflexivity. }
  split. { apply GetByID_absent; auto. now rewrite Hf. }
  split; [exact Hother |]. split; [exact Hc |].
  destruct (repository.Delete sid w1) as [r2 w2] eqn:Hd2.
  destruct (Delete_spec _ _ _ _ Hn Hd2) as (_ & _ & _ & _ & Hcase2).
  unfold removalFails in *. rewrite Hf, Hrf in Hcase2. simpl. tauto.
Qed.

Lemma Delete_then_absent_witness :
  repository.entryAt (snd (repository.Delete sid0 (world2 noFailure))) (model.String sid0)
    = None /\
  fst (repository.GetByID sid0 (snd (repository.Delete sid0 (world2 noFailure))))
    = Err notFoundSession /\
  repository.entryAt (snd (repository.Delete sid0 (world2 noFailure))) (model.String sid1)
    = repository.entryAt (world2 noFailure) (model.String sid1).
Proof.
  destruct (Delete_then_absent sid0 (world2 noFailure)) as (H1 & _ & H3 & H4 & _).
  - vm_compute. reflexivity.
  - vm_compute. reflexivity.
  - vm_compute. reflexivity.
  - split; [exact H1 |]. split; [exact H3 | apply H4; discriminate].
Defined.

Section CurrentMore.

Import time entity repository.
#[local] Arguments model.NewSessionID : simpl never.
#[local] Arguments strs.TrimSpace : simpl never.
#[local] Arguments GetByID : simpl never.

Lemma IsValid_format (sid : model.SessionID) :
  model.IsValid sid = true -> model.isValidSessionIDFormat (model.value sid) = true.
Proof. unfold model.IsValid. rewrite andb_true_iff. tauto. Qed.

Lemma IsValid_nonempty (sid : model.SessionID) :
  model.IsValid sid = true -> String.eqb (model.String sid) "" = false.
Proof. intros H. apply isValidSessionIDFormat_nonempty, IsValid_format, H. Qed.

(** [GetCurrent] on a pointer file that holds a well-formed identifier. *)
Lemma GetCurrent_pointing (w : World) (p : Pointer) (sid : model.SessionID) :
  current w = Some p -> content p = model.String sid -> model.IsValid sid = true ->
  fails w (SysReadFile CurrentFile) = false ->
  GetCurrent w = GetByID sid (enteredGetCurrent w).
Proof.
  intros Hc Hp Hv Hr. rewrite GetCurrent_eq, Hc, Hr, Hp. unfold model.String.
  rewrite (NewSessionID_valid _ (IsValid_format _ Hv)), SessionID_eta. reflexivity.
Qed.

Lemma entered_frame (w : World) :
  same_files w (enteredGetCurrent w) /\ env_le w (enteredGetCurrent w).
Proof. apply log_frame. Qed.

(** The errors of [GetByID]: the plain [NotFound], or an error that does not
    carry the code [NotFound]. *)
Lemma GetByID_errors (sid : model.SessionID) (w : World) (e : error) :
  fst (GetByID sid w) = Err e ->
  e = notFoundSession \/ IsAppError e CodeNotFound = false.
Proof.
  destruct (GetByID sid w) as [r w'] eqn:E. simpl. intros ->.
  unfold GetByID, dataToSession in E. unfold_os.
  unfold NewSession, Now, UpdateLastUsedAt in E. run.
  break_in E; try discriminate E; injection E as <- <-;
    first [ left; reflexivity | right; reflexivity
          | right;
            match goal with
            | H : model.NewSessionID _ = Err _ |- _ =>
                apply NewSessionID_Err_code in H; unfold IsAppError; simpl; rewrite H;
                reflexivity
            end ].
Qed.

(** [GetByID] fails with the plain [NotFound] only if the record is absent. *)
Lemma GetByID_NotFound_inv (sid : model.SessionID) (w : World) :
  String.eqb (model.String sid) "" = false ->
  fst (GetByID sid w) = Err notFoundSession ->
  fails w (SysStat (SessionFile (model.String sid))) = false /\
  entryAt w (model.String sid) = None.
Proof.
  intros Hn. destruct (GetByID sid w) as [r w'] eqn:E. simpl. intros ->.
  unfold GetByID, dataToSession in E. unfold_os.
  unfold NewSession, Now, UpdateLastUsedAt in E. run. simpl in E.
  rewrite Hn in E. simpl in E. unfold entryAt, model.String in *.
  break_in E; apply (f_equal fst) in E; simpl in E; try discriminate E;
    repeat match goal with
           | H : sessions w = _ |- _ => rewrite H
           end;
    (split; [first [assumption | reflexivity] |]);
    first [ reflexivity
          | match goal with
            | H : present ?x = false |- _ => destruct x; [discriminate H | reflexivity]
            end ].
Qed.

(** The session that was saved and then made current is the one
    [GetCurrent] loads. *)
Lemma current_after_save (s : Session) (w w1 w2 : World) :
  model.IsValid (ID s) = true ->
  Save s w = (None, w1) ->
  SetCurrent s w1 = (None, w2) ->
  fails w (SysReadFile CurrentFile) = false ->
  fails w (SysOpen (SessionFile (model.String (ID s)))) = false ->
  exists s',
    fst (GetCurrent w2) = Ok s' /\
    ID s' = ID s /\ Username s' = json.coerce (Username s) /\
    Token s' = json.coerce (Token s) /\
    ExpiresAt s' = wholeSeconds (ExpiresAt s).
Proof.
  intros Hv E1 E2 Hr Ho.
  apply Save_inv in E1 as (Hn & d & reg & m & Hd & _ & _ & Hle1 & _).
  apply SetCurrent_inv in E2 as ((p & Hp & Hcont & _) & Hfr & Hle2 & _).
  destruct (env_le_trans _ _ _ Hle1 Hle2) as (Hf & _).
  destruct (entered_frame w2) as (Hsf & (Hf3 & _)).
  rewrite (GetCurrent_pointing w2 p (ID s)); auto; [| rewrite Hf; exact Hr].
  destruct (GetByID_found (model.String (ID s)) (enteredGetCurrent w2)
              (mkEntry reg (Some (storedData s)) m) (storedData s) (ID s))
    as (w3 & E & _).
  - exact Hn.
  - rewrite (same_files_entryAt _ _ _ Hsf), Hfr. unfold entryAt.
    rewrite Hd. apply lookup_insert_eq.
  - reflexivity.
  - rewrite Hf3, Hf. exact Ho.
  - rewrite (written_storedData_ID s (IsValid_format _ Hv)).
    rewrite (NewSessionID_valid _ (IsValid_format _ Hv)). f_equal. apply SessionID_eta.
  - unfold model.String in E. rewrite SessionID_eta in E. rewrite E.
    eexists. split; [reflexivity |]. simpl. repeat split.
Qed.

End CurrentMore.

(** X14. A session that was saved and then made current is what
    [GetCurrent] returns: same identifier, the user name and the token as
    the JSON encoding leaves them (the same whenever they are valid UTF-8),
    and the expiry rounded down to the whole second. *)
Theorem Save_SetCurrent_GetCurrent (s : entity.Session) (w : repository.World) :
  let w1 := snd (repository.Save s w) in
  let w2 := snd (repository.SetCurrent s w1) in
  model.IsValid (entity.ID s) = true ->
  fst (repository.Save s w) = None ->
  fst (repository.SetCurrent s w1) = None ->
  repository.fails w (repository.SysReadFile repository.CurrentFile) = false ->
  repository.fails w (repository.SysOpen
     (repository.SessionFile (model.String (entity.ID s)))) = false ->
  exists s',
    fst (repository.GetCurrent w2) = Ok s' /\
    entity.ID s' = entity.ID s /\
    entity.Username s' = json.coerce (entity.Username s) /\
    entity.Token s' = json.coerce (entity.Token s) /\
    (utf8.ValidString (entity.Username s) = true ->
     entity.Username s' = entity.Username s) /\
    (utf8.ValidString (entity.Token s) = true ->
     entity.Token s' = entity.Token s) /\
    entity.ExpiresAt s' = wholeSeconds (entity.ExpiresAt s).
Proof.
  intros w1 w2 Hv H1 H2 Hr Ho.
  destruct (current_after_save s w w1 w2) as (s' & G & I1 & I2 & I3 & I4); auto.
  - rewrite <- H1. apply surjective_pairing.
  - rewrite <- H2. apply surjective_pairing.
  - exists s'. split; [exact G |]. split; [exact I1 |]. split; [exact I2 |].
    split; [exact I3 |].
    split; [intros H; rewrite I2; exact (coerce_valid _ H) |].
    split; [intros H; rewrite I3; exact (coerce_valid _ H) | exact I4].
Qed.

Lemma Save_SetCurrent_GetCurrent_witness :
  exists s',
    fst (repository.GetCurrent
           (snd (repository.SetCurrent alice0
                   (snd (repository.Save alice0 (world0 noFailure)))))) = Ok s' /\
    entity.ID s' = sid0 /\
    entity.Username s' = "alice"%string /\
    entity.Token s' = "token-a"%string /\
    entity.ExpiresAt s' = wholeSeconds (entity.ExpiresAt alice0).
Proof.
  destruct (Save_SetCurrent_GetCurrent alice0 (world0 noFailure))
    as (s' & G & I1 & _ & _ & I2 & I3 & I4).
  - vm_compute. reflexivity.
  - vm_compute. reflexivity.
  - vm_compute. reflexivity.
  - reflexivity.
  - reflexivity.
  - exists s'. split; [exact G |]. split; [exact I1 |].
    split; [exact (I2 eq_refl) |]. split; [exact (I3 eq_refl) | exact I4].
Defined.

(** X15. [ClearCurrent] removes the pointer file and nothing else: the
    records are untouched, [GetCurrent] right after fails with [NotFound]
    ("no current session"), and clearing again succeeds again. When the
    removal fails for another reason than absence, [ClearCurrent] returns
    the error and the pointer file is as before. *)
Theorem ClearCurrent_spec (w : repository.World) :
  let w1 := snd (repository.ClearCurrent w) in
  repository.sessions w1 = repository.sessions w /\
  (repository.fails w (repository.SysRemove repository.CurrentFile) = false ->
     fst (repository.ClearCurrent w) = None /\
     repository.current w1 = None /\
     fst (repository.ClearCurrent w1) = None /\
     (repository.fails w (repository.SysStat repository.CurrentFile) = false ->
      fst (repository.GetCurrent w1) = Err notFoundCurrent)) /\
  (repository.fails w (repository.SysRemove repository.CurrentFile) = true ->
     fst (repository.ClearCurrent w)
       = Some (Wrap (External "os.Remove") "failed to remove current session file") /\
     repository.current w1 = repository.current w).
Proof.
  intros w1. destruct (ClearCurrent_eq w) as (Hs & Hle & _ & Hcase). fold w1 in Hs, Hle, Hcase.
  destruct Hle as (Hf & _).
  split; [exact Hs |]. split; intros Hrm; rewrite Hrm in Hcase.
  - destruct Hcase as [Hr Hc]. split; [exact Hr |]. split; [exact Hc |]. split.
    + destruct (ClearCurrent_eq w1) as (_ & _ & _ & Hcase1).
      rewrite Hf, Hrm in Hcase1. tauto.
    + intros Hst. rewrite GetCurrent_eq, Hc, Hf, Hst. reflexivity.
  - exact Hcase.
Qed.

Lemma ClearCurrent_spec_witness :
  fst (repository.ClearCurrent (worldAlice noFailure (Some alicePointer))) = None /\
  fst (repository.GetCurrent
         (snd (repository.ClearCurrent (worldAlice noFailure (Some alicePointer)))))
    = Err notFoundCurrent /\
  fst (repository.ClearCurrent (worldAlice removeFails (Some alicePointer)))
    = Some (Wrap (External "os.Remove") "failed to remove current session file").
Proof.
  destruct (ClearCurrent_spec (worldAlice noFailure (Some alicePointer)))
    as (_ & H1 & _).
  destruct (ClearCurrent_spec (worldAlice removeFails (Some alicePointer)))
    as (_ & _ & H2).
  destruct (H1 eq_refl) as (A & _ & _ & B).
  destruct (H2 eq_refl) as (C & _).
  split; [exact A |]. split; [exact (B eq_refl) | exact C].
Defined.

(** X16. [SetCurrent] does not check that the session is stored and writes
    no record: making current a session that was never saved succeeds
    whenever the directory can be made and the pointer file written, and
    [GetCurrent] then fails with [NotFound] ("session not found"). *)
Theorem SetCurrent_unsaved (s : entity.Session) (w : repository.World) :
  let w1 := snd (repository.SetCurrent s w) in
  model.IsValid (entity.ID s) = true ->
  repository.entryAt w (model.String (entity.ID s)) = None ->
  repository.fails w repository.SysMkdirAll = false ->
  repository.fails w (repository.SysWriteFile repository.CurrentFile) = false ->
  repository.fails w (repository.SysReadFile repository.CurrentFile) = false ->
  repository.fails w (repository.SysStat
     (repository.SessionFile (model.String (entity.ID s)))) = false ->
  fst (repository.SetCurrent s w) = None /\
  (forall k, repository.entryAt w1 k = repository.entryAt w k) /\
  fst (repository.GetCurrent w1) = Err notFoundSession.
Proof.
  intros w1 Hv Habs Hmk Hwr Hr Hst.
  pose proof (SetCurrent_succeeds s w Hmk Hwr) as H1.
  split; [exact H1 |].
  assert (E1 : repository.SetCurrent s w = (None, w1))
    by (rewrite <- H1; apply surjective_pairing).
  apply SetCurrent_inv in E1 as ((p & Hp & Hcont & _) & Hfr & (Hf & _) & _).
  split; [exact Hfr |].
  destruct (entered_frame w1) as (Hsf & (Hf3 & _)).
  rewrite (GetCurrent_pointing w1 p (entity.ID s)); auto; [| rewrite Hf; exact Hr].
  apply GetByID_absent.
  - apply IsValid_nonempty, Hv.
  - rewrite Hf3, Hf. exact Hst.
  - rewrite (same_files_entryAt _ _ _ Hsf), Hfr. exact Habs.
Qed.

Lemma SetCurrent_unsaved_witness :
  fst (repository.SetCurrent alice0 (world0 noFailure)) = None /\
  fst (repository.GetCurrent (snd (repository.SetCurrent alice0 (world0 noFailure))))
    = Err notFoundSession.
Proof.
  destruct (SetCurrent_unsaved alice0 (world0 noFailure)) as (H1 & _ & H2).
  - vm_compute. reflexivity.
  - reflexivity.
  - reflexivity.
  - reflexivity.
  - reflexivity.
  - reflexivity.
  - split; [exact H1 | exact H2].
Defined.

(** X17. [Delete] does not look at the pointer file: deleting the session
    the pointer names succeeds and leaves the pointer as it is, and
    [GetCurrent] then fails with [NotFound] ("session not found"). *)
Theorem Delete_current_dangles (sid : model.SessionID) (w : repository.World)
    (p : repository.Pointer) :
  let w1 := snd (repository.Delete sid w) in
  model.IsValid sid = true ->
  repository.current w = Some p ->
  repository.content p = model.String sid ->
  fst (repository.Delete sid w) = None ->
  repository.fails w (repository.SysReadFile repository.CurrentFile) = false ->
  repository.fails w (repository.SysStat
     (repository.SessionFile (model.String sid))) = false ->
  repository.current w1 = Some p /\
  fst (repository.GetCurrent w1) = Err notFoundSession.
Proof.
  intros w1 Hv Hc Hp Hd0 Hr Hst.
  assert (Hd : repository.Delete sid w = (None, w1))
    by (rewrite <- Hd0; apply surjective_pairing).
  pose proof (IsValid_nonempty _ Hv) as Hn.
  destruct (Delete_spec _ _ _ _ Hn Hd) as ((Hf & _) & Hc1 & _ & _ & Hcase).
  destruct (removalFails w (model.String sid));
    [destruct Hcase as [Hcase _]; discriminate |].
  destruct Hcase as [_ Habs].
  split; [congruence |].
  destruct (entered_frame w1) as (Hsf & (Hf3 & _)).
  rewrite (GetCurrent_pointing w1 p sid); auto; [| congruence | rewrite Hf; exact Hr].
  apply GetByID_absent.
  - exact Hn.
  - rewrite Hf3, Hf. exact Hst.
  - rewrite (same_files_entryAt _ _ _ Hsf). exact Habs.
Qed.

Lemma Delete_current_dangles_witness :
  repository.current
    (snd (repository.Delete sid0 (worldAlice noFailure (Some alicePointer))))
    = Some alicePointer /\
  fst (repository.GetCurrent
         (snd (repository.Delete sid0 (worldAlice noFailure (Some alicePointer)))))
    = Err notFoundSession.
Proof.
  apply (Delete_current_dangles sid0 (worldAlice noFailure (Some alicePointer))).
  - vm_compute. reflexivity.
  - reflexivity.
  - reflexivity.
  - vm_compute. reflexivity.
  - reflexivity.
  - reflexivity.
Defined.

(** X18. [Exists] changes nothing, not even the log. When [os.Stat] works it
    answers false exactly when [GetByID] fails with the plain [NotFound],
    and true exactly when a record is filed under the identifier. When
    [os.Stat] fails for another reason [Exists] returns the error, while
    [GetByID] does not fail with [NotFound]: it goes on to open the file. *)
Theorem Exists_GetByID (sid : model.SessionID) (w : repository.World) :
  String.eqb (model.String sid) "" = false ->
  snd (repository.Exists sid w) = w /\
  (repository.fails w (repository.SysStat
      (repository.SessionFile (model.String sid))) = false ->
     (fst (repository.Exists sid w) = Ok false <->
      fst (repository.GetByID sid w) = Err notFoundSession) /\
     (fst (repository.Exists sid w) = Ok true <->
      repository.present (repository.entryAt w (model.String sid)) = true)) /\
  (repository.fails w (repository.SysStat
      (repository.SessionFile (model.String sid))) = true ->
     fst (repository.Exists sid w)
       = Err (Wrap (External "os.Stat") "failed to check session file") /\
     fst (repository.GetByID sid w) <> Err notFoundSession).
Proof.
  intros Hn. destruct sid as [name]. unfold model.String in *. simpl in *.
  rewrite Exists_eq by exact Hn.
  split; [reflexivity |]. split; intros Hst; rewrite Hst; simpl.
  - destruct (repository.entryAt w name) eqn:He; simpl.
    + split; split; try reflexivity; try discriminate.
      intros H. apply GetByID_NotFound_inv in H as [_ H]; [| exact Hn].
      simpl in H. congruence.
    + split; split; try reflexivity; try discriminate.
      intros _. apply GetByID_absent; assumption.
  - split; [reflexivity |]. intros H.
    apply GetByID_NotFound_inv in H as [H _]; [| exact Hn].
    simpl in H. congruence.
Qed.

Lemma Exists_GetByID_witness :
  fst (repository.Exists sid1 (worldAlice noFailure None)) = Ok false /\
  fst (repository.Exists sid0 (worldAlice noFailure None)) = Ok true.
Proof.
  destruct (Exists_GetByID sid1 (worldAlice noFailure None)) as (_ & H1 & _);
    [reflexivity |].
  destruct (Exists_GetByID sid0 (worldAlice noFailure None)) as (_ & H0 & _);
    [reflexivity |].
  destruct (H1 eq_refl) as [[_ A] _]. destruct (H0 eq_refl) as [_ [_ B]].
  split; [apply A; vm_compute; reflexivity | apply B; vm_compute; reflexivity].
Defined.

Section ListMore.

Import time entity repository.
#[local] Arguments model.NewSessionID : simpl never.
#[local] Arguments strs.TrimSpace : simpl never.
#[local] Arguments GetByID : simpl never.

(** What a successful [GetByID] returns was decoded from the record filed
    under the identifier. *)
Lemma GetByID_Ok_inv (sid : model.SessionID) (w w' : World) (s : Session) :
  GetByID sid w = (Ok s, w') ->
  exists e d,
    entryAt w (model.String sid) = Some e /\ data e = Some d /\
    model.NewSessionID (data_ID d) = Ok (ID s) /\
    Username s = data_Username d /\ Token s = data_Token d /\
    ExpiresAt s = FromUnix (data_ExpiresAt d) /\
    LastUsed s = FromUnix (data_LastUsed d).
Proof.
  intros E. unfold GetByID, dataToSession in E. unfold_os.
  unfold NewSession, Now, UpdateLastUsedAt in E. run.
  unfold entryAt, model.String in *.
  break_in E; try discriminate E; injection E as <- <-; simpl in *;
    repeat match goal with
           | H : sessions w = _ |- _ => rewrite H in *
           end;
    repeat match goal with
           | H : Some _ = Some _ |- _ => injection H as <-
           end;
    do 2 eexists; (split; [eassumption |]); (split; [reflexivity |]);
    repeat split; assumption.
Qed.

Lemma listEntries_sound (entries : list (string * Entry)) :
  forall (acc : list Session) (w w' : World) (ss : list Session),
  listEntries entries acc w = (ss, w') ->
  forall s, s ∈ ss -> s ∈ acc \/ decodedFrom w s.
Proof.
  induction entries as [| [k0 e0] rest IH]; intros acc w w' ss E s Hs.
  - simpl in E. run. injection E as <- <-. now left.
  - simpl in E. run.
    destruct (negb (regular e0)); [exact (IH _ _ _ _ E s Hs) |].
    destruct (model.NewSessionID k0) as [sid |] eqn:EN.
    + destruct (GetByID sid w) as [[s1 | err] w1] eqn:EG.
      * destruct (GetByID_frame _ _ _ _ EG) as [Hsf _].
        destruct (IH _ _ _ _ E s Hs) as [Hin | Hd].
        -- apply elem_of_app in Hin as [Hin | Hin]; [now left |].
           apply list_elem_of_singleton in Hin. subst s1. right.
           apply GetByID_Ok_inv in EG as (e & d & H1 & H2 & H3 & H4 & H5 & H6 & H7).
           apply NewSessionID_Ok_inv in EN as [_ EN].
           exists (model.String sid), e, d. repeat split; assumption.
        -- right. destruct Hd as (k & e1 & d1 & H0 & H1 & H2).
           exists k, e1, d1. split; [exact H0 |].
           rewrite <- (same_files_entryAt _ _ k Hsf). split; [exact H1 | exact H2].
      * destruct (GetByID_frame _ _ _ _ EG) as [Hsf _].
        destruct (IH _ _ _ _ E s Hs) as [Hin | Hd]; [now left |].
        right. destruct Hd as (k & e1 & d1 & H0 & H1 & H2).
        exists k, e1, d1. split; [exact H0 |].
        rewrite <- (same_files_entryAt _ _ k Hsf). split; [| exact H2].
        unfold entryAt in *. simpl in H1. exact H1.
    + destruct (IH _ _ _ _ E s Hs) as [Hin | Hd]; [now left |].
      right. destruct Hd as (k & e1 & d1 & H0 & H1 & H2).
      exists k, e1, d1. split; [exact H0 |]. split; [exact H1 | exact H2].
Qed.

Lemma List_sound_aux (w w' : World) (ss : list Session) :
  List w = (Ok ss, w') -> forall s, s ∈ ss -> decodedFrom w s.
Proof.
  intros E s Hs. unfold List in E. unfold_os. run. simpl in E.
  destruct (sessions w) as [d0 |] eqn:Hd0; simpl in E.
  - destruct (fails w SysReadDir) eqn:Hrd;
      destruct (fails w (SysStat SessionsDir)) eqn:Hst;
      simpl in E; rewrite ?Hrd, ?Hd0 in E; simpl in E; try discriminate E.
    all: destruct (listEntries (merge_sort name_le (map_to_list d0)) []
                  (set_logs (logs w ++ [logger.mkRecord logger.LevelDebug "listing all sessions"]) w))
        as [ss1 w1] eqn:EL;
      injection E as <- <-;
      destruct (listEntries_sound _ _ _ _ _ EL s Hs) as [H | H]; [inversion H |];
      destruct H as (k & e & d & H0 & H1 & H2); exists k, e, d;
      (split; [exact H0 |]); (split; [| exact H2]);
      unfold entryAt in *; simpl in H1; exact H1.
  - destruct (fails w (SysStat SessionsDir)) eqn:Hst; simpl in E.
    + destruct (fails w SysReadDir); simpl in E; rewrite ?Hd0 in E; simpl in E;
        discriminate E.
    + injection E as <- <-. inversion Hs.
Qed.

(** The validity test of a session, run on the clock of the store. *)
Lemma withClock_IsValid (s : Session) (w w1 : World) (b : bool) :
  withClock (entity.IsValid s) w = (b, w1) ->
  same_files w w1 /\ env_le w w1 /\
  (b = true ->
     model.IsValid (ID s) = true /\
     String.eqb (Username s) "" = false /\
     String.eqb (Token s) "" = false /\
     cursor (clock w1) = S (cursor (clock w)) /\
     nextReading w <= ExpiresAt s).
Proof.
  unfold withClock, entity.IsValid, IsExpired, Now, After, nextReading. run.
  destruct (model.IsValid (id s)) eqn:H1; simpl;
    [destruct (String.eqb (username s) "") eqn:H2; simpl;
     [| destruct (String.eqb (token s) "") eqn:H3; simpl] |];
    intros [= <- <-]; (split; [split; reflexivity |]); (split; [solve_env_le |]);
    try discriminate.
  intros Hb. apply negb_true_iff, Z.ltb_ge in Hb. simpl. auto.
Qed.

Lemma findValid_spec (name : string) (ss : list Session) :
  forall (w w' : World) (r : result Session),
  findValid name ss w = (r, w') ->
  same_files w w' /\ env_le w w' /\
  match r with
  | Ok s =>
      s ∈ ss /\ Username s = name /\
      model.IsValid (ID s) = true /\
      String.eqb name "" = false /\
      String.eqb (Token s) "" = false /\
      exists i : nat,
        (cursor (clock w) <= i < cursor (clock w'))%nat /\
        reading (clock w) i <= ExpiresAt s
  | Err e => e = noValidSession
  end.
Proof.
  induction ss as [| a rest IH]; intros w w' r E.
  - simpl in E. run. injection E as <- <-.
    split; [apply same_files_refl |]. split; [apply env_le_refl | reflexivity].
  - simpl in E. run.
    assert (Hrest : forall w1, same_files w w1 -> env_le w w1 ->
              findValid name rest w1 = (r, w') ->
              same_files w w' /\ env_le w w' /\
              match r with
              | Ok s =>
                  s ∈ a :: rest /\ Username s = name /\
                  model.IsValid (ID s) = true /\
                  String.eqb name "" = false /\
                  String.eqb (Token s) "" = false /\
                  exists i : nat,
                    (cursor (clock w) <= i < cursor (clock w'))%nat /\
                    reading (clock w) i <= ExpiresAt s
              | Err e => e = noValidSession
              end).
    { intros w1 Hsf Hle E1. destruct (IH _ _ _ E1) as (A & B & C).
      split; [eapply same_files_trans; eassumption |].
      split; [eapply env_le_trans; eassumption |].
      destruct r as [s |]; [| exact C].
      destruct C as (C1 & C2 & C3 & C4 & C5 & i & Hi & Hr).
      split; [now apply list_elem_of_further |]. do 4 (split; [assumption |]).
      exists i. destruct Hle as (_ & _ & Hrd & Hcur & _).
      split; [lia |]. rewrite <- Hrd. exact Hr. }
    destruct (String.eqb (Username a) name) eqn:Hname.
    + destruct (withClock (entity.IsValid a) w) as [valid w1] eqn:EV.
      destruct (withClock_IsValid _ _ _ _ EV) as (Hsf & Hle & Hb).
      destruct valid.
      * injection E as <- <-. split; [exact Hsf |]. split; [exact Hle |].
        destruct (Hb eq_refl) as (B1 & B2 & B3 & B4 & B5).
        apply String.eqb_eq in Hname.
        split; [apply list_elem_of_here |]. split; [exact Hname |].
        split; [exact B1 |]. split; [now rewrite <- Hname |]. split; [exact B3 |].
        exists (cursor (clock w)). split; [lia | exact B5].
      * apply (Hrest w1); assumption.
    + apply (Hrest w); [apply same_files_refl | apply env_le_refl | exact E].
Qed.

End ListMore.

(** X19. [IsValid(id)] of the store turns the plain [NotFound] of [GetByID]
    into the answer false without an error, and passes every other error of
    [GetByID] on as it is: a record that is there but cannot be opened,
    decoded or converted makes [IsValid] fail, it is not reported as an
    invalid session. *)
Theorem IsValid_errors (sid : model.SessionID) (w : repository.World) :
  (fst (repository.GetByID sid w) = Err notFoundSession ->
   fst (repository.IsValid sid w) = Ok false) /\
  (forall e, fst (repository.GetByID sid w) = Err e -> e <> notFoundSession ->
   fst (repository.IsValid sid w) = Err e).
Proof.
  split.
  - intros H. unfold repository.IsValid. run.
    destruct (repository.GetByID sid w) as [r w1]. simpl in H. subst r. reflexivity.
  - intros e H Hne. destruct (GetByID_errors _ _ _ H) as [-> | Hc]; [congruence |].
    unfold repository.IsValid. run.
    destruct (repository.GetByID sid w) as [r w1]. simpl in H. subst r.
    rewrite Hc. reflexivity.
Qed.

Lemma IsValid_errors_witness :
  fst (repository.IsValid sid1 tornWorld) = Ok false /\
  fst (repository.IsValid sid0 tornWorld) = Err decodeError.
Proof.
  destruct (IsValid_errors sid1 tornWorld) as [H1 _].
  destruct (IsValid_errors sid0 tornWorld) as [_ H0].
  split.
  - apply H1. vm_compute. reflexivity.
  - apply H0; [vm_compute; reflexivity | discriminate].
Defined.

(** X20. [GetByUsername(name)] changes no file. A session it returns has the
    user name asked for, a well-formed identifier and a non-empty token, was
    decoded from a record of the store, and had not expired at one of the
    readings of the clock made during the call; so no session is ever
    returned for the empty name. Its only errors are [NotFound] ("no valid
    session found for username") and the wrapped failure of the listing. *)
Theorem GetByUsername_sound (name : string) (w : repository.World) :
  let w1 := snd (repository.GetByUsername name w) in
  same_files w w1 /\
  match fst (repository.GetByUsername name w) with
  | Ok s =>
      entity.Username s = name /\
      String.eqb name "" = false /\
      model.IsValid (entity.ID s) = true /\
      String.eqb (entity.Token s) "" = false /\
      decodedFrom w s /\
      exists i : nat,
        (time.cursor (repository.clock w) <= i < time.cursor (repository.clock w1))%nat /\
        time.reading (repository.clock w) i <= entity.ExpiresAt s
  | Err e => e = noValidSession \/ (~ listable w /\ e = listError)
  end.
Proof.
  intros w1. subst w1.
  destruct (repository.GetByUsername name w) as [r w1] eqn:E. simpl.
  destruct (log_frame logger.LevelDebug "getting session by username" w) as [Hsf0 Hle0].
  unfold repository.GetByUsername in E. unfold repository.log in E, Hsf0, Hle0.
  run. simpl in E, Hsf0, Hle0.
  destruct (repository.List _) as [[ss | e] w2] eqn:EL.
  - pose proof (List_sound_aux _ _ _ EL) as Hdec.
    apply List_spec in EL as (Hsf1 & Hle1 & _).
    destruct (findValid_spec _ _ _ _ _ E) as (Hsf2 & Hle2 & Hr).
    split; [exact (same_files_trans _ _ _ Hsf0 (same_files_trans _ _ _ Hsf1 Hsf2)) |].
    destruct r as [s |]; [| now left].
    destruct Hr as (C1 & C2 & C3 & C4 & C5 & i & Hi & Hrd).
    do 4 (split; [assumption |]). split.
    + destruct (Hdec s C1) as (k & e & d & H0 & H1 & H2).
      exists k, e, d. split; [exact H0 |]. split; [| exact H2].
      unfold repository.entryAt in *. simpl in H1. exact H1.
    + exists i. destruct Hle1 as (_ & _ & Hrd1 & Hcur1 & _). simpl in Hrd1, Hcur1.
      split; [lia |]. rewrite <- Hrd1. exact Hrd.
  - injection E as <- <-.
    apply List_spec in EL as (Hsf1 & Hle1 & Hno & Hyes).
    split; [exact (same_files_trans _ _ _ Hsf0 Hsf1) |].
    right.
    assert (Hl : ~ listable w).
    { intros Hl. destruct Hyes as (ss & Habs & _); [exact Hl | discriminate]. }
    split; [exact Hl |]. injection (Hno Hl) as ->. reflexivity.
Qed.

(** X21. [List] changes no file. When the sessions directory does not exist
    it returns the empty list. Every session it returns was decoded from a
    record of the store that is filed under a well-formed name; the
    identifier of the session is the one written in the record. *)
Theorem List_sound (w : repository.World) :
  same_files w (snd (repository.List w)) /\
  (repository.sessions w = None ->
   repository.fails w (repository.SysStat repository.SessionsDir) = false ->
   fst (repository.List w) = Ok []) /\
  (forall ss, fst (repository.List w) = Ok ss ->
   forall s, s ∈ ss -> decodedFrom w s).
Proof.
  destruct (repository.List w) as [r w1] eqn:E. simpl.
  split; [apply (List_spec _ _ _ E) |]. split.
  - intros Hd Hst. unfold repository.List in E. unfold_os. run. simpl in E.
    rewrite Hd, Hst in E. simpl in E. now injection E as <- _.
  - intros ss ->. exact (List_sound_aux _ _ _ E).
Qed.

Lemma List_sound_witness :
  fst (repository.List (world0 noFailure)) = Ok [] /\
  decodedFrom (worldAlice noFailure None) aliceLoaded.
Proof.
  destruct (List_sound (world0 noFailure)) as (_ & H & _).
  destruct (List_sound (worldAlice noFailure None)) as (_ & _ & H').
  split; [exact (H eq_refl eq_refl) |].
  apply (H' [aliceLoaded]); [vm_compute; reflexivity | apply list_elem_of_here].
Defined.

(** X22. The pointer file that a successful [SetCurrent] leaves holds the
    identifier of the session. When the file did not exist it is created
    with mode 0600 less the umask, so without any permission for the group
    and the others; when it existed it keeps the mode it had, whatever that
    was. *)
Theorem SetCurrent_pointer (s : entity.Session) (w : repository.World) :
  let w1 := snd (repository.SetCurrent s w) in
  fst (repository.SetCurrent s w) = None ->
  exists p,
    repository.current w1 = Some p /\
    repository.content p = model.String (entity.ID s) /\
    match repository.current w with
    | Some p0 => repository.pmode p = repository.pmode p0
    | None => Z.land (repository.pmode p) groupOtherBits = 0 /\
              repository.pmode p
                = Z.land repository.perm0600 (Z.lnot (repository.umask w))
    end.
Proof.
  intros w1 H1.
  assert (E1 : repository.SetCurrent s w = (None, w1))
    by (rewrite <- H1; apply surjective_pairing).
  apply SetCurrent_inv in E1 as ((p & Hp & Hcont & Hm) & _).
  exists p. split; [exact Hp |]. split; [exact Hcont |].
  destruct (repository.current w); [exact Hm |].
  rewrite Hm. unfold repository.created_mode, groupOtherBits, repository.perm0600.
  split; [| reflexivity].
  rewrite (Z.land_comm 384), <- Z.land_assoc. change (Z.land 384 63) with 0.
  apply Z.land_0_r.
Qed.

Lemma SetCurrent_pointer_witness :
  exists p,
    repository.current (snd (repository.SetCurrent alice0 (world0 noFailure))) = Some p /\
    repository.content p = "0123456789abcdef0123456789abcdef"%string /\
    Z.land (repository.pmode p) groupOtherBits = 0 /\
    repository.pmode p = 384.
Proof.
  destruct (SetCurrent_pointer alice0 (world0 noFailure)) as (p & H1 & H2 & H3 & H4).
  - vm_compute. reflexivity.
  - exists p. split; [exact H1 |]. split; [exact H2 |]. split; [exact H3 | exact H4].
Defined.

(** ** The authentication gateway: requests and best effort *)

(** X23. [ValidateSession] on a session that has expired at the reading of
    the clock answers false without sending anything. Otherwise it sends one
    GET request for the user of the session, with the token as bearer, and
    answers true exactly when the status is 200; a transport failure gives an
    error of kind [NetworkError] that carries the failure. It allocates no
    session and draws no random bytes. *)
Theorem ValidateSession_spec (r : auth.AOJAuthRepository) (session : auth.ptr)
    (w : auth.World) (s : entity.Session) :
  auth.heap w !! session = Some s ->
  let out := fst (auth.ValidateSession r session w) in
  let w' := snd (auth.ValidateSession r session w) in
  auth.heap w' = auth.heap w /\ auth.source w' = auth.source w /\
  if time.After (authNextReading w) (entity.ExpiresAt s) then
    out = auth.Returns (Ok false) /\ auth.sent w' = auth.sent w
  else if auth.validURL w (auth.baseURL r ++ "/user/" ++ entity.Username s) then
    auth.sent w' = auth.sent w ++ [validationRequest r s] /\
    match auth.remote w (validationRequest r s) with
    | Err e =>
        out = auth.Returns
                (Err (AppError CodeNetworkError "failed to validate session with AOJ"
                        (Some e)))
    | Ok resp => out = auth.Returns (Ok (auth.StatusCode resp =? 200))
    end
  else
    out = auth.Returns (Err validationURLError) /\ auth.sent w' = auth.sent w.
Proof.
  intros Hs out w'. subst out w'.
  unfold auth.ValidateSession. rewrite Hs.
  unfold auth.validateSession, validationRequest, authNextReading. unfold_auth. run. simpl.
  destruct (time.After _ _); simpl; [repeat split |].
  destruct (auth.validURL w _); simpl; [| repeat split].
  match goal with
  | |- context [auth.remote w ?req] => destruct (auth.remote w req) as [resp | e]
  end; simpl; [| repeat split].
  destruct (auth.closeFails resp); simpl; repeat split.
Qed.

Lemma ValidateSession_spec_witness :
  fst (auth.ValidateSession repo0 0%nat (authWorld2 (answers 200 None)))
    = auth.Returns (Ok true) /\
  fst (auth.ValidateSession repo0 0%nat (authWorld2 (answers 401 None)))
    = auth.Returns (Ok false) /\
  auth.sent (snd (auth.ValidateSession repo0 1%nat (authWorld2 (answers 200 None)))) = [].
Proof.
  split; [| split].
  - exact (proj2 (proj2 (proj2 (ValidateSession_spec repo0 0%nat
                    (authWorld2 (answers 200 None)) carol0 eq_refl)))).
  - exact (proj2 (proj2 (proj2 (ValidateSession_spec repo0 0%nat
                    (authWorld2 (answers 401 None)) carol0 eq_refl)))).
  - exact (proj2 (proj2 (proj2 (ValidateSession_spec repo0 1%nat
                    (authWorld2 (answers 200 None)) bob0 eq_refl)))).
Defined.

(** X24. [Logout] is best effort: once the request is sent and answered it
    returns nil whatever the status of the answer, and only a transport
    failure (or a request that cannot be built) is an error. It sends one
    DELETE request with the token as bearer and leaves every session as it
    is: nothing is invalidated locally. *)
Theorem Logout_spec (r : auth.AOJAuthRepository) (session : auth.ptr)
    (w : auth.World) (s : entity.Session) :
  auth.heap w !! session = Some s ->
  let out := fst (auth.Logout r session w) in
  let w' := snd (auth.Logout r session w) in
  auth.heap w' = auth.heap w /\
  if auth.validURL w (auth.baseURL r ++ "/session") then
    auth.sent w' = auth.sent w ++ [logoutRequest r s] /\
    match auth.remote w (logoutRequest r s) with
    | Err e =>
        out = auth.Returns
                (Some (AppError CodeNetworkError "failed to connect to AOJ for logout"
                         (Some e)))
    | Ok _ => out = auth.Returns None
    end
  else
    out = auth.Returns (Some (Wrap (External "http.NewRequestWithContext")
                                "failed to create logout request")) /\
    auth.sent w' = auth.sent w.
Proof.
  intros Hs out w'. subst out w'.
  unfold auth.Logout. rewrite Hs.
  unfold auth.logout, logoutRequest. unfold_auth. run. simpl.
  destruct (auth.validURL w _); simpl; [| repeat split].
  match goal with
  | |- context [auth.remote w ?req] => destruct (auth.remote w req) as [resp | e]
  end; simpl; [| repeat split].
  destruct (negb (auth.StatusCode resp =? auth.StatusOK)
            && negb (auth.StatusCode resp =? auth.StatusNoContent)); simpl;
    destruct (auth.closeFails resp); simpl; repeat split.
Qed.

Lemma Logout_spec_witness :
  fst (auth.Logout repo0 0%nat (authWorld2 (answers 500 None))) = auth.Returns None /\
  fst (auth.Logout repo0 0%nat (authWorld2 unreachable))
    = auth.Returns (Some (AppError CodeNetworkError "failed to connect to AOJ for logout"
                            (Some (External "http.Client.Do")))).
Proof.
  split.
  - exact (proj2 (proj2 (Logout_spec repo0 0%nat (authWorld2 (answers 500 None))
                           carol0 eq_refl))).
  - exact (proj2 (proj2 (Logout_spec repo0 0%nat (authWorld2 unreachable)
                           carol0 eq_refl))).
Defined.

(** X25. [RefreshSession] is local but for the validation: the only request
    it sends is the validation GET. On a session that has expired at the
    reading of the clock it fails with [Unauthorized] and sends nothing;
    when the server answers the validation with a status other than 200 it
    fails with [Unauthorized] too. In both cases no random bytes are drawn
    and no session is allocated. *)
Theorem RefreshSession_requests (r : auth.AOJAuthRepository) (session : auth.ptr)
    (w : auth.World) (s : entity.Session) :
  auth.heap w !! session = Some s ->
  let out := fst (auth.RefreshSession r session w) in
  let w' := snd (auth.RefreshSession r session w) in
  if time.After (authNextReading w) (entity.ExpiresAt s) then
    out = auth.Returns (Err noLongerValid) /\
    auth.sent w' = auth.sent w /\ auth.source w' = auth.source w /\
    auth.heap w' = auth.heap w
  else if auth.validURL w (auth.baseURL r ++ "/user/" ++ entity.Username s) then
    auth.sent w' = auth.sent w ++ [validationRequest r s] /\
    forall resp, auth.remote w (validationRequest r s) = Ok resp ->
      auth.StatusCode resp <> 200 ->
      out = auth.Returns (Err noLongerValid) /\
      auth.source w' = auth.source w /\ auth.heap w' = auth.heap w
  else
    auth.sent w' = auth.sent w /\ auth.source w' = auth.source w /\
    auth.heap w' = auth.heap w.
Proof.
  intros Hs out w'. subst out w'.
  unfold auth.RefreshSession. rewrite Hs.
  unfold auth.refreshSession, auth.validateSession, validationRequest, authNextReading.
  unfold_auth. run. simpl.
  destruct (time.After _ _); simpl; [repeat split |].
  destruct (auth.validURL w _); simpl; [| repeat split].
  match goal with
  | |- context [auth.remote w ?req] => destruct (auth.remote w req) as [resp | e]
  end; simpl.
  - unfold auth.StatusOK.
    destruct (auth.StatusCode resp =? 200) eqn:Est; simpl.
    + destruct (auth.closeFails resp); simpl;
        destruct (rand.draw (auth.source w) (rand.draws (auth.source w))); simpl;
        (split; [reflexivity |]); intros resp' [= <-] Hne;
        apply Z.eqb_eq in Est; contradiction.
    + destruct (auth.closeFails resp); simpl;
        (split; [reflexivity |]); intros resp' _ _; repeat split.
  - split; [reflexivity |]. intros resp' Habs. discriminate Habs.
Qed.

Lemma RefreshSession_requests_witness :
  fst (auth.RefreshSession repo0 1%nat (authWorld2 (answers 200 None)))
    = auth.Returns (Err noLongerValid) /\
  fst (auth.RefreshSession repo0 0%nat (authWorld2 (answers 401 None)))
    = auth.Returns (Err noLongerValid) /\
  auth.sent (snd (auth.RefreshSession repo0 0%nat (authWorld2 (answers 401 None))))
    = [validationRequest repo0 carol0].
Proof.
  pose proof (RefreshSession_requests repo0 1%nat (authWorld2 (answers 200 None)) bob0
                eq_refl) as H1.
  pose proof (RefreshSession_requests repo0 0%nat (authWorld2 (answers 401 None)) carol0
                eq_refl) as H0.
  destruct H1 as [H1 _]. destruct H0 as [Hsent Hresp].
  destruct (Hresp _ eq_refl) as [Hout _]; [discriminate |].
  split; [exact H1 |]. split; [exact Hout | exact Hsent].
Defined.

(** X26. [Login] does not check what the server sent: the session it
    returns on status 200 has for user name the id of the response and for
    token the token of the response, whatever the user name asked for, and
    a generated identifier of 64 hexadecimal characters. For 24 hours from
    its creation the session is valid exactly when that id and that token
    are not empty: a response without a token gives a session that is not
    valid. *)
Theorem Login_session_validity (r : auth.AOJAuthRepository) (username password : string)
    (w : auth.World) (resp : auth.Response) (lr : auth.LoginResponse)
    (bs : list Byte.byte) :
  auth.validURL w (auth.baseURL r ++ "/session") = true ->
  auth.remote w (loginRequest r username password) = Ok resp ->
  auth.StatusCode resp = 200 ->
  auth.Body resp = Some lr ->
  nextDraw w = Some bs ->
  exists q s,
    fst (auth.Login r username password w) = Ok q /\
    auth.heap (snd (auth.Login r username password w)) !! q = Some s /\
    entity.Username s = auth.resp_ID lr /\
    entity.Token s = auth.resp_Token lr /\
    model.IsValid (entity.ID s) = true /\
    model.Length (entity.ID s) = 64%nat /\
    forall c : time.Clock,
      time.reading c (time.cursor c) <= authNextReading w + 24 * time.Hour ->
      fst (entity.IsValid s c)
        = negb (String.eqb (auth.resp_ID lr) "") && negb (String.eqb (auth.resp_Token lr) "").
Proof.
  intros Hurl Hrem Hst Hbody Hdraw.
  exists (length (auth.heap w)),
         (minted bs (auth.resp_ID lr) (auth.resp_Token lr) (authNextReading w)).
  assert (Hv : model.IsValid (mintedID bs) = true).
  { unfold model.IsValid. rewrite mintedID_format.
    rewrite (isValidSessionIDFormat_nonempty _ (mintedID_format bs)). reflexivity. }
  unfold nextDraw in Hdraw. unfold loginRequest in Hrem.
  split; [| split].
  - unfold auth.Login, authNextReading. unfold_auth. run. simpl.
    rewrite Hurl. simpl. rewrite Hrem. simpl. unfold auth.StatusOK. rewrite Hst. simpl.
    rewrite Hbody. simpl. rewrite Hdraw. simpl.
    destruct (auth.closeFails resp); reflexivity.
  - unfold auth.Login, authNextReading. unfold_auth. run. simpl.
    rewrite Hurl. simpl. rewrite Hrem. simpl. unfold auth.StatusOK. rewrite Hst. simpl.
    rewrite Hbody. simpl. rewrite Hdraw. simpl.
    destruct (auth.closeFails resp); simpl; apply list_lookup_middle; reflexivity.
  - split; [reflexivity |]. split; [reflexivity |]. split; [exact Hv |].
    split; [apply mintedID_length |].
    intros c Hc. unfold entity.IsValid, entity.IsExpired, time.Now, time.After. run.
    cbn [minted entity.id entity.username entity.token entity.expiresAt].
    rewrite Hv. simpl andb.
    destruct (String.eqb (auth.resp_ID lr) ""); simpl; [reflexivity |].
    destruct (String.eqb (auth.resp_Token lr) ""); simpl; [reflexivity |].
    apply negb_true_iff, Z.ltb_ge. exact Hc.
Qed.

Lemma Login_session_validity_witness :
  exists q s,
    fst (auth.Login repo0 "carol" "pw"
           (authWorld source0 (answers 200 (Some noTokenResponse)))) = Ok q /\
    auth.heap (snd (auth.Login repo0 "carol" "pw"
                      (authWorld source0 (answers 200 (Some noTokenResponse))))) !! q
      = Some s /\
    entity.Token s = ""%string /\
    fst (entity.IsValid s clock0) = false.
Proof.
  destruct (Login_session_validity repo0 "carol" "pw"
              (authWorld source0 (answers 200 (Some noTokenResponse)))
              (auth.mkResponse 200 "" (Some noTokenResponse) false) noTokenResponse bytes0)
    as (q & s & H1 & H2 & _ & H4 & _ & _ & H7); try reflexivity.
  exists q, s. split; [exact H1 |]. split; [exact H2 |]. split; [exact H4 |].
  apply (H7 clock0). vm_compute. discriminate.
Defined.

(** ** The login use case on the local store *)

Section UseCaseMore.

Import strs.

Lemma trimLeft_allSpace (s : string) : allSpace s = true -> trimLeft s = ""%string.
Proof.
  unfold allSpace. induction s as [| c r IH]; [reflexivity |].
  cbn [list_ascii_of_string forallb]. intros H. apply andb_true_iff in H as [Hc Hr].
  cbn [trimLeft]. rewrite Hc. exact (IH Hr).
Qed.

Lemma TrimSpace_allSpace (s : string) : allSpace s = true -> TrimSpace s = ""%string.
Proof. intros H. unfold TrimSpace. rewrite (trimLeft_allSpace s H). reflexivity. Qed.

Lemma TrimSpace_nonempty (s : string) :
  String.eqb (TrimSpace s) "" = false -> String.eqb s "" = false.
Proof. destruct s; [intros H; exact H | reflexivity]. Qed.

End UseCaseMore.

(** X27. When [Execute] succeeds on the local store, the session it
    reports is the current one: provided the identifier it reports is well
    formed and the files can be read, [GetCurrent] on the store it leaves
    returns a session with the identifier of the response and with its user
    name as the JSON encoding leaves it, which is the user name of the
    response whenever that is valid UTF-8. *)
Theorem Execute_makes_current (A : Type) (HA : domain.AuthRepository A)
    (request : usecase.LoginRequest) (env : usecase.Env A repository.World)
    (resp : usecase.LoginResponse) :
  let run := @usecase.Execute A repository.World HA domain.LocalSessionRepository
               request env in
  fst run = Ok resp ->
  model.isValidSessionIDFormat (usecase.resp_SessionID resp) = true ->
  repository.fails (usecase.sessionRepo env)
    (repository.SysReadFile repository.CurrentFile) = false ->
  repository.fails (usecase.sessionRepo env)
    (repository.SysOpen (repository.SessionFile (usecase.resp_SessionID resp))) = false ->
  usecase.Success resp = true /\
  exists s',
    fst (repository.GetCurrent (usecase.sessionRepo (snd run))) = Ok s' /\
    model.String (entity.ID s') = usecase.resp_SessionID resp /\
    entity.Username s' = json.coerce (usecase.resp_Username resp) /\
    (utf8.ValidString (usecase.resp_Username resp) = true ->
     entity.Username s' = usecase.resp_Username resp).
Proof.
  intros run Hok Hfmt Hr Ho. subst run.
  pose proof (@Execute_steps A repository.World HA domain.LocalSessionRepository
                request env) as H. cbv zeta in H.
  destruct (usecase.validateRequest request) as [err |].
  { destruct H as (H & _). rewrite H in Hok. discriminate. }
  destruct (domain.Login _ _ (usecase.authRepo env)) as [[s | e] a1].
  2: { destruct H as (H & _). rewrite H in Hok. discriminate. }
  change (domain.Save s (usecase.sessionRepo env))
    with (repository.Save s (usecase.sessionRepo env)) in H.
  destruct (repository.Save s (usecase.sessionRepo env)) as [[e |] r1] eqn:ES.
  { destruct H as (H & _). rewrite H in Hok. discriminate. }
  change (domain.SetCurrent s r1) with (repository.SetCurrent s r1) in H.
  destruct (repository.SetCurrent s r1) as [[e |] r2] eqn:EC.
  { destruct H as (H & _). rewrite H in Hok. discriminate. }
  destruct H as (H & _ & _ & Hrepo). rewrite H in Hok. injection Hok as <-.
  cbn [usecase.Success usecase.resp_SessionID usecase.resp_Username] in *.
  split; [reflexivity |]. rewrite Hrepo.
  assert (Hv : model.IsValid (entity.ID s) = true).
  { unfold model.IsValid. unfold model.String in Hfmt. rewrite Hfmt.
    rewrite (isValidSessionIDFormat_nonempty _ Hfmt). reflexivity. }
  destruct (current_after_save s _ _ _ Hv ES EC Hr Ho) as (s' & G & I1 & I2 & _).
  exists s'. split; [exact G |]. split; [now rewrite I1 |].
  split; [exact I2 |]. intros Hu. rewrite I2. exact (coerce_valid _ Hu).
Qed.

Lemma Execute_makes_current_witness :
  exists s',
    fst (repository.GetCurrent
           (usecase.sessionRepo
              (snd (ExecuteAOJ carolRequest
                      (loginEnv (answers 200 (Some carolResponse)) noFailure)))))
      = Ok s' /\
    model.String (entity.ID s') = model.String (mintedID bytes0) /\
    entity.Username s' = "carol"%string.
Proof.
  destruct (Execute_makes_current auth.World (domain.AOJAuthRepository repo0) carolRequest
              (loginEnv (answers 200 (Some carolResponse)) noFailure)
              (usecase.mkLoginResponse true "carol" (model.String (mintedID bytes0))
                 "Login successful"))
    as (_ & s' & G & I1 & _ & I2).
  - vm_compute. reflexivity.
  - vm_compute. reflexivity.
  - reflexivity.
  - reflexivity.
  - exists s'. split; [exact G |]. split; [exact I1 | exact (I2 eq_refl)].
Defined.

(** X28. The validation of the use case is stricter than [IsValid] of the
    login request of the domain: a request the use case accepts has a
    non-empty user name and a non-empty password, while a user name or a
    password made of white space only is rejected with [InvalidInput]. *)
Theorem validateRequest_strict (request : usecase.LoginRequest) :
  (usecase.validateRequest request = None ->
   domain.LoginRequest_IsValid
     (domain.NewLoginRequest (usecase.req_Username request)
        (usecase.req_Password request)) = true) /\
  (allSpace (usecase.req_Username request) = true ->
   usecase.validateRequest request
     = Some (AppError CodeInvalidInput "username cannot be empty" None)) /\
  (allSpace (usecase.req_Password request) = true ->
   exists err, usecase.validateRequest request = Some err /\
               GetErrorCode err = Some CodeInvalidInput).
Proof.
  unfold usecase.validateRequest, domain.LoginRequest_IsValid, domain.NewLoginRequest.
  cbn [domain.req_Username domain.req_Password].
  split; [| split].
  - destruct (String.eqb (strs.TrimSpace (usecase.req_Username request)) "") eqn:Hu;
      [discriminate |].
    destruct (String.eqb (strs.TrimSpace (usecase.req_Password request)) "") eqn:Hp;
      [discriminate |].
    intros _. rewrite (TrimSpace_nonempty _ Hu), (TrimSpace_nonempty _ Hp). reflexivity.
  - intros H. rewrite (TrimSpace_allSpace _ H). reflexivity.
  - intros H. rewrite (TrimSpace_allSpace _ H).
    destruct (String.eqb (strs.TrimSpace (usecase.req_Username request)) "");
      eexists; split; reflexivity.
Qed.

Lemma validateRequest_strict_witness :
  usecase.validateRequest blankRequest
    = Some (AppError CodeInvalidInput "username cannot be empty" None) /\
  domain.LoginRequest_IsValid (domain.NewLoginRequest "carol" "pw") = true.
Proof.
  destruct (validateRequest_strict blankRequest) as (_ & H & _).
  destruct (validateRequest_strict carolRequest) as (H' & _).
  split; [apply H; reflexivity | apply H'; reflexivity].
Defined.
